(** * HR recruitment funnel: feature engineering and A/B evaluation

    A shallow embedding of the Python sources

      - [src/python/ab_testing.py]          (class [ABTestingFramework])
      - [src/python/feature_engineering.py] (class [FeatureEngineer],
                                             [create_target_variable])
      - [src/python/ml_model.py]            (the resampling step of
                                             [RecruitmentMLModel.train])

    Modelling conventions.

      - A Python [int] is a [Z]; a numpy [int64] is a [Z] kept in range by
        [wrap64].
      - A [float] is a [pyfloat]: an exact rational ([Qc], so that equal
        values are equal terms), an infinity or NaN.  NaN and infinity
        propagation is modelled.  Arithmetic is exact, except where a
        whole number is taken from a quotient of the caller's numbers
        ([recommend_test_duration]): there the quotient is rounded to
        binary64 ([binary64]).
      - A raised exception is the [Raise] branch of [result].
      - pandas tables live in a heap of frames addressed by references, so
        that [df.copy()] and column assignment have their aliasing
        behaviour.
      - Library functions whose values are not rational (square root,
        arcsine, logarithm, the chi-square tail, the power solver, random
        draws) are fields of type classes; the library routines that the
        claims depend on and that are rational ([chi2_contingency],
        [LabelEncoder]) are written out from their documented behaviour.
      - imblearn's resampler is not among the sources; it is modelled from
        the specification (module [Resampler]). *)

From Stdlib Require Import ZArith QArith Qcanon Qround Lqa.
From stdpp Require Import gmap strings list numbers sorting pretty.

Open Scope Z_scope.

(** Rational arithmetic is kept folded by [simpl] and [cbn]. *)
Arguments Qcplus : simpl never.
Arguments Qcminus : simpl never.
Arguments Qcmult : simpl never.
Arguments Qcdiv : simpl never.
Arguments Qcopp : simpl never.
Arguments Qcinv : simpl never.
Arguments Qc_of_Z : simpl never.
Arguments Q2Qc : simpl never.
Arguments Qceiling : simpl never.
Arguments Qfloor : simpl never.

(** ** Exceptions and results *)

Inductive py_exception :=
| ZeroDivisionError
| ValueError
| OverflowError
| KeyError
| TypeError
| NameError
| NotFittedError
| InsufficientSamplesError.

Inductive result (A : Type) :=
| Ok (a : A)
| Raise (e : py_exception).
Arguments Ok {A} a.
Arguments Raise {A} e.

Definition rbind {A B} (r : result A) (k : A -> result B) : result B :=
  match r with
  | Ok a => k a
  | Raise e => Raise e
  end.

Declare Scope result_scope.
Delimit Scope result_scope with result.
Notation "'let?' x ':=' r 'in' k" := (rbind r (fun x => k))
  (at level 10, x pattern, r at level 100, k at level 200) : result_scope.

Definition returns {A} (r : result A) : Prop := exists a, r = Ok a.

#[global] Instance py_exception_eq_dec : EqDecision py_exception.
Proof. solve_decision. Defined.

#[global] Instance result_eq_dec {A} `{EqDecision A} : EqDecision (result A).
Proof. solve_decision. Defined.

(** ** Floating point values *)

Module PyFloat.

Inductive pyfloat :=
| Fin (q : Qc)
| Inf (neg : bool)
| NaN.

Definition of_Z (z : Z) : pyfloat := Fin (Qc_of_Z z).

Definition Qc_negb (q : Qc) : bool := bool_decide (q < 0)%Qc.

Definition fneg (x : pyfloat) : pyfloat :=
  match x with
  | Fin q => Fin (- q)%Qc
  | Inf n => Inf (negb n)
  | NaN => NaN
  end.

Definition fadd (x y : pyfloat) : pyfloat :=
  match x, y with
  | Fin a, Fin b => Fin (a + b)%Qc
  | Fin _, Inf n | Inf n, Fin _ => Inf n
  | Inf n, Inf m => if Bool.eqb n m then Inf n else NaN
  | _, _ => NaN
  end.

Definition fsub (x y : pyfloat) : pyfloat := fadd x (fneg y).

Definition fmul (x y : pyfloat) : pyfloat :=
  match x, y with
  | Fin a, Fin b => Fin (a * b)%Qc
  | Fin a, Inf n | Inf n, Fin a =>
      if bool_decide (a = 0%Qc) then NaN else Inf (xorb n (Qc_negb a))
  | Inf n, Inf m => Inf (xorb n m)
  | _, _ => NaN
  end.

(** numpy division: a zero divisor gives an infinity or NaN, never an
    exception. *)
Definition np_div (x y : pyfloat) : pyfloat :=
  match x, y with
  | Fin a, Fin b =>
      if bool_decide (b = 0%Qc)
      then (if bool_decide (a = 0%Qc) then NaN else Inf (Qc_negb a))
      else Fin (a / b)%Qc
  | Fin _, Inf _ => Fin 0%Qc
  | Inf n, Fin b => Inf (xorb n (Qc_negb b))
  | _, _ => NaN
  end.

(** Python division of [int]s and [float]s: a zero divisor raises. *)
Definition py_truediv (x y : pyfloat) : result pyfloat :=
  match y with
  | Fin b => if bool_decide (b = 0%Qc) then Raise ZeroDivisionError
             else Ok (np_div x y)
  | _ => Ok (np_div x y)
  end.

(** [x < y]; every comparison with NaN is false. *)
Definition flt (x y : pyfloat) : bool :=
  match x, y with
  | Fin a, Fin b => bool_decide (a < b)%Qc
  | Fin _, Inf n => negb n
  | Inf n, Fin _ => n
  | Inf n, Inf m => n && negb m
  | _, _ => false
  end.

Definition feq (x y : pyfloat) : bool :=
  match x, y with
  | Fin a, Fin b => bool_decide (a = b)
  | Inf n, Inf m => Bool.eqb n m
  | _, _ => false
  end.

Definition fle (x y : pyfloat) : bool := flt x y || feq x y.

(** The builtin [min(a, b)]: [a] unless [b < a]. *)
Definition py_min (a b : pyfloat) : pyfloat := if flt b a then b else a.

Definition np_minimum (a b : pyfloat) : pyfloat :=
  match a, b with
  | NaN, _ | _, NaN => NaN
  | _, _ => if flt b a then b else a
  end.

Definition np_abs (x : pyfloat) : pyfloat :=
  match x with
  | Fin q => Fin (if Qc_negb q then - q else q)%Qc
  | Inf _ => Inf false
  | NaN => NaN
  end.

Definition np_sign (x : pyfloat) : pyfloat :=
  match x with
  | Fin q => Fin (if Qc_negb q then (-1) else if bool_decide (q = 0) then 0 else 1)%Qc
  | Inf n => Fin (if n then (-1) else 1)%Qc
  | NaN => NaN
  end.

Definition np_ceil (x : pyfloat) : pyfloat :=
  match x with
  | Fin q => Fin (Qc_of_Z (Qceiling q))
  | _ => x
  end.

(** [int(x)]: truncation towards zero; infinities and NaN raise. *)
Definition py_int (x : pyfloat) : result Z :=
  match x with
  | Fin q => Ok (if Qc_negb q then Qceiling q else Qfloor q)
  | Inf _ => Raise OverflowError
  | NaN => Raise ValueError
  end.

Definition is_nan (x : pyfloat) : bool :=
  match x with NaN => true | _ => false end.

#[global] Instance pyfloat_eq_dec : EqDecision pyfloat.
Proof. solve_decision. Defined.

End PyFloat.
Export PyFloat.

(** ** Rounding to binary64

    Where a whole number is taken from a quotient, the rounding of the
    quotient decides the result.  [binary64 q] is the binary64 number
    nearest to [q], the one with an even significand of two equally near,
    an infinity from [2 ^ 1024] on. *)

(** [2 ^ e] for an exponent of either sign. *)
Definition pow2 (e : Z) : Qc :=
  if bool_decide (0 <= e) then Qc_of_Z (2 ^ e) else (/ Qc_of_Z (2 ^ (- e)))%Qc.

Definition Qc_abs (q : Qc) : Qc := if Qc_negb q then (- q)%Qc else q.

(** The nearest integer, the even one of two that are equally near. *)
Definition round_half_even (q : Qc) : Z :=
  let f := Qfloor q in
  let r := (q - Qc_of_Z f)%Qc in
  if bool_decide (r + r < 1)%Qc then f
  else if bool_decide (1 < r + r)%Qc then f + 1
  else if Z.even f then f else f + 1.

(** The exponent [e] of the unit in the last place at [q]:
    [2 ^ (e + 52) <= |q| < 2 ^ (e + 53)] for a normal number, and [-1074]
    for the subnormal numbers below [2 ^ -1022].  [|q|] is counted in
    units of [2 ^ -1074], the smallest positive number. *)
Definition binary64_exponent (q : Qc) : Z :=
  Z.max (Z.log2 (Qfloor (Qc_abs q * pow2 1074)%Qc) - 52) 0 - 1074.

Definition binary64 (q : Qc) : pyfloat :=
  let e := binary64_exponent q in
  let v := (Qc_of_Z (round_half_even (q / pow2 e)) * pow2 e)%Qc in
  if bool_decide (pow2 1024 <= Qc_abs v)%Qc then Inf (Qc_negb q) else Fin v.

(** The value of an operation whose exact result is [x]. *)
Definition round64 (x : pyfloat) : pyfloat :=
  match x with
  | Fin q => binary64 q
  | _ => x
  end.

(** ** Python numbers *)

Inductive pynum :=
| PyInt (z : Z)
| PyFloat (x : pyfloat).

(** [a / y] for an [int] [a].  The quotient of two [int]s is rounded
    once, and raises when it is beyond the range of a [float]; before a
    division by a [float] the [int] is converted, which rounds it and
    raises when it is beyond the range. *)
Definition int_truediv (a : Z) (y : pynum) : result pyfloat :=
  match y with
  | PyInt d =>
      if bool_decide (d = 0) then Raise ZeroDivisionError
      else match binary64 (Qc_of_Z a / Qc_of_Z d) with
           | Inf _ => Raise OverflowError
           | q => Ok q
           end
  | PyFloat y =>
      match binary64 (Qc_of_Z a) with
      | Inf _ => Raise OverflowError
      | x => rbind (py_truediv x y) (fun q => Ok (round64 q))
      end
  end.

(** numpy [int64] wrap-around. *)
Definition wrap64 (z : Z) : Z := (z + 2 ^ 63) mod 2 ^ 64 - 2 ^ 63.

(** ** External libraries

    Functions of numpy, scipy and pandas that the sources call and whose
    values are not rational are kept abstract. *)

Class NumpyMath := {
  np_sqrt : pyfloat -> pyfloat;
  np_arcsin : pyfloat -> pyfloat;
  np_log1p : pyfloat -> pyfloat;
  (** [str(x)] of a float, as [astype(str)] renders it *)
  float_str : pyfloat -> string
}.

Class ScipyStats := {
  (** [scipy.stats.chi2.sf(x, 1)]: the upper tail of the chi-square
      distribution with one degree of freedom *)
  chi2_sf : pyfloat -> pyfloat
}.

Class PandasSampling := {
  (** [DataFrame.sample(n=n, random_state=42)] on a frame of [len] rows:
      the positions of the rows drawn, [sample_rows len n] *)
  sample_rows : nat -> nat -> list nat
}.

(** ** pandas columns and frames *)

Module Pandas.

Open Scope result_scope.

Inductive column :=
| IntCol (xs : list Z)
| FloatCol (xs : list pyfloat)
| ObjCol (xs : list (option string)).

#[global] Instance column_eq_dec : EqDecision column.
Proof. solve_decision. Defined.

Inductive dtype := int64 | float64 | object.

Definition col_dtype (c : column) : dtype :=
  match c with
  | IntCol _ => int64
  | FloatCol _ => float64
  | ObjCol _ => object
  end.

Definition col_len (c : column) : nat :=
  match c with
  | IntCol xs => length xs
  | FloatCol xs => length xs
  | ObjCol xs => length xs
  end.

(** A frame is the ordered list of its named columns. *)
Definition DataFrame := list (string * column).

Definition df_columns (df : DataFrame) : list string := df.*1.

Definition has_column (df : DataFrame) (name : string) : bool :=
  bool_decide (name ∈ df_columns df).

Fixpoint frame_get (df : DataFrame) (name : string) : option column :=
  match df with
  | [] => None
  | (n, c) :: rest => if decide (n = name) then Some c else frame_get rest name
  end.

(** [df[name]] *)
Definition getitem (df : DataFrame) (name : string) : result column :=
  match frame_get df name with
  | Some c => Ok c
  | None => Raise KeyError
  end.

(** [df[name] = c]: replaces the column in place, or appends it. *)
Fixpoint setitem (df : DataFrame) (name : string) (c : column) : DataFrame :=
  match df with
  | [] => [(name, c)]
  | (n, c0) :: rest =>
      if decide (n = name) then (name, c) :: rest
      else (n, c0) :: setitem rest name c
  end.

(** [len(df)] *)
Definition df_len (df : DataFrame) : nat :=
  match df with
  | [] => 0%nat
  | (_, c) :: _ => col_len c
  end.

(** *** Boolean series *)

(** [c == s] for a string [s] *)
Definition eq_str (c : column) (s : string) : list bool :=
  match c with
  | IntCol xs => (fun _ => false) <$> xs
  | FloatCol xs => (fun _ => false) <$> xs
  | ObjCol xs => (fun x => bool_decide (x = Some s)) <$> xs
  end.

(** [c != s] *)
Definition ne_str (c : column) (s : string) : list bool :=
  negb <$> eq_str c s.

Definition bool_sum (m : list bool) : Z :=
  Z.of_nat (length (filter (fun b => b = true) m)).

(** [m.mean()]: NaN on an empty series *)
Definition bool_mean (m : list bool) : pyfloat :=
  np_div (of_Z (bool_sum m)) (of_Z (Z.of_nat (length m))).

(** [m.astype(int)] *)
Definition astype_int (m : list bool) : column := IntCol (Z.b2z <$> m).

(** Rows selected by a boolean mask, [xs[m]] *)
Fixpoint mask_rows {A} (m : list bool) (xs : list A) : list A :=
  match m, xs with
  | b :: m', x :: xs' => if b then x :: mask_rows m' xs' else mask_rows m' xs'
  | _, _ => []
  end.

Definition col_filter (m : list bool) (c : column) : column :=
  match c with
  | IntCol xs => IntCol (mask_rows m xs)
  | FloatCol xs => FloatCol (mask_rows m xs)
  | ObjCol xs => ObjCol (mask_rows m xs)
  end.

(** [df[m]] *)
Definition df_filter (m : list bool) (df : DataFrame) : DataFrame :=
  prod_map id (col_filter m) <$> df.

(** Rows at the given positions. *)
Definition take_rows {A} (idx : list nat) (xs : list A) : list A :=
  omap (fun i => xs !! i) idx.

Definition col_take (idx : list nat) (c : column) : column :=
  match c with
  | IntCol xs => IntCol (take_rows idx xs)
  | FloatCol xs => FloatCol (take_rows idx xs)
  | ObjCol xs => ObjCol (take_rows idx xs)
  end.

Definition df_take (idx : list nat) (df : DataFrame) : DataFrame :=
  prod_map id (col_take idx) <$> df.

(** *** Numeric series

    An object column stands for a column of strings, as [read_csv] yields
    for a column with an entry that is not a number: arithmetic on it
    raises [TypeError].  (An object column with no string in it, as in a
    table with a header and no record, is not modelled: pandas computes
    on it.) *)

Definition to_floats (c : column) : result (list pyfloat) :=
  match c with
  | IntCol xs => Ok (of_Z <$> xs)
  | FloatCol xs => Ok xs
  | ObjCol _ => Raise TypeError
  end.

Definition fsum (xs : list pyfloat) : pyfloat := foldl fadd (of_Z 0) xs.

(** The values a reduction sees: pandas skips NaN. *)
Definition dropna (xs : list pyfloat) : list pyfloat :=
  filter (fun x => is_nan x = false) xs.

(** [c.mean()]: NaN when nothing is left *)
Definition series_mean (c : column) : result pyfloat :=
  let? xs := to_floats c in
  let vs := dropna xs in
  Ok (np_div (fsum vs) (of_Z (Z.of_nat (length vs)))).

(** [c.std()]: the sample deviation, NaN below two values *)
Definition series_std `{NumpyMath} (c : column) : result pyfloat :=
  let? xs := to_floats c in
  let vs := dropna xs in
  let n := length vs in
  if bool_decide (n <= 1)%nat then Ok NaN
  else
    let m := np_div (fsum vs) (of_Z (Z.of_nat n)) in
    let squares := (fun x => fmul (fsub x m) (fsub x m)) <$> vs in
    Ok (np_sqrt (np_div (fsum squares) (of_Z (Z.of_nat n - 1)))).

(** [c ** 2] *)
Definition col_pow2 (c : column) : result column :=
  match c with
  | IntCol xs => Ok (IntCol ((fun x => wrap64 (x * x)) <$> xs))
  | FloatCol xs => Ok (FloatCol ((fun x => fmul x x) <$> xs))
  | ObjCol _ => Raise TypeError
  end.

(** [c - s] and [c / s] for a float [s] *)
Definition col_sub_scalar (c : column) (s : pyfloat) : result column :=
  let? xs := to_floats c in Ok (FloatCol ((fun x => fsub x s) <$> xs)).

Definition col_div_scalar (c : column) (s : pyfloat) : result column :=
  let? xs := to_floats c in Ok (FloatCol ((fun x => np_div x s) <$> xs)).

(** [c <= k], [c >= k] and [c > k] for an int [k] *)
Definition col_le (c : column) (k : Z) : result (list bool) :=
  let? xs := to_floats c in Ok ((fun x => fle x (of_Z k)) <$> xs).

Definition col_ge (c : column) (k : Z) : result (list bool) :=
  let? xs := to_floats c in Ok ((fun x => fle (of_Z k) x) <$> xs).

Definition col_gt (c : column) (k : Z) : result (list bool) :=
  let? xs := to_floats c in Ok ((fun x => flt (of_Z k) x) <$> xs).

(** [np.log1p(c)] *)
Definition col_log1p `{NumpyMath} (c : column) : result column :=
  let? xs := to_floats c in Ok (FloatCol (np_log1p <$> xs)).

(** [c1 * c2] for columns of numbers.  (The product of a column of
    integers and a column of strings, which pandas forms by repeating the
    strings, is not modelled: it raises here.) *)
Definition col_mul (c1 c2 : column) : result column :=
  match c1, c2 with
  | IntCol xs, IntCol ys =>
      Ok (IntCol (zip_with (fun x y => wrap64 (x * y)) xs ys))
  | _, _ =>
      let? xs := to_floats c1 in
      let? ys := to_floats c2 in
      Ok (FloatCol (zip_with fmul xs ys))
  end.

(** [c.astype(str)] *)
Definition astype_str `{NumpyMath} (c : column) : list string :=
  match c with
  | IntCol xs => pretty <$> xs
  | FloatCol xs => float_str <$> xs
  | ObjCol xs => (fun x => default "nan"%string x) <$> xs
  end.

(** *** Grouping keys *)

Inductive cell :=
| CInt (z : Z)
| CFloat (x : pyfloat)
| CStr (s : string)
| CMissing.

#[global] Instance cell_eq_dec : EqDecision cell.
Proof. solve_decision. Defined.

Definition cells (c : column) : list cell :=
  match c with
  | IntCol xs => CInt <$> xs
  | FloatCol xs => (fun x => if is_nan x then CMissing else CFloat x) <$> xs
  | ObjCol xs => (fun x => from_option CStr CMissing x) <$> xs
  end.

(** The dictionary [groupby(key)[...].apply(f).to_dict()]: one entry for
    each key that is not missing, [f] applied to the rows of its group. *)
Definition groupby_apply {A B} (keys : list cell) (vals : list A)
    (f : list A -> B) : list (cell * B) :=
  (fun k => (k, f (mask_rows ((fun k' => bool_decide (k' = k)) <$> keys) vals)))
    <$> remove_dups (filter (fun k => k <> CMissing) keys).

Fixpoint dict_get {B} (d : list (cell * B)) (k : cell) : option B :=
  match d with
  | [] => None
  | (k', v) :: rest => if decide (k' = k) then Some v else dict_get rest k
  end.

(** [c.map(d)]: NaN where the key has no entry *)
Definition series_map (c : column) (d : list (cell * pyfloat)) : column :=
  FloatCol ((fun k => default NaN (dict_get d k)) <$> cells c).

(** *** Missing values *)

Definition fle_prop (x y : pyfloat) : Prop := fle x y = true.

#[global] Instance fle_prop_dec : RelDecision fle_prop.
Proof. intros x y. unfold fle_prop. apply _. Defined.

(** [c.median()] of a float column: the middle of the sorted values that
    are not NaN, the mean of the two middle ones when their number is
    even, NaN when there is none. *)
Definition median (xs : list pyfloat) : pyfloat :=
  let vs := merge_sort fle_prop (dropna xs) in
  let n := length vs in
  if bool_decide (n = 0)%nat then NaN
  else if Nat.odd n then default NaN (vs !! (n / 2)%nat)
  else np_div (fadd (default NaN (vs !! (n / 2 - 1)%nat))
                    (default NaN (vs !! (n / 2)%nat)))
              (of_Z 2).

(** [c.fillna(v)] *)
Definition fillna (xs : list pyfloat) (v : pyfloat) : list pyfloat :=
  (fun x => if is_nan x then v else x) <$> xs.

End Pandas.

(** ** [sklearn.preprocessing.LabelEncoder]

    The classes of a fitted encoder are the sorted distinct labels; a
    label is encoded as its position among them.  [transform] raises
    [NotFittedError] before [fit] and [ValueError] on a label that is not
    among the classes; an empty input is encoded as an empty float
    array. *)

Module LabelEncoder.

Import Pandas.

Record t := { classes_ : option (list string) }.

#[global] Instance t_eq_dec : EqDecision t.
Proof. solve_decision. Defined.

Definition unfitted : t := {| classes_ := None |}.

Definition string_le (a b : string) : Prop := String.leb a b = true.

#[global] Instance string_le_dec : RelDecision string_le.
Proof. intros a b. unfold string_le. apply _. Defined.

Definition unique (ys : list string) : list string :=
  merge_sort string_le (remove_dups ys).

Definition index_of (classes : list string) (y : string) : option nat :=
  fst <$> list_find (fun c => c = y) classes.

Definition map_to_integer (classes : list string) (ys : list string)
    : option column :=
  codes ← mapM (index_of classes) ys;
  Some (match codes with
        | [] => FloatCol []
        | _ => IntCol (Z.of_nat <$> codes)
        end).

Definition fit_transform (ys : list string) : result (t * column) :=
  let classes := unique ys in
  match map_to_integer classes ys with
  | Some codes => Ok ({| classes_ := Some classes |}, codes)
  | None => Raise KeyError
  end.

Definition transform (enc : t) (ys : list string) : result column :=
  match classes_ enc with
  | None => Raise NotFittedError
  | Some classes =>
      match map_to_integer classes ys with
      | Some codes => Ok codes
      | None => Raise ValueError
      end
  end.

End LabelEncoder.

(** ** Statements with effects

    [SE S A] is a computation over a mutable state [S] that returns an [A]
    or raises; what was mutated before an exception stays mutated. *)

Definition SE (S A : Type) : Type := S -> result A * S.

#[global] Instance SE_ret {S} : MRet (SE S) := fun A a s => (Ok a, s).

#[global] Instance SE_bind {S} : MBind (SE S) := fun A B k m s =>
  match m s with
  | (Ok a, s') => k a s'
  | (Raise e, s') => (Raise e, s')
  end.

(** A pure, possibly failing, expression. *)
Definition lift {S A} (r : result A) : SE S A := fun s => (r, s).

(** ** [feature_engineering.py] *)

Module FeatureEngineering.

Import Pandas.

(** The objects in play: the frames on the heap, each reached through a
    reference, and the [label_encoders] dictionary of the
    [FeatureEngineer] instance [self].  ([self.scaler] is created by
    [__init__] and never used.) *)
Definition ref := nat.

Record world := World {
  frames : gmap ref DataFrame;
  label_encoders : gmap string LabelEncoder.t
}.

(** The pair a method body works on: [self.label_encoders] and the frame
    bound to its local variable. *)
Definition locals : Type := gmap string LabelEncoder.t * DataFrame.

(** [df.copy()]: a new object with the same columns. *)
Definition df_copy (df : ref) : SE world ref := fun w =>
  match frames w !! df with
  | None => (Raise NameError, w)
  | Some f =>
      let r := fresh (dom (frames w)) in
      (Ok r, World (<[r := f]> (frames w)) (label_encoders w))
  end.

Definition df_read (df : ref) : SE world DataFrame := fun w =>
  match frames w !! df with
  | None => (Raise NameError, w)
  | Some f => (Ok f, w)
  end.

(** Statements that read and assign columns of the frame that [r] refers
    to, and entries of [self.label_encoders]. *)
Definition on_frame {A} (r : ref) (p : SE locals A) : SE world A := fun w =>
  match frames w !! r with
  | None => (Raise NameError, w)
  | Some f =>
      let '(res, (encoders, f')) := p (label_encoders w, f) in
      (res, World (<[r := f']> (frames w)) encoders)
  end.

(** Statements that touch the frame only. *)
Definition frame_only {A} (p : SE DataFrame A) : SE locals A := fun s =>
  let '(res, f') := p s.2 in (res, (s.1, f')).

(** [name in df.columns], [df[name]] and [df[name] = c] *)
Definition in_columns (name : string) : SE DataFrame bool :=
  fun f => (Ok (has_column f name), f).

Definition get_column (name : string) : SE DataFrame column :=
  fun f => (getitem f name, f).

Definition set_column (name : string) (c : column) : SE DataFrame unit :=
  fun f => (Ok tt, setitem f name c).

(** [name in self.label_encoders], [self.label_encoders[name]] and
    [self.label_encoders[name] = enc] *)
Definition in_encoders (name : string) : SE locals bool :=
  fun s => (Ok (bool_decide (is_Some (s.1 !! name))), s).

Definition get_encoder (name : string) : SE locals LabelEncoder.t :=
  fun s => (from_option Ok (Raise KeyError) (s.1 !! name), s).

Definition set_encoder (name : string) (enc : LabelEncoder.t) : SE locals unit :=
  fun s => (Ok tt, (<[name := enc]> s.1, s.2)).

Definition categorical_cols : list string :=
  ["Source"; "Job_Role"; "Department"; "Gender"; "EducationField"]%string.

(** One turn of the loop over [categorical_cols].  [fit_transform] stores
    the classes in the encoder object that the dictionary holds. *)
Definition encode_categorical `{NumpyMath} (col : string) : SE locals unit :=
  present ← frame_only (in_columns col);
  if present : bool then
    known ← in_encoders col;
    if negb known then
      set_encoder col LabelEncoder.unfitted;;
      enc ← get_encoder col;
      values ← frame_only (get_column col);
      fitted ← lift (LabelEncoder.fit_transform (astype_str values));
      set_encoder col fitted.1;;
      frame_only (set_column (col +:+ "_encoded") fitted.2)
    else
      enc ← get_encoder col;
      values ← frame_only (get_column col);
      codes ← lift (LabelEncoder.transform enc (astype_str values));
      frame_only (set_column (col +:+ "_encoded") codes)
  else mret tt.

Fixpoint for_each {S A} (body : A -> SE S unit) (xs : list A) : SE S unit :=
  match xs with
  | [] => mret tt
  | x :: rest => body x;; for_each body rest
  end.

Definition when {S} (b : bool) (p : SE S unit) : SE S unit :=
  if b then p else mret tt.

(** The success rate of a source: [(x == 'Hired').sum() / len(x) if
    len(x) > 0 else 0] over the statuses [x] of its records. *)
Definition hired_share (hired : list bool) : pyfloat :=
  if bool_decide (0 < length hired)%nat
  then np_div (of_Z (bool_sum hired)) (of_Z (Z.of_nat (length hired)))
  else of_Z 0.

(** Sections 2 to 6 of [create_features]. *)
Definition derived_features `{NumpyMath} : SE DataFrame unit :=
  has_age ← in_columns "Age";
  when has_age (
    age ← get_column "Age";
    squared ← lift (col_pow2 age);
    set_column "Age_squared" squared;;
    age ← get_column "Age";
    mean ← lift (series_mean age);
    centred ← lift (col_sub_scalar age mean);
    std ← lift (series_std age);
    normalized ← lift (col_div_scalar centred std);
    set_column "Age_normalized" normalized);;
  has_education ← in_columns "Education";
  when has_education (
    education ← get_column "Education";
    set_column "Education_level" education);;
  has_stage ← in_columns "Stage_Sequence";
  when has_stage (
    stage ← get_column "Stage_Sequence";
    progress ← lift (col_div_scalar stage (of_Z 8));
    set_column "Stage_progress" progress;;
    stage ← get_column "Stage_Sequence";
    early ← lift (col_le stage 3);
    set_column "Is_early_stage" (astype_int early);;
    stage ← get_column "Stage_Sequence";
    late ← lift (col_ge stage 6);
    set_column "Is_late_stage" (astype_int late));;
  has_days ← in_columns "Days_Since_Application";
  when has_days (
    days ← get_column "Days_Since_Application";
    logged ← lift (col_log1p days);
    set_column "Days_log" logged;;
    days ← get_column "Days_Since_Application";
    slow ← lift (col_gt days 50);
    set_column "Is_slow_process" (astype_int slow));;
  has_source ← in_columns "Source";
  has_status ← in_columns "Status";
  when (has_source && has_status) (
    source ← get_column "Source";
    status ← get_column "Status";
    let source_success :=
      groupby_apply (cells source) (eq_str status "Hired") hired_share in
    source ← get_column "Source";
    set_column "Source_success_rate" (series_map source source_success));;
  has_age ← in_columns "Age";
  has_education ← in_columns "Education";
  when (has_age && has_education) (
    age ← get_column "Age";
    education ← get_column "Education";
    interaction ← lift (col_mul age education);
    set_column "Age_Education_interaction" interaction).

(** [FeatureEngineer.create_features(self, df)] *)
Definition create_features `{NumpyMath} (df : ref) : SE world ref :=
  df_features ← df_copy df;
  on_frame df_features (
    for_each encode_categorical categorical_cols;;
    frame_only derived_features);;
  mret df_features.

(** [create_target_variable(df)].  The counts that follow the assignment
    are only printed; their division is numpy's and does not raise. *)
Definition create_target_variable (df : ref) : SE world ref :=
  df_target ← df_copy df;
  on_frame df_target (frame_only (
    status ← get_column "Status";
    set_column "will_drop_off" (astype_int (eq_str status "Rejected"))));;
  mret df_target.

(** [FeatureEngineer.prepare_for_modeling(self, df, target_col,
    feature_cols)] *)
Definition exclude_cols (target_col : string) : list string :=
  [target_col; "Applicant_ID"; "Application_Date"; "Stage_Date"; "Stage";
   "Status"; "Source"; "Job_Role"; "Department"; "Gender";
   "EducationField"]%string.

#[global] Instance dtype_eq_dec : EqDecision dtype.
Proof. solve_decision. Defined.

Definition auto_feature_cols (f : DataFrame) (target_col : string) : list string :=
  (filter (fun nc => (nc.1 ∉ exclude_cols target_col) /\
                     (col_dtype nc.2 ∈ [int64; float64])) f).*1.

(** [X.fillna(X.median())], column by column *)
Definition fillna_median (c : column) : result column :=
  match c with
  | IntCol xs => Ok (IntCol xs)
  | FloatCol xs => Ok (FloatCol (fillna xs (median xs)))
  | ObjCol _ => Raise TypeError
  end.

Fixpoint select_columns (f : DataFrame) (names : list string) : result DataFrame :=
  match names with
  | [] => Ok []
  | n :: rest =>
      rbind (getitem f n) (fun c =>
      rbind (select_columns f rest) (fun X => Ok ((n, c) :: X)))
  end.

Fixpoint fillna_medians (X : DataFrame) : result DataFrame :=
  match X with
  | [] => Ok []
  | (n, c) :: rest =>
      rbind (fillna_median c) (fun c' =>
      rbind (fillna_medians rest) (fun X' => Ok ((n, c') :: X')))
  end.

Definition prepare_for_modeling (df : ref) (target_col : string)
    (feature_cols : option (list string))
    : SE world (DataFrame * option column * list string) :=
  f ← df_read df;
  let feature_cols := default (auto_feature_cols f target_col) feature_cols in
  X ← lift (select_columns f feature_cols);
  X ← lift (fillna_medians X);
  let y := if has_column f target_col then frame_get f target_col else None in
  mret (X, y, feature_cols).

End FeatureEngineering.

(** ** [scipy.stats.chi2_contingency] on a 2x2 table

    The library routine, with its default continuity correction: the
    expected frequencies come from the marginal sums, a negative
    observation or a zero expected frequency raises [ValueError], each
    observation is moved towards its expectation by at most one half
    (Yates), and the p-value is the upper tail at the Pearson statistic.
    A 2x2 table always has one degree of freedom. *)

Module Scipy.

Definition contingency (A : Type) : Type := ((A * A) * (A * A))%type.

Definition cells4 {A} (t : contingency A) : list A :=
  let '((a, b), (c, d)) := t in [a; b; c; d].

(** [expected_freq] takes the table as float64: the margins and their
    products are sums and products of floats. *)
Definition expected_freq (o : contingency Z) : contingency pyfloat :=
  let '((a, b), (c, d)) := o in
  let row1 := a + b in
  let row2 := c + d in
  let col1 := a + c in
  let col2 := b + d in
  let total := a + b + c + d in
  let e r c := np_div (of_Z (r * c)) (of_Z total) in
  ((e row1 col1, e row1 col2), (e row2 col1, e row2 col2)).

Definition yates (o : Z) (e : pyfloat) : pyfloat :=
  let diff := fsub e (of_Z o) in
  let direction := np_sign diff in
  let magnitude := np_minimum (Fin (Q2Qc (1 # 2))) (np_abs diff) in
  fadd (of_Z o) (fmul magnitude direction).

Definition pearson_term (o e : pyfloat) : pyfloat :=
  np_div (fmul (fsub o e) (fsub o e)) e.

Definition chi2_statistic (o : contingency Z) : pyfloat :=
  let '((a, b), (c, d)) := o in
  let '((ea, eb), (ec, ed)) := expected_freq o in
  fadd (fadd (fadd (pearson_term (yates a ea) ea) (pearson_term (yates b eb) eb))
             (pearson_term (yates c ec) ec))
       (pearson_term (yates d ed) ed).

(** The p-value of the chi-square independence test on the table. *)
Definition chi2_p_value `{ScipyStats} (o : contingency Z) : pyfloat :=
  chi2_sf (chi2_statistic o).

(** Returns the statistic and the p-value. *)
Definition chi2_contingency `{ScipyStats} (o : contingency Z)
    : result (pyfloat * pyfloat) :=
  if existsb (fun x => bool_decide (x < 0)) (cells4 o) then Raise ValueError
  else if existsb (fun e => feq e (Fin 0%Qc)) (cells4 (expected_freq o))
  then Raise ValueError
  else Ok (chi2_statistic o, chi2_p_value o).

End Scipy.

Class StatsmodelsPower := {
  (** [zt_ind_solve_power(effect_size, alpha, power,
      alternative='two-sided')], solved for the sample size *)
  zt_ind_solve_power : pyfloat -> pyfloat -> pyfloat -> pyfloat
}.

(** ** [ab_testing.py]: class [ABTestingFramework] *)

Module ABTesting.

Import Pandas Scipy.
Open Scope result_scope.

Record simulation := {
  sim_stage : string;
  sim_sample_size : nat;
  baseline_pass_rate : pyfloat;
  new_pass_rate : pyfloat;
  baseline_passed : Z;
  expected_passed : Z;
  additional_passed : Z;
  improvement_pct : pyfloat
}.

(** [simulate_intervention(self, stage, improvement_rate, sample_size)]
    with [self.df = df]; [sample_size] is [None] or an [int]. *)
Definition simulate_intervention `{PandasSampling} (df : DataFrame)
    (stage : string) (improvement_rate : pyfloat) (sample_size : option Z)
    : result simulation :=
  let? stage_col := getitem df "Stage" in
  let stage_data := df_filter (eq_str stage_col stage) df in
  let? stage_data :=
    match sample_size with
    | None => Ok stage_data
    | Some size =>
        if bool_decide (size = 0) then Ok stage_data
        else
          let n := Z.min size (Z.of_nat (df_len stage_data)) in
          if bool_decide (n < 0) then Raise ValueError
          else Ok (df_take (sample_rows (df_len stage_data) (Z.to_nat n))
                           stage_data)
    end in
  let? status := getitem stage_data "Status" in
  let baseline_pass_rate := bool_mean (ne_str status "Rejected") in
  let baseline_passed := bool_sum (ne_str status "Rejected") in
  let new_pass_rate :=
    py_min (fmul baseline_pass_rate (fadd (of_Z 1) improvement_rate))
           (Fin 1%Qc) in
  let? expected_passed :=
    py_int (fmul (of_Z (Z.of_nat (df_len stage_data))) new_pass_rate) in
  let additional_passed := expected_passed - baseline_passed in
  Ok {| sim_stage := stage;
        sim_sample_size := df_len stage_data;
        baseline_pass_rate := baseline_pass_rate;
        new_pass_rate := new_pass_rate;
        baseline_passed := baseline_passed;
        expected_passed := expected_passed;
        additional_passed := additional_passed;
        improvement_pct :=
          fmul (np_div (fsub new_pass_rate baseline_pass_rate)
                       baseline_pass_rate)
               (of_Z 100) |}.

Record significance := {
  chi_square : pyfloat;
  p_value : pyfloat;
  is_significant : bool;
  alpha : pyfloat;
  cohens_h : pyfloat;
  control_rate : pyfloat;
  treatment_rate : pyfloat;
  relative_improvement : pyfloat
}.

(** [calculate_statistical_significance]; the four counts are Python
    [int]s. *)
Definition calculate_statistical_significance `{NumpyMath} `{ScipyStats}
    (control_success control_total treatment_success treatment_total : Z)
    (alpha : pyfloat) : result significance :=
  let contingency_table :=
    ((control_success, control_total - control_success),
     (treatment_success, treatment_total - treatment_success)) in
  let? test := chi2_contingency contingency_table in
  let chi2 := test.1 in
  let p_value := test.2 in
  let? p1 := py_truediv (of_Z control_success) (of_Z control_total) in
  let? p2 := py_truediv (of_Z treatment_success) (of_Z treatment_total) in
  let cohens_h :=
    fmul (of_Z 2) (fsub (np_arcsin (np_sqrt p2)) (np_arcsin (np_sqrt p1))) in
  let? relative_improvement :=
    if flt (of_Z 0) p1
    then (let? q := py_truediv (fsub p2 p1) p1 in Ok (fmul q (of_Z 100)))
    else Ok (of_Z 0) in
  Ok {| chi_square := chi2;
        p_value := p_value;
        is_significant := flt p_value alpha;
        alpha := alpha;
        cohens_h := cohens_h;
        control_rate := p1;
        treatment_rate := p2;
        relative_improvement := relative_improvement |}.

(** [power_analysis] *)
Definition power_analysis `{NumpyMath} `{StatsmodelsPower}
    (baseline_rate expected_improvement alpha power : pyfloat) : result Z :=
  let new_rate := fmul baseline_rate (fadd (of_Z 1) expected_improvement) in
  let effect_size :=
    fmul (of_Z 2)
         (fsub (np_arcsin (np_sqrt new_rate)) (np_arcsin (np_sqrt baseline_rate))) in
  let sample_size := zt_ind_solve_power effect_size alpha power in
  py_int (np_ceil sample_size).

(** [daily_applicants] is a Python number, [required_sample_size] an
    [int]. *)
Definition recommend_test_duration (daily_applicants : pynum)
    (required_sample_size : Z) : result Z :=
  let total_needed := required_sample_size * 2 in
  let? q := int_truediv total_needed daily_applicants in
  let days_needed := np_ceil q in
  py_int days_needed.

End ABTesting.

(** ** [ml_model.py]: the resampling step of [RecruitmentMLModel.train] *)

(** A pseudo-random generator in the manner of [numpy.random.RandomState]:
    the state reached from a seed, a draw of an integer below a bound and
    a draw of a number in the unit interval. *)
Class RandomState := {
  rng : Type;
  rng_seed : Z -> rng;
  rng_randint : nat -> rng -> nat * rng;
  rng_uniform : rng -> Qc * rng
}.

Module Resampler.

Import Pandas.

(** A feature vector, and a label ([true] is a drop-off). *)
Definition sample : Type := list Qc.

(** The number of samples that carry the label [b]. *)
Definition count_label (b : bool) (y : list bool) : nat :=
  length (filter (fun l => l = b) y).

(** Modelled from the spec: distance in feature space (the square of the
    Euclidean distance orders the neighbours as the distance does); the
    resampler is not part of the sources. *)
Definition sq_distance (a b : sample) : Qc :=
  foldr Qcplus 0%Qc (zip_with (fun x y => (x - y) * (x - y))%Qc a b).

Definition closer_to (x a b : sample) : Prop :=
  (sq_distance x a <= sq_distance x b)%Qc.

#[global] Instance closer_to_dec x : RelDecision (closer_to x).
Proof. intros a b. unfold closer_to. apply _. Defined.

(** Modelled from the spec: the nearest minority neighbours of a sample;
    the resampler is not part of the sources. *)
Definition nearest_neighbours (k : nat) (x : sample) (others : list sample)
    : list sample :=
  take k (merge_sort (closer_to x) others).

(** Modelled from the spec: a synthetic feature vector interpolated
    between a sample and a neighbour, at fraction [gap] of the way; the
    resampler is not part of the sources. *)
Definition interpolate (x neighbour : sample) (gap : Qc) : sample :=
  zip_with (fun a b => a + gap * (b - a))%Qc x neighbour.

(** Modelled from the spec: the synthetic minority samples of the
    resampler, which the sources obtain from imblearn's [SMOTE] and do not
    contain: each one interpolates between a minority sample and one of
    its nearest minority neighbours in feature space. *)
Fixpoint synthesize `{RandomState} (n : nat) (minority : list sample) (g : rng)
    : list sample * rng :=
  match n with
  | O => ([], g)
  | S n' =>
      let '(i, g) := rng_randint (length minority) g in
      let x := default [] (minority !! i) in
      let neighbours := nearest_neighbours 5 x (delete i minority) in
      let '(j, g) := rng_randint (length neighbours) g in
      let '(gap, g) := rng_uniform g in
      let s := interpolate x (default x (neighbours !! j)) gap in
      let '(rest, g) := synthesize n' minority g in
      (s :: rest, g)
  end.

(** Modelled from the spec: [resample(X, y) -> (X_balanced, y_balanced)],
    the class-balance resampler behind [SMOTE(random_state).fit_resample],
    which the sources call and do not contain.  Synthetic samples of the
    minority label are added until both classes reach equal count; fewer
    than two minority samples raise [InsufficientSamplesError].  With a
    seed the draws come from a generator of its own; without one, from the
    ambient generator, which is the state here. *)
Definition fit_resample `{RandomState} (random_state : option Z)
    (X : list sample) (y : list bool) : SE rng (list sample * list bool) :=
  fun ambient =>
  if bool_decide (length X <> length y) then (Raise ValueError, ambient)
  else
    let n1 := count_label true y in
    let n0 := count_label false y in
    let minority_label := bool_decide (n1 < n0)%nat in
    let n_min := Nat.min n0 n1 in
    let n_maj := Nat.max n0 n1 in
    if bool_decide (n_min < 2)%nat then (Raise InsufficientSamplesError, ambient)
    else
      let minority :=
        mask_rows ((fun l => bool_decide (l = minority_label)) <$> y) X in
      let start := from_option rng_seed ambient random_state in
      let '(synthetic, g) := synthesize (n_maj - n_min) minority start in
      (Ok (X ++ synthetic, y ++ replicate (n_maj - n_min) minority_label),
       match random_state with Some _ => ambient | None => g end).

(** Lines 49 to 56 of [train]: the resampler is seeded with 42 when
    [use_smote] is set, and skipped otherwise. *)
Definition train_balance `{RandomState} (use_smote : bool)
    (X_train : list sample) (y_train : list bool)
    : SE rng (list sample * list bool) :=
  if use_smote then fit_resample (Some 42) X_train y_train
  else mret (X_train, y_train).

End Resampler.

(** ** Closed inputs

    Small tables and stand-ins for the external libraries, on which the
    properties below are run. *)

(** Stand-ins for the external numerical functions: a table of the
    chi-square upper tail around its 5% critical value, and transcendental
    functions whose values are not inspected. *)
Definition tabulated_chi2 : ScipyStats :=
  {| chi2_sf x :=
       match x with
       | Fin q => if bool_decide (q < Q2Qc (38415 # 10000))%Qc
                  then Fin 1%Qc else Fin (Q2Qc (4999 # 100000))
       | Inf false => Fin 0%Qc
       | _ => NaN
       end |}.

Definition uninspected_numpy : NumpyMath :=
  {| np_sqrt x := x; np_arcsin x := x; np_log1p x := x;
     float_str _ := ""%string |}.

(** A sampler that draws the leading rows, and a small funnel table. *)
Definition leading_rows_sampling : PandasSampling :=
  {| sample_rows _ n := seq 0 n |}.

Definition technical_round_records : Pandas.DataFrame :=
  [("Stage", Pandas.ObjCol [Some "Technical Round"; Some "Technical Round";
                            Some "HR Round"; Some "Technical Round";
                            Some "Technical Round"]);
   ("Status", Pandas.ObjCol [Some "Passed"; Some "Rejected"; Some "Passed";
                             Some "Hired"; Some "Passed"])]%string.

(** A heap with one table of funnel records, and no encoder fitted yet. *)
Definition funnel_records : Pandas.DataFrame :=
  [("Source", Pandas.ObjCol [Some "LinkedIn"; Some "Referral"; Some "LinkedIn"; None]);
   ("Age", Pandas.IntCol [30; 40; 50; 20]);
   ("Education", Pandas.FloatCol [Fin 1%Qc; NaN; Fin (Q2Qc 3); Fin (Q2Qc 3)]);
   ("Status", Pandas.ObjCol [Some "Hired"; Some "Rejected"; Some "Passed"; Some "Hired"]);
   ("Stage_Sequence", Pandas.IntCol [1; 4; 6; 8])]%string.

Definition funnel_world : FeatureEngineering.world :=
  FeatureEngineering.World {[ 0%nat := funnel_records ]} ∅.

(** A fitting table and a table of new data, both with a missing age. *)
Definition fitting_and_new_tables : FeatureEngineering.world :=
  FeatureEngineering.World
    {[ 0%nat := [("Age"%string, Pandas.FloatCol [Fin (Q2Qc 1); Fin (Q2Qc 3); NaN])];
       1%nat := [("Age"%string, Pandas.FloatCol [Fin (Q2Qc 10); NaN; Fin (Q2Qc 20)])] ]}
    ∅.

(** A linear congruential generator, and a small training set. *)
Definition lcg_next (g : Z) : Z := (1103515245 * g + 12345) mod 2 ^ 31.

Definition lcg_random_state : RandomState :=
  {| rng := Z;
     rng_seed s := s mod 2 ^ 31;
     rng_randint n g := (Z.to_nat (g mod Z.max 1 (Z.of_nat n)), lcg_next g);
     rng_uniform g := (Q2Qc (g mod 1000 # 1000), lcg_next g) |}.

Definition training_samples : list Resampler.sample :=
  [[Q2Qc 1; Q2Qc 2]; [Q2Qc 3; Q2Qc 1]; [Q2Qc 0; Q2Qc 0]; [Q2Qc 5; Q2Qc 4];
   [Q2Qc 2; Q2Qc 2]; [Q2Qc 4; Q2Qc 1]; [Q2Qc 1; Q2Qc 0]].

Definition training_labels : list bool :=
  [true; false; false; false; true; false; false].

(** ** Well-formed frames

    pandas keeps the columns of a frame at one length, the number of its
    rows. *)
Definition rectangular (df : Pandas.DataFrame) : Prop :=
  Forall (fun nc => Pandas.col_len nc.2 = Pandas.df_len df) df.

#[global] Instance rectangular_dec (df : Pandas.DataFrame) : Decision (rectangular df).
Proof. unfold rectangular. apply _. Defined.

(** ** [ab_testing.py]: test 1 of [main]

    The simulation of the technical round on a sample of 500 with an
    improvement of 0.15, and the significance test on its counts, both
    groups having the size of the sample; [alpha] is left at its default
    0.05. *)
Module ABTestingMain.

Import ABTesting.
Open Scope result_scope.

Definition technical_round_test `{PandasSampling} `{NumpyMath} `{ScipyStats}
    (df : Pandas.DataFrame) : result (simulation * significance) :=
  let? tech_results :=
    simulate_intervention df "Technical Round" (Fin (Q2Qc (15 # 100))) (Some 500) in
  let? sig_results :=
    calculate_statistical_significance
      (baseline_passed tech_results)
      (Z.of_nat (sim_sample_size tech_results))
      (expected_passed tech_results)
      (Z.of_nat (sim_sample_size tech_results))
      (Fin (Q2Qc (5 # 100))) in
  Ok (tech_results, sig_results).

End ABTestingMain.

(** ** The columns that [create_features] assigns

    The encoded columns of section 1 and the derived columns of sections
    2 to 6. *)
Definition encoded_name (col : string) : string := col +:+ "_encoded".

Definition encoded_cols : list string :=
  encoded_name <$> FeatureEngineering.categorical_cols.

Definition derived_cols : list string :=
  ["Age_squared"; "Age_normalized"; "Education_level"; "Stage_progress";
   "Is_early_stage"; "Is_late_stage"; "Days_log"; "Is_slow_process";
   "Source_success_rate"; "Age_Education_interaction"]%string.

(** A statement that assigns no column of its frame outside [names],
    whether it completes or raises. *)
Definition assigns_only {S A} (frame_of : S -> Pandas.DataFrame)
    (names : list string) (p : SE S A) : Prop :=
  forall s res s', p s = (res, s') ->
    forall n, n ∉ names ->
      Pandas.frame_get (frame_of s') n = Pandas.frame_get (frame_of s) n.

(** ** [ml_model.py]: steps 2 and 3 of [main]

    The target variable, a new [FeatureEngineer], the features and the
    modelling tables; [feature_engineering.py] runs the same steps when
    executed as a script. *)
Module TrainingPipeline.

Import Pandas FeatureEngineering.

(** [fe = FeatureEngineer()]: [__init__] starts with no encoder. *)
Definition new_feature_engineer : SE world unit :=
  fun w => (Ok tt, World (frames w) ∅).

Definition prepare_training_data `{NumpyMath} (df : ref)
    : SE world (DataFrame * option column * list string) :=
  df ← create_target_variable df;
  new_feature_engineer;;
  df_features ← create_features df;
  prepare_for_modeling df_features "will_drop_off" None.

End TrainingPipeline.

(** ** The sections of [create_features], one by one

    Sections 2 to 6 as separate statements; run in sequence they are
    [derived_features]. *)
Module FeatureSections.

Import Pandas FeatureEngineering.

(** Section 2, numerical features: the age *)
Definition age_features `{NumpyMath} : SE DataFrame unit :=
  has_age ← in_columns "Age";
  when has_age (
    age ← get_column "Age";
    squared ← lift (col_pow2 age);
    set_column "Age_squared" squared;;
    age ← get_column "Age";
    mean ← lift (series_mean age);
    centred ← lift (col_sub_scalar age mean);
    std ← lift (series_std age);
    normalized ← lift (col_div_scalar centred std);
    set_column "Age_normalized" normalized).

(** Section 2, numerical features: the education *)
Definition education_features : SE DataFrame unit :=
  has_education ← in_columns "Education";
  when has_education (
    education ← get_column "Education";
    set_column "Education_level" education).

(** Section 3, stage-based features *)
Definition stage_features : SE DataFrame unit :=
  has_stage ← in_columns "Stage_Sequence";
  when has_stage (
    stage ← get_column "Stage_Sequence";
    progress ← lift (col_div_scalar stage (of_Z 8));
    set_column "Stage_progress" progress;;
    stage ← get_column "Stage_Sequence";
    early ← lift (col_le stage 3);
    set_column "Is_early_stage" (astype_int early);;
    stage ← get_column "Stage_Sequence";
    late ← lift (col_ge stage 6);
    set_column "Is_late_stage" (astype_int late)).

(** Section 4, time-based features *)
Definition time_features `{NumpyMath} : SE DataFrame unit :=
  has_days ← in_columns "Days_Since_Application";
  when has_days (
    days ← get_column "Days_Since_Application";
    logged ← lift (col_log1p days);
    set_column "Days_log" logged;;
    days ← get_column "Days_Since_Application";
    slow ← lift (col_gt days 50);
    set_column "Is_slow_process" (astype_int slow)).

(** Section 5, source effectiveness features *)
Definition source_features : SE DataFrame unit :=
  has_source ← in_columns "Source";
  has_status ← in_columns "Status";
  when (has_source && has_status) (
    source ← get_column "Source";
    status ← get_column "Status";
    let source_success :=
      groupby_apply (cells source) (eq_str status "Hired") hired_share in
    source ← get_column "Source";
    set_column "Source_success_rate" (series_map source source_success)).

(** Section 6, interaction features *)
Definition interaction_features : SE DataFrame unit :=
  has_age ← in_columns "Age";
  has_education ← in_columns "Education";
  when (has_age && has_education) (
    age ← get_column "Age";
    education ← get_column "Education";
    interaction ← lift (col_mul age education);
    set_column "Age_Education_interaction" interaction).

End FeatureSections.

(** ** When the derived features can be computed

    The arithmetic of sections 2 to 4 needs numbers: a column is fit for
    it when it is absent or numeric. *)
Definition numeric_if_present (f : Pandas.DataFrame) (name : string) : bool :=
  match Pandas.frame_get f name with
  | Some c => bool_decide (Pandas.col_dtype c <> Pandas.object)
  | None => true
  end.

(** A column of strings: an object column in which some record has a
    string. *)
Definition holds_string (f : Pandas.DataFrame) (name : string) : bool :=
  match Pandas.frame_get f name with
  | Some (Pandas.ObjCol xs) => bool_decide (Exists is_Some xs)
  | _ => false
  end.

(** The columns that sections 2, 3 and 4 compute with. *)
Definition arithmetic_columns_numeric (f : Pandas.DataFrame) : bool :=
  numeric_if_present f "Age" &&
  numeric_if_present f "Stage_Sequence" &&
  numeric_if_present f "Days_Since_Application".

(** The tables on which [derived_features] completes: section 6
    multiplies the age by the education. *)
Definition features_computable (f : Pandas.DataFrame) : bool :=
  arithmetic_columns_numeric f &&
  implb (Pandas.has_column f "Age") (numeric_if_present f "Education").

(** ** [transform_to_funnel.py]: the journey of an applicant

    The generator draws from Python's [random] module: [random.random()],
    [random.randint(a, b)], which lies between [a] and [b], and
    [random.choice(seq)], given here by the position it picks in a
    sequence of [n] items. *)
Class PyRandom := {
  prng : Type;
  random_random : prng -> Qc * prng;
  random_randint : Z -> Z -> prng -> Z * prng;
  random_choice : nat -> prng -> nat * prng;
  random_randint_range : forall a b g,
    a <= b -> a <= (random_randint a b g).1 <= b;
  random_choice_range : forall n g,
    (0 < n)%nat -> ((random_choice n g).1 < n)%nat
}.

Module FunnelGenerator.

(** The recruitment stages, in order. *)
Inductive stage :=
| ApplicationReceived | ResumeScreening | HRPhoneScreen | TechnicalRound
| ManagerInterview | FinalInterview | OfferExtended | Hired.

#[global] Instance stage_eq_dec : EqDecision stage.
Proof. solve_decision. Defined.

Definition stage_name (s : stage) : string :=
  match s with
  | ApplicationReceived => "Application Received"
  | ResumeScreening => "Resume Screening"
  | HRPhoneScreen => "HR Phone Screen"
  | TechnicalRound => "Technical Round"
  | ManagerInterview => "Manager Interview"
  | FinalInterview => "Final Interview"
  | OfferExtended => "Offer Extended"
  | Hired => "Hired"
  end.

Definition stages : list stage :=
  [ApplicationReceived; ResumeScreening; HRPhoneScreen; TechnicalRound;
   ManagerInterview; FinalInterview; OfferExtended; Hired].

Definition source_mapping : list (string * list string) :=
  [("Sales", ["LinkedIn"; "Naukri"; "Company Website"]);
   ("Research & Development", ["LinkedIn"; "Campus Hiring"; "Employee Referral"]);
   ("Human Resources", ["LinkedIn"; "Naukri"; "Recruitment Agency"])]%string.

(** Source effectiveness (hire rate), in the order of the dictionary. *)
Definition source_effectiveness : list (string * Qc) :=
  [("LinkedIn", Q2Qc (25 # 100)); ("Naukri", Q2Qc (12 # 100));
   ("Employee Referral", Q2Qc (35 # 100)); ("Company Website", Q2Qc (18 # 100));
   ("Campus Hiring", Q2Qc (22 # 100)); ("Recruitment Agency", Q2Qc (15 # 100))]%string.

(** [(end_date - start_date).days], from 2024-01-01 to 2025-12-31 *)
Definition date_range_days : Z := 730.

(** A record of the funnel; the fields copied from the employee record
    ([Job_Role], [Age], [Gender], [Education], [EducationField]) are left
    out, and the two dates are days counted from [start_date]. *)
Record funnel_row := {
  Applicant_ID : string;
  Source : string;
  Department : string;
  Application_Date : Z;
  Stage : stage;
  Stage_Sequence : Z;
  Stage_Date : Z;
  Status : string;
  Days_Since_Application : Z
}.

Section Generator.
Context `{PyRandom}.

(** Whether the applicant passes the stage: the chain of [if]/[elif] on
    the name of the stage. *)
Definition pass_stage (s : stage) (gets_hired : bool) (g : prng) : bool * prng :=
  let below (p : Qc) :=
    let '(x, g) := random_random g in (bool_decide (x < p)%Qc, g) in
  match s with
  | ApplicationReceived => (true, g)
  | ResumeScreening => below (Q2Qc (70 # 100))
  | HRPhoneScreen => below (Q2Qc (75 # 100))
  | TechnicalRound => below (Q2Qc (55 # 100))
  | ManagerInterview => below (Q2Qc (70 # 100))
  | FinalInterview => below (Q2Qc (80 # 100))
  | OfferExtended => below (Q2Qc (90 # 100))
  | Hired => (gets_hired, g)
  end.

(** The loop over [enumerate(stages)], from position [stage_idx] on: a
    record for each stage passed, and a last one, followed by [break],
    for the stage at which the applicant is rejected. *)
Fixpoint progress (applicant_id source dept : string) (application_date : Z)
    (gets_hired : bool) (stage_idx : nat) (remaining : list stage)
    (current_date stage_sequence : Z) (g : prng) : list funnel_row * prng :=
  match remaining with
  | [] => ([], g)
  | s :: rest =>
      let '(passes, g) := pass_stage s gets_hired g in
      if passes : bool then
        let '(days_to_next, g) :=
          if bool_decide (stage_idx = 0%nat) then (0, g)
          else random_randint 3 10 g in
        let current_date := current_date + days_to_next in
        let row :=
          {| Applicant_ID := applicant_id; Source := source; Department := dept;
             Application_Date := application_date;
             Stage := s; Stage_Sequence := stage_sequence;
             Stage_Date := current_date;
             Status := if bool_decide (Some s <> last stages)
                       then "Passed" else "Hired";
             Days_Since_Application := current_date - application_date |} in
        let '(rows, g) :=
          progress applicant_id source dept application_date gets_hired
            (S stage_idx) rest current_date (stage_sequence + 1) g in
        (row :: rows, g)
      else
        ([{| Applicant_ID := applicant_id; Source := source; Department := dept;
             Application_Date := application_date;
             Stage := s; Stage_Sequence := stage_sequence;
             Stage_Date := current_date;
             Status := "Rejected";
             Days_Since_Application := current_date - application_date |}], g)
  end.

(** The sources an applicant of the department is drawn from. *)
Definition sources_of (dept : string) : list string :=
  match list_find (fun m => m.1 = dept) source_mapping with
  | Some (_, (_, sources)) => sources
  | None => source_effectiveness.*1
  end.

(** [source_effectiveness[source]], when the dictionary has the key *)
Definition conversion_prob (source : string) : option Qc :=
  (fun m => m.2.2) <$> list_find (fun m => m.1 = source) source_effectiveness.

(** One turn of the loop over the employees: the records of the applicant
    made from the employee at position [idx], of department [dept].  (A
    source without effectiveness would raise [KeyError]; there is
    none.) *)
Definition applicant_rows (idx : Z) (dept : string) (g : prng)
    : list funnel_row * prng :=
  let applicant_id := "APP" +:+ pretty (1000 + idx) in
  let '(choice, g) := random_choice (length (sources_of dept)) g in
  let source := default ""%string (sources_of dept !! choice) in
  let '(offset, g) := random_randint 0 date_range_days g in
  let application_date := offset in
  let '(x, g) := random_random g in
  let gets_hired :=
    bool_decide (x < default 0%Qc (conversion_prob source) * Q2Qc (25 # 10))%Qc in
  progress applicant_id source dept application_date gets_hired 0 stages
    application_date 1 g.

End Generator.

End FunnelGenerator.

(** A generator for the closed runs: a linear congruential one. *)
Program Definition lcg_py_random : PyRandom :=
  {| prng := Z;
     random_random g := (Q2Qc (g mod 1000 # 1000), lcg_next g);
     random_randint a b g := (a + g mod Z.max 1 (b - a + 1), lcg_next g);
     random_choice n g := (Z.to_nat (g mod Z.max 1 (Z.of_nat n)), lcg_next g) |}.
Next Obligation.
  intros a b g Hab. cbn.
  pose proof (Z.mod_pos_bound g (Z.max 1 (b - a + 1))). lia.
Qed.
Next Obligation.
  intros n g Hn. cbn.
  pose proof (Z.mod_pos_bound g (Z.max 1 (Z.of_nat n))). lia.
Qed.

(** ** [ml_model.py]: the accuracy of [evaluate] and the choice of [main] *)
Module MLModel.

Import Pandas.

(** [(y_pred == y_test).mean()]: the predictions are compared with the
    labels position by position; arrays of different lengths cannot be
    compared. *)
Definition accuracy (y_pred y_test : list Z) : result pyfloat :=
  if bool_decide (length y_pred <> length y_test) then Raise ValueError
  else Ok (bool_mean (zip_with (fun p t => bool_decide (p = t)) y_pred y_test)).

(** The builtin [max(a, b)]: [a] unless [b > a]. *)
Definition py_max (a b : pyfloat) : pyfloat := if flt a b then b else a.

(** ['Random Forest' if rf_metrics['roc_auc'] > gb_metrics['roc_auc'] else
    'Gradient Boosting'], and the score printed for the best model,
    [max(rf_metrics['roc_auc'], gb_metrics['roc_auc'])]. *)
Definition best_model_name (rf_auc gb_auc : pyfloat) : string :=
  if flt gb_auc rf_auc then "Random Forest" else "Gradient Boosting".

Definition best_model_auc (rf_auc gb_auc : pyfloat) : pyfloat :=
  py_max rf_auc gb_auc.

End MLModel.

(** * Properties *)

(** Closed decidable facts (comparisons of rationals, equalities of
    computed values) are settled by evaluation. *)
Ltac by_compute := apply (bool_decide_unpack _); vm_compute; exact I.

(** ** Experiment evaluator *)

Lemma py_int_of_Z (z : Z) : py_int (Fin (Qc_of_Z z)) = Ok z.
Proof.
  unfold py_int. change (this (Qc_of_Z z)) with (inject_Z z).
  rewrite Qceiling_Z, Qfloor_Z. by destruct (Qc_negb _).
Qed.

(** ** Rounding to binary64

    Order facts on rationals are settled in [Q], where [lra] works. *)

(** Turns the order facts of the goal and the context into facts of [Q]. *)
Ltac Qc_to_Q :=
  repeat (progress (unfold Qcle, Qclt, Qcminus, Qcdiv, Qcplus, Qcmult, Qcopp,
                      Qcinv, Qc_of_Z, Q2Qc in *; cbn [this] in * ));
  rewrite ?Qred_correct in *.

(** Rounding does not carry a number across an integer. *)
Lemma round_half_even_le (q : Qc) (N : Z) :
  (q <= Qc_of_Z N)%Qc -> round_half_even q <= N.
Proof.
  intros Hq. unfold round_half_even.
  pose proof (Qfloor_le q) as Hf. pose proof (Qlt_floor q) as Hf'.
  set (f := Qfloor q) in *.
  assert (Hle : f <= N).
  { rewrite Zle_Qle. Qc_to_Q. lra. }
  repeat case_bool_decide; try lia.
  all: destruct (decide (f = N)) as [->|]; [|destruct (Z.even f); lia].
  all: exfalso; Qc_to_Q; lra.
Qed.

Lemma round_half_even_ge (q : Qc) (N : Z) :
  (Qc_of_Z N <= q)%Qc -> N <= round_half_even q.
Proof.
  intros Hq. unfold round_half_even.
  pose proof (Qfloor_le q) as Hf. pose proof (Qlt_floor q) as Hf'.
  set (f := Qfloor q) in *.
  assert (Hle : N < f + 1).
  { rewrite Zlt_Qlt. Qc_to_Q. lra. }
  repeat case_bool_decide; try lia. destruct (Z.even f); lia.
Qed.

(** A number more than half a unit above an integer is rounded above it. *)
Lemma round_half_even_gt (q : Qc) (N : Z) :
  (Qc_of_Z N + Qc_of_Z N + 1 < q + q)%Qc -> N < round_half_even q.
Proof.
  intros Hq. unfold round_half_even.
  pose proof (Qfloor_le q) as Hf. pose proof (Qlt_floor q) as Hf'.
  set (f := Qfloor q) in *.
  assert (Hle : N < f + 1).
  { rewrite Zlt_Qlt. Qc_to_Q. lra. }
  destruct (decide (N < f)) as [Hlt|Hge].
  { repeat case_bool_decide; try lia. destruct (Z.even f); lia. }
  assert (f = N) as -> by lia.
  rewrite bool_decide_eq_false_2, bool_decide_eq_true_2; [lia|..];
    Qc_to_Q; rewrite ?inject_Z_plus in *; lra.
Qed.

(** *** Order facts on quotients of integers *)

Lemma Qc_of_Z_pos (z : Z) : 0 < z -> (0 < Qc_of_Z z)%Qc.
Proof. intros Hz. rewrite <- Z2Qc_inj_0. by apply (proj1 (Z2Qc_inj_lt 0 z)). Qed.

Lemma Qc_pos_nonzero (q : Qc) : (0 < q)%Qc -> q <> 0%Qc.
Proof. intros Hq ->. by apply Qclt_not_eq in Hq. Qed.

(** *** The unit in the last place *)

Lemma pow2_nonneg (e : Z) : 0 <= e -> pow2 e = Qc_of_Z (2 ^ e).
Proof. intros He. unfold pow2. by rewrite bool_decide_eq_true_2. Qed.

Lemma pow2_nonpos (e : Z) : e <= 0 -> pow2 e = (/ Qc_of_Z (2 ^ (- e)))%Qc.
Proof.
  intros He. unfold pow2. case_bool_decide as H0; [|done].
  assert (e = 0) as -> by lia. apply Qc_is_canon. reflexivity.
Qed.

Lemma Qc_abs_cases (q : Qc) :
  ((q < 0)%Qc /\ Qc_abs q = (- q)%Qc) \/ ((0 <= q)%Qc /\ Qc_abs q = q).
Proof.
  unfold Qc_abs, Qc_negb. case_bool_decide as Hq; [by left|right].
  split; [by apply Qcnot_lt_le|done].
Qed.

(** Below [2 ^ 53] the unit in the last place is at most one. *)
Lemma binary64_exponent_small (q : Qc) :
  (Qc_abs q < Qc_of_Z (2 ^ 53))%Qc -> binary64_exponent q <= 0.
Proof.
  intros Hq. unfold binary64_exponent. rewrite pow2_nonneg by lia.
  set (units := Qfloor _).
  assert (HS : units < 2 ^ 1127).
  { rewrite Zlt_Qlt. eapply Qle_lt_trans; [apply Qfloor_le|].
    change (2 ^ 1127) with (2 ^ 53 * 2 ^ 1074).
    apply (Qcmult_lt_compat_r _ _ (Qc_of_Z (2 ^ 1074))) in Hq;
      [|by apply Qc_of_Z_pos].
    rewrite <- Z2Qc_inj_mul in Hq. exact Hq. }
  destruct (decide (0 < units)) as [Hpos|Hneg].
  - apply Z.log2_lt_pow2 in HS; [lia|done].
  - rewrite Z.log2_nonpos by lia. lia.
Qed.

(** Above the subnormal numbers the value is at least [2 ^ 52] units in
    the last place. *)
Lemma binary64_exponent_normal (q : Qc) :
  binary64_exponent q = -1074 \/
  (-1074 < binary64_exponent q /\
   (Qc_of_Z (2 ^ (binary64_exponent q + 1126)) <= Qc_abs q * Qc_of_Z (2 ^ 1074))%Qc).
Proof.
  unfold binary64_exponent. rewrite pow2_nonneg by lia.
  set (units := Qfloor _).
  destruct (decide (Z.log2 units - 52 <= 0)) as [Hsub|Hnorm]; [left; lia|right].
  split; [lia|].
  replace (Z.max (Z.log2 units - 52) 0 - 1074 + 1126) with (Z.log2 units) by lia.
  assert (Hpos : 0 < units).
  { destruct (decide (0 < units)); [done|]. rewrite Z.log2_nonpos in Hnorm by lia. lia. }
  pose proof (Z.log2_spec units Hpos) as [Hlog _].
  apply Qcle_trans with (Qc_of_Z units).
  - by apply (proj1 (Z2Qc_inj_le _ _)).
  - subst units. apply Qfloor_le.
Qed.

Lemma pow2_pos_Z (n : Z) : 0 <= n -> 0 < 2 ^ n.
Proof. intros Hn. by apply Z.pow_pos_nonneg. Qed.

Lemma inject_Z_pos (z : Z) : 0 < z -> (0 < inject_Z z)%Q.
Proof. intros Hz. by rewrite Zlt_Qlt in Hz. Qed.

Lemma Qc_of_Z_div_le (m s N : Z) :
  0 < s -> m <= N * s -> (Qc_of_Z m / Qc_of_Z s <= Qc_of_Z N)%Qc.
Proof.
  intros Hs Hm. Qc_to_Q. apply Qle_shift_div_r.
  - by apply inject_Z_pos.
  - by rewrite <- inject_Z_mult, <- Zle_Qle.
Qed.

Lemma Qc_of_Z_div_ge (m s N : Z) :
  0 < s -> N * s <= m -> (Qc_of_Z N <= Qc_of_Z m / Qc_of_Z s)%Qc.
Proof.
  intros Hs Hm. Qc_to_Q. apply Qle_shift_div_l.
  - by apply inject_Z_pos.
  - by rewrite <- inject_Z_mult, <- Zle_Qle.
Qed.

Lemma Qc_of_Z_div_gt (m s N : Z) :
  0 < s -> N * s < m -> (Qc_of_Z N < Qc_of_Z m / Qc_of_Z s)%Qc.
Proof.
  intros Hs Hm. Qc_to_Q. apply Qlt_shift_div_l.
  - by apply inject_Z_pos.
  - by rewrite <- inject_Z_mult, <- Zlt_Qlt.
Qed.

Lemma Qc_abs_lt (q b : Qc) : (Qc_abs q < b)%Qc <-> (- b < q)%Qc /\ (q < b)%Qc.
Proof.
  destruct (Qc_abs_cases q) as [[Hq ->]|[Hq ->]]; Qc_to_Q; split; intros; try split; lra.
Qed.

Lemma Qc_abs_le (q b : Qc) : (Qc_abs q <= b)%Qc <-> (- b <= q)%Qc /\ (q <= b)%Qc.
Proof.
  destruct (Qc_abs_cases q) as [[Hq ->]|[Hq ->]]; Qc_to_Q; split; intros; try split; lra.
Qed.

Lemma Qc_scale_le (x : Qc) (N s : Z) :
  0 < s -> (x <= Qc_of_Z N)%Qc -> (x * Qc_of_Z s <= Qc_of_Z (N * s))%Qc.
Proof.
  intros Hs Hx. rewrite Z2Qc_inj_mul. apply Qcmult_le_compat_r; [done|].
  apply Qclt_le_weak. by apply Qc_of_Z_pos.
Qed.

Lemma Qc_scale_ge (x : Qc) (N s : Z) :
  0 < s -> (Qc_of_Z N <= x)%Qc -> (Qc_of_Z (N * s) <= x * Qc_of_Z s)%Qc.
Proof.
  intros Hs Hx. rewrite Z2Qc_inj_mul. apply Qcmult_le_compat_r; [done|].
  apply Qclt_le_weak. by apply Qc_of_Z_pos.
Qed.

(** Below [2 ^ 53] the binary64 numbers are the multiples of the unit in
    the last place, [1 / s] for a power of two [s]: rounding takes the
    nearest multiple. *)
Lemma binary64_small (x : Qc) :
  (Qc_abs x < Qc_of_Z (2 ^ 53))%Qc ->
  binary64_exponent x <= 0 /\
  binary64 x
  = Fin (Qc_of_Z (round_half_even (x * Qc_of_Z (2 ^ (- binary64_exponent x))))
         / Qc_of_Z (2 ^ (- binary64_exponent x)))%Qc.
Proof.
  intros Hx. pose proof (binary64_exponent_small x Hx) as He.
  split; [done|]. unfold binary64. cbv zeta.
  rewrite (pow2_nonpos _ He).
  set (s := 2 ^ (- binary64_exponent x)).
  assert (Hs : 0 < s) by (apply pow2_pos_Z; lia).
  pose proof (Qc_of_Z_pos s Hs) as Hs'.
  assert (Hsne : Qc_of_Z s <> 0%Qc)
    by (intros Heq; rewrite Heq in Hs'; by apply Qclt_not_le in Hs').
  replace (x / / Qc_of_Z s)%Qc with (x * Qc_of_Z s)%Qc by (by field).
  set (m := round_half_even _).
  replace (Qc_of_Z m * / Qc_of_Z s)%Qc with (Qc_of_Z m / Qc_of_Z s)%Qc by (by field).
  rewrite bool_decide_eq_false_2; [done|].
  apply Qclt_not_le, Qc_abs_lt. rewrite pow2_nonneg by lia.
  apply Qc_abs_lt in Hx as [Hlo Hhi].
  assert (Hm : - 2 ^ 53 * s <= m /\ m <= 2 ^ 53 * s).
  { split.
    - apply round_half_even_ge, Qc_scale_ge; [done|].
      rewrite Z2Qc_inj_opp. by apply Qclt_le_weak.
    - apply round_half_even_le, Qc_scale_le; [done|]. by apply Qclt_le_weak. }
  split.
  - apply Qclt_le_trans with (Qc_of_Z (- 2 ^ 53)).
    + rewrite <- Z2Qc_inj_opp. apply (proj1 (Z2Qc_inj_lt _ _)). by vm_compute.
    + apply Qc_of_Z_div_ge; [done|lia].
  - apply Qcle_lt_trans with (Qc_of_Z (2 ^ 53)).
    + apply Qc_of_Z_div_le; [done|lia].
    + apply (proj1 (Z2Qc_inj_lt _ _)). by vm_compute.
Qed.

Lemma Qceiling_between (y : Qc) (c : Z) :
  (Qc_of_Z (c - 1) < y)%Qc -> (y <= Qc_of_Z c)%Qc -> Qceiling y = c.
Proof.
  intros Hlo Hhi.
  assert (Qceiling y <= c).
  { rewrite <- (Qceiling_Z c). apply Qceiling_resp_le. exact Hhi. }
  assert (c - 1 < Qceiling y).
  { rewrite Zlt_Qlt. eapply Qlt_le_trans; [exact Hlo | apply Qle_ceiling]. }
  lia.
Qed.

(** The quotient of two integers below [2 ^ 53] and its binary64 value
    have the same ceiling: a quotient that is not whole lies at least
    [1 / d] above the integer below it, which is more than half a unit in
    the last place. *)
Lemma binary64_fraction_ceiling (x : Qc) (a d : Z) :
  0 < d < 2 ^ 53 -> Z.abs a < 2 ^ 53 ->
  (x * Qc_of_Z d)%Qc = Qc_of_Z a ->
  exists y, binary64 x = Fin y /\ Qceiling y = Qceiling x.
Proof.
  intros Hd Ha Hx.
  pose proof (Qc_of_Z_pos d (proj1 Hd)) as Hd'.
  assert (Hbound : (Qc_abs x < Qc_of_Z (2 ^ 53))%Qc).
  { apply Qc_abs_lt.
    assert (H1 : (1 <= Qc_of_Z d)%Qc) by (apply (proj1 (Z2Qc_inj_le 1 d)); lia).
    assert (H2 : (Qc_of_Z a < Qc_of_Z (2 ^ 53))%Qc)
      by (apply (proj1 (Z2Qc_inj_lt _ _)); lia).
    assert (H3 : (- Qc_of_Z (2 ^ 53) < Qc_of_Z a)%Qc)
      by (rewrite <- Z2Qc_inj_opp; apply (proj1 (Z2Qc_inj_lt _ _)); lia).
    assert (H4 : (0 < Qc_of_Z (2 ^ 53))%Qc) by (by apply Qc_of_Z_pos).
    rewrite <- Hx in H2, H3. clear Hx.
    set (K := 2 ^ 53) in *. clearbody K.
    Qc_to_Q. split; nra. }
  destruct (binary64_small x Hbound) as [He ->].
  set (s := 2 ^ (- binary64_exponent x)).
  assert (Hs : 0 < s) by (apply pow2_pos_Z; lia).
  set (c := Qceiling x). set (k := c - 1).
  assert (Hk : (Qc_of_Z k < x)%Qc) by exact (Qceiling_lt x).
  assert (Hc : (x <= Qc_of_Z c)%Qc) by exact (Qle_ceiling x).
  assert (Hka : k * d < a).
  { apply Z2Qc_inj_lt. rewrite <- Hx, Z2Qc_inj_mul.
    by apply Qcmult_lt_compat_r. }
  assert (Hds : d < 2 * s).
  { destruct (binary64_exponent_normal x) as [Hsub|[Hnorm Hle]].
    - subst s. rewrite Hsub. change (- -1074) with 1074.
      apply Z.lt_trans with (2 ^ 53); [lia|]. by vm_compute.
    - set (P := 2 ^ (binary64_exponent x + 1126)) in *.
      assert (HP : 0 < P) by (apply pow2_pos_Z; lia).
      assert (HPs : P * s = 2 ^ 1126).
      { subst P s. rewrite <- Z.pow_add_r by lia. f_equal. lia. }
      assert (Hle' : P * d <= Z.abs a * 2 ^ 1074).
      { apply Z2Qc_inj_le. rewrite !Z2Qc_inj_mul.
        apply (Qcmult_le_compat_r _ _ (Qc_of_Z d)) in Hle;
          [|by apply Qclt_le_weak].
        eapply Qcle_trans; [exact Hle|].
        replace (Qc_abs x * Qc_of_Z (2 ^ 1074) * Qc_of_Z d)%Qc
          with (Qc_abs x * Qc_of_Z d * Qc_of_Z (2 ^ 1074))%Qc by ring.
        apply Qcmult_le_compat_r;
          [|apply Qclt_le_weak, Qc_of_Z_pos; by vm_compute].
        destruct (Qc_abs_cases x) as [[_ ->]|[_ ->]].
        - replace (- x * Qc_of_Z d)%Qc with (- (x * Qc_of_Z d))%Qc by ring.
          rewrite Hx, <- Z2Qc_inj_opp. apply (proj1 (Z2Qc_inj_le _ _)). lia.
        - rewrite Hx. apply (proj1 (Z2Qc_inj_le _ _)). lia. }
      assert (H1127 : Z.abs a * 2 ^ 1074 < 2 * 2 ^ 1126).
      { change (2 * 2 ^ 1126) with (2 ^ 53 * 2 ^ 1074).
        apply Z.mul_lt_mono_pos_r; [by vm_compute | lia]. }
      rewrite <- HPs in H1127.
      apply (Z.mul_lt_mono_pos_l P); [done|]. lia. }
  set (m := round_half_even _).
  assert (Hmc : m <= c * s) by (by apply round_half_even_le, Qc_scale_le).
  assert (Hmk : k * s < m).
  { apply round_half_even_gt.
    assert (Hxd : x = (Qc_of_Z a / Qc_of_Z d)%Qc).
    { rewrite <- Hx. field. by apply Qc_pos_nonzero. }
    replace (Qc_of_Z (k * s) + Qc_of_Z (k * s) + 1)%Qc
      with (Qc_of_Z (k * s + k * s + 1))
      by (by rewrite !Z2Qc_inj_add, Z2Qc_inj_1).
    replace (x * Qc_of_Z s + x * Qc_of_Z s)%Qc
      with (Qc_of_Z (a * s + a * s) / Qc_of_Z d)%Qc.
    2:{ rewrite Hxd, Z2Qc_inj_add, Z2Qc_inj_mul. field. by apply Qc_pos_nonzero. }
    apply Qc_of_Z_div_gt; [lia|]. nia. }
  eexists. split; [done|].
  apply Qceiling_between.
  - apply Qc_of_Z_div_gt; [done|]. fold k. done.
  - by apply Qc_of_Z_div_le.
Qed.




Lemma Qc_of_Z_nonzero (z : Z) : z <> 0 -> Qc_of_Z z <> 0%Qc.
Proof. rewrite <- Z2Qc_inj_0. by intros Hz ?%Z2Qc_inj. Qed.

(** ** Experiment evaluator: duration *)

(** With a whole number of daily applicants, both numbers below
    [2 ^ 53], the days are the exact ceiling. *)
Lemma recommend_test_duration_int (d required_sample_size : Z) :
  d <> 0 -> Z.abs d < 2 ^ 53 -> Z.abs (2 * required_sample_size) < 2 ^ 53 ->
  ABTesting.recommend_test_duration (PyInt d) required_sample_size
  = Ok (Qceiling (Qc_of_Z (2 * required_sample_size) / Qc_of_Z d)%Qc).
Proof.
  intros Hd Hbd Hbr.
  unfold ABTesting.recommend_test_duration, int_truediv.
  rewrite bool_decide_eq_false_2 by done. rewrite (Z.mul_comm required_sample_size).
  set (a := 2 * required_sample_size) in *.
  set (x := (Qc_of_Z a / Qc_of_Z d)%Qc).
  pose proof (Qc_of_Z_nonzero d Hd) as Hd'.
  assert (Hy : exists y, binary64 x = Fin y /\ Qceiling y = Qceiling x).
  { destruct (decide (0 < d)) as [Hpos|Hneg].
    - apply (binary64_fraction_ceiling x a d); [lia..|]. subst x. by field.
    - apply (binary64_fraction_ceiling x (- a) (- d)); [lia..|].
      subst x. rewrite !Z2Qc_inj_opp. by field. }
  destruct Hy as (y & -> & <-). cbn [rbind np_ceil]. apply py_int_of_Z.
Qed.






Lemma Ok_inj {A} (a b : A) : Ok a = Ok b -> a = b.
Proof. by intros [= ->]. Qed.

(** *** Order facts on floats *)

Lemma fle_fin (a b : Qc) : fle (Fin a) (Fin b) = true <-> (a <= b)%Qc.
Proof.
  unfold fle, flt, feq. rewrite orb_true_iff, !bool_decide_eq_true. split.
  - intros [Hlt | ->]; [by apply Qclt_le_weak | apply Qcle_refl].
  - intros Hle. destruct (Qcle_lt_or_eq _ _ Hle); auto.
Qed.

Lemma flt_fin (a b : Qc) : flt (Fin a) (Fin b) = true <-> (a < b)%Qc.
Proof. unfold flt. by rewrite bool_decide_eq_true. Qed.

Lemma flt_irrefl_fin (q : Qc) : flt (Fin q) (Fin q) = false.
Proof. apply bool_decide_eq_false_2. intros Hlt. by apply Qclt_not_eq in Hlt. Qed.

Lemma fle_flt_trans (x y z : pyfloat) :
  fle x y = true -> flt y z = true -> flt x z = true.
Proof.
  destruct x as [a|n|], y as [b|m|], z as [c|k|]; try done;
    rewrite ?fle_fin, ?flt_fin; unfold fle; cbn [flt feq orb];
    repeat match goal with b : bool |- _ => destruct b end; try done.
  intros Hab Hbc. by eapply Qcle_lt_trans.
Qed.

Lemma py_int_Ok_fin (x : pyfloat) (z : Z) : py_int x = Ok z -> exists q, x = Fin q.
Proof. destruct x; [eauto | done | done]. Qed.

Lemma fmul_fin_inv (a : Qc) (y : pyfloat) (q : Qc) :
  fmul (Fin a) y = Fin q -> exists b, y = Fin b.
Proof.
  destruct y as [b|n|]; cbn [fmul]; [eauto | by case_bool_decide | done].
Qed.

(** The builtin [min] against [1.0], when its value is a number, is the
    mathematical minimum. *)
Lemma py_min_one_fin (x : pyfloat) (q : Qc) :
  py_min x (Fin 1%Qc) = Fin q ->
  fle (Fin q) (Fin 1%Qc) = true /\ fle (Fin q) x = true /\
  (Fin q = x \/ Fin q = Fin 1%Qc).
Proof.
  unfold py_min. destruct x as [a|n|]; cbn [flt].
  - case_bool_decide as Hlt; intros [= <-].
    + split; [by apply fle_fin | split; [|by right]].
      apply fle_fin. by apply Qclt_le_weak.
    + split; [|split; [by apply fle_fin|by left]].
      apply fle_fin. by apply Qcnot_lt_le.
  - destruct n; cbn [negb]; [done|]. intros [= <-].
    split; [by apply fle_fin | split; [done | by right]].
  - done.
Qed.

(** ** Experiment evaluator: simulation *)

Section Simulation.
Context `{PandasSampling}.
Import Pandas ABTesting.

(** C10: in every result that [simulate_intervention] returns,
    [new_pass_rate] is at most 1.0 and is the minimum of
    [baseline_pass_rate * (1 + improvement_rate)] and 1.0. *)
Theorem simulate_intervention_new_pass_rate (df : DataFrame) (stage : string)
    (improvement_rate : pyfloat) (sample_size : option Z) (sim : simulation) :
  fle (of_Z 0) improvement_rate = true ->
  simulate_intervention df stage improvement_rate sample_size = Ok sim ->
  let improved := fmul (baseline_pass_rate sim) (fadd (of_Z 1) improvement_rate) in
  new_pass_rate sim = py_min improved (Fin 1%Qc) /\
  fle (new_pass_rate sim) (Fin 1%Qc) = true /\
  fle (new_pass_rate sim) improved = true /\
  (new_pass_rate sim = improved \/ new_pass_rate sim = Fin 1%Qc).
Proof.
  intros _ Hrun improved. unfold simulate_intervention in Hrun.
  destruct (getitem df "Stage") as [stage_col|]; [cbn [rbind] in Hrun | done].
  match type of Hrun with rbind ?s _ = _ => destruct s as [stage_data|] end;
    [cbn [rbind] in Hrun | done].
  destruct (getitem stage_data "Status") as [status|]; [cbn [rbind] in Hrun | done].
  match type of Hrun with rbind ?s _ = _ => destruct s as [ep|] eqn:Hint end;
    [cbn [rbind] in Hrun | done].
  subst improved. rewrite <- (f_equal new_pass_rate (Ok_inj _ _ Hrun)).
  rewrite <- (f_equal baseline_pass_rate (Ok_inj _ _ Hrun)).
  cbn [new_pass_rate baseline_pass_rate]. split; [done|].
  apply py_int_Ok_fin in Hint as [p Hp].
  apply fmul_fin_inv in Hp as [q Hq]. rewrite Hq.
  by apply py_min_one_fin.
Qed.

End Simulation.

Lemma simulate_intervention_new_pass_rate_witness :
  exists sim,
    @ABTesting.simulate_intervention leading_rows_sampling
      technical_round_records "Technical Round" (Fin (Q2Qc (15 # 100))) None
    = Ok sim /\
    ABTesting.new_pass_rate sim = Fin (Q2Qc (69 # 80)) /\
    fle (ABTesting.new_pass_rate sim) (Fin 1%Qc) = true.
Proof.
  eexists. split; [vm_compute; reflexivity|]. split; [by_compute|].
  eapply (@simulate_intervention_new_pass_rate leading_rows_sampling
            technical_round_records "Technical Round" (Fin (Q2Qc (15 # 100))) None).
  - by_compute.
  - vm_compute; reflexivity.
Defined.

(** ** Experiment evaluator: significance test *)

Lemma Qcdiv_nonzero (a b : Qc) : a <> 0%Qc -> b <> 0%Qc -> (a / b)%Qc <> 0%Qc.
Proof.
  intros Ha Hb Hq. apply Ha. rewrite <- (Qcmult_div_r a b Hb), Hq. ring.
Qed.

Lemma py_truediv_Z (x : pyfloat) (z : Z) :
  z <> 0 -> py_truediv x (of_Z z) = Ok (np_div x (of_Z z)).
Proof.
  intros Hz. unfold py_truediv, of_Z.
  by rewrite bool_decide_eq_false_2 by by apply Qc_of_Z_nonzero.
Qed.

Lemma np_div_Z (a b : Z) :
  b <> 0 -> np_div (of_Z a) (of_Z b) = Fin (Qc_of_Z a / Qc_of_Z b)%Qc.
Proof.
  intros Hb. unfold np_div, of_Z.
  by rewrite bool_decide_eq_false_2 by by apply Qc_of_Z_nonzero.
Qed.

Lemma wrap64_small (z : Z) : - 2 ^ 63 <= z < 2 ^ 63 -> wrap64 z = z.
Proof. intros Hz. unfold wrap64. rewrite Z.mod_small; lia. Qed.

Section Significance.
Context `{NumpyMath} `{ScipyStats}.
Import Scipy ABTesting.

(** What a returned result holds, field by field. *)
Lemma significance_fields (cs ct ts tt : Z) (a : pyfloat) (r : significance) :
  calculate_statistical_significance cs ct ts tt a = Ok r ->
  let table := ((cs, ct - cs), (ts, tt - ts)) in
  chi2_contingency table = Ok (chi_square r, p_value r) /\
  py_truediv (of_Z cs) (of_Z ct) = Ok (control_rate r) /\
  py_truediv (of_Z ts) (of_Z tt) = Ok (treatment_rate r) /\
  is_significant r = flt (p_value r) a /\
  (flt (of_Z 0) (control_rate r) = false -> relative_improvement r = of_Z 0).
Proof.
  intros Hrun table. subst table.
  unfold calculate_statistical_significance in Hrun.
  destruct (chi2_contingency _) as [[chi2 p]|]; [cbn [rbind fst snd] in Hrun | done].
  destruct (py_truediv (of_Z cs) _) as [p1|]; [cbn [rbind] in Hrun | done].
  destruct (py_truediv (of_Z ts) _) as [p2|]; [cbn [rbind] in Hrun | done].
  destruct (flt (of_Z 0) p1) eqn:Hpos.
  - destruct (py_truediv (fsub p2 p1) p1) as [q|]; [cbn [rbind] in Hrun | done].
    apply Ok_inj in Hrun as <-.
    cbn [chi_square p_value control_rate is_significant relative_improvement
         treatment_rate].
    by rewrite Hpos.
  - cbn [rbind] in Hrun. apply Ok_inj in Hrun as <-.
    by cbn [chi_square p_value control_rate is_significant relative_improvement
            treatment_rate].
Qed.

Lemma chi2_contingency_p_value (o : contingency Z) (chi2 p : pyfloat) :
  chi2_contingency o = Ok (chi2, p) -> p = chi2_p_value o.
Proof.
  unfold chi2_contingency. repeat case_match; try done. by intros [= _ <-].
Qed.

(** C1: with positive group totals, a returned result is significant
    exactly when the p-value of the chi-square independence test on the
    2x2 table is strictly below [alpha]; and, for any upper-tail function
    that is antitone and lies below 0.05 at the critical value 3.8415,
    [significance(50, 100, 70, 100)] at [alpha = 0.05] returns rates 0.50
    and 0.70 and a significant verdict. *)
Theorem significance_iff_p_value_below_alpha :
  (forall (cs ct ts tt : Z) (a : pyfloat) (r : significance),
     0 < ct -> 0 < tt ->
     calculate_statistical_significance cs ct ts tt a = Ok r ->
     (is_significant r = true <->
      flt (chi2_p_value ((cs, ct - cs), (ts, tt - ts))) a = true)) /\
  ((forall x y : Qc, (x <= y)%Qc -> fle (chi2_sf (Fin y)) (chi2_sf (Fin x)) = true) ->
   flt (chi2_sf (Fin (Q2Qc (38415 # 10000)))) (Fin (Q2Qc (5 # 100))) = true ->
   exists r,
     calculate_statistical_significance 50 100 70 100 (Fin (Q2Qc (5 # 100))) = Ok r /\
     control_rate r = Fin (Q2Qc (1 # 2)) /\
     treatment_rate r = Fin (Q2Qc (7 # 10)) /\
     is_significant r = true).
Proof.
  split.
  - intros cs ct ts tt a r _ _ Hrun.
    apply significance_fields in Hrun as (Htest & _ & _ & -> & _).
    apply chi2_contingency_p_value in Htest as ->. done.
  - intros Hanti Hcrit.
    destruct (calculate_statistical_significance 50 100 70 100 (Fin (Q2Qc (5 # 100))))
      as [r|e] eqn:Hrun; [|by vm_compute in Hrun].
    exists r. split; [done|].
    pose proof Hrun as (Htest & Hp1 & Hp2 & Hsig & _)%significance_fields.
    rewrite py_truediv_Z, np_div_Z in Hp1, Hp2 by done.
    apply Ok_inj in Hp1 as <-. apply Ok_inj in Hp2 as <-.
    split; [f_equal; by_compute|]. split; [f_equal; by_compute|].
    rewrite Hsig. apply chi2_contingency_p_value in Htest as ->.
    eapply fle_flt_trans; [|exact Hcrit].
    unfold chi2_p_value.
    replace (chi2_statistic _) with (Fin (Q2Qc (361 # 48))) by by_compute.
    apply Hanti. by_compute.
Qed.

Lemma expected_cell_nonzero (r c total : Z) :
  0 < r * c < 2 ^ 63 -> 0 < total < 2 ^ 63 ->
  feq (np_div (of_Z (r * c)) (of_Z total)) (Fin 0%Qc) = false.
Proof.
  intros Hrc Htot. rewrite np_div_Z by lia.
  apply bool_decide_eq_false_2.
  apply Qcdiv_nonzero; apply Qc_of_Z_nonzero; lia.
Qed.

(** The test itself returns on a table with no success in the control
    group, as long as the treatment group has one. *)
Lemma chi2_contingency_zero_control_returns (ct ts tt : Z) :
  0 < ct < 2 ^ 31 -> 0 < ts <= tt -> tt < 2 ^ 31 ->
  returns (chi2_contingency ((0, ct - 0), (ts, tt - ts))).
Proof.
  intros Hct Hts Htt. unfold chi2_contingency.
  assert (Hneg : existsb (fun x => bool_decide (x < 0))
                   (cells4 ((0, ct - 0), (ts, tt - ts))) = false).
  { cbn [cells4 existsb]. rewrite !bool_decide_eq_false_2 by lia. done. }
  rewrite Hneg. unfold expected_freq. cbn [cells4 existsb].
  rewrite !expected_cell_nonzero by nia. cbn [orb]. by eexists.
Qed.

(** C9: with positive group totals the call never raises
    [ZeroDivisionError]; when the control group has no success the
    returned [relative_improvement] is 0, the guarded division being
    skipped; and such a call does return when the treatment group has a
    success. *)
Theorem relative_improvement_zero_control (cs ct ts tt : Z) (a : pyfloat) :
  0 < ct -> 0 < tt ->
  calculate_statistical_significance cs ct ts tt a <> Raise ZeroDivisionError /\
  (cs = 0 ->
   forall r, calculate_statistical_significance cs ct ts tt a = Ok r ->
             control_rate r = of_Z 0 /\ relative_improvement r = of_Z 0) /\
  (cs = 0 -> 0 < ts <= tt -> ct < 2 ^ 31 -> tt < 2 ^ 31 ->
   returns (calculate_statistical_significance cs ct ts tt a)).
Proof.
  intros Hct Htt.
  assert (Hguard : forall p1 p2 : pyfloat,
    (if flt (of_Z 0) p1
     then rbind (py_truediv (fsub p2 p1) p1) (fun q => Ok (fmul q (of_Z 100)))
     else Ok (of_Z 0)) <> Raise ZeroDivisionError).
  { intros p1 p2. destruct (flt (of_Z 0) p1) eqn:Hpos; [|done].
    unfold py_truediv. destruct p1 as [q| |]; [|done..].
    case_bool_decide as Hq; [|done].
    subst q. unfold of_Z in Hpos. rewrite Z2Qc_inj_0 in Hpos.
    apply flt_fin in Hpos. by apply Qclt_not_le in Hpos. }
  split; [|split].
  - unfold calculate_statistical_significance, chi2_contingency.
    repeat case_match; try done; cbn [rbind fst snd];
      rewrite !py_truediv_Z by lia; cbn [rbind].
    match goal with |- rbind ?g _ <> _ =>
      pose proof (Hguard (np_div (of_Z cs) (of_Z ct)) (np_div (of_Z ts) (of_Z tt)));
      destruct g; [done | cbn [rbind]; congruence] end.
  - intros -> r Hrun.
    apply significance_fields in Hrun as (_ & Hp1 & _ & _ & Hrel).
    rewrite py_truediv_Z, np_div_Z in Hp1 by lia. apply Ok_inj in Hp1.
    assert (Hzero : control_rate r = of_Z 0).
    { rewrite <- Hp1. unfold of_Z. f_equal. rewrite Z2Qc_inj_0.
      unfold Qcdiv. ring. }
    split; [done|]. apply Hrel. rewrite Hzero. apply flt_irrefl_fin.
  - intros -> Hts Hc Ht. unfold calculate_statistical_significance.
    destruct (chi2_contingency_zero_control_returns ct ts tt) as [test ->];
      [lia..|]. cbn [rbind]. rewrite !py_truediv_Z by lia. cbn [rbind].
    rewrite np_div_Z by lia.
    replace (Qc_of_Z 0 / Qc_of_Z ct)%Qc with (Qc_of_Z 0)
      by (rewrite Z2Qc_inj_0; unfold Qcdiv; ring).
    change (of_Z 0) with (Fin (Qc_of_Z 0)). rewrite flt_irrefl_fin.
    cbn [rbind]. by eexists.
Qed.

End Significance.

Lemma tabulated_chi2_antitone (x y : Qc) :
  (x <= y)%Qc ->
  fle (@chi2_sf tabulated_chi2 (Fin y)) (@chi2_sf tabulated_chi2 (Fin x)) = true.
Proof.
  intros Hxy. cbn [chi2_sf tabulated_chi2].
  repeat case_bool_decide; try by_compute.
  match goal with
  | Hy : (y < _)%Qc, Hx : ~ (x < _)%Qc |- _ =>
      exfalso; apply (Qclt_not_le _ _ Hy);
      exact (Qcle_trans _ _ _ (Qcnot_lt_le _ _ Hx) Hxy)
  end.
Qed.

Lemma significance_iff_p_value_below_alpha_witness :
  (forall r,
     @ABTesting.calculate_statistical_significance uninspected_numpy tabulated_chi2
       50 100 51 100 (Fin (Q2Qc (5 # 100))) = Ok r ->
     ABTesting.is_significant r = true <->
     flt (@Scipy.chi2_p_value tabulated_chi2 ((50, 100 - 50), (51, 100 - 51)))
         (Fin (Q2Qc (5 # 100))) = true) /\
  (exists r,
     @ABTesting.calculate_statistical_significance uninspected_numpy tabulated_chi2
       50 100 70 100 (Fin (Q2Qc (5 # 100))) = Ok r /\
     ABTesting.control_rate r = Fin (Q2Qc (1 # 2)) /\
     ABTesting.treatment_rate r = Fin (Q2Qc (7 # 10)) /\
     ABTesting.is_significant r = true).
Proof.
  destruct (@significance_iff_p_value_below_alpha uninspected_numpy tabulated_chi2)
    as [Hiff Hcase].
  split.
  - intros r. apply Hiff; lia.
  - apply Hcase; [apply tabulated_chi2_antitone | by_compute].
Defined.

Lemma relative_improvement_zero_control_witness :
  returns (@ABTesting.calculate_statistical_significance uninspected_numpy
             tabulated_chi2 0 100 20 100 (Fin (Q2Qc (5 # 100)))) /\
  forall r,
    @ABTesting.calculate_statistical_significance uninspected_numpy
      tabulated_chi2 0 100 20 100 (Fin (Q2Qc (5 # 100))) = Ok r ->
    ABTesting.control_rate r = of_Z 0 /\ ABTesting.relative_improvement r = of_Z 0.
Proof.
  destruct (@relative_improvement_zero_control uninspected_numpy tabulated_chi2
              0 100 20 100 (Fin (Q2Qc (5 # 100)))) as (_ & Hzero & Hret); [lia..|].
  split; [apply Hret; [reflexivity | lia..] | apply Hzero; reflexivity].
Defined.

(** ** Feature engineering: frames and the heap *)

Section Heap.
Import Pandas FeatureEngineering.

Lemma frame_get_setitem_eq (f : DataFrame) (name : string) (c : column) :
  frame_get (setitem f name c) name = Some c.
Proof.
  induction f as [|[n c0] f IH]; cbn [setitem frame_get].
  - by rewrite decide_True.
  - destruct (decide (n = name)) as [->|Hne]; cbn [frame_get].
    + by rewrite decide_True.
    + by rewrite decide_False.
Qed.

Lemma frame_get_setitem_ne (f : DataFrame) (name other : string) (c : column) :
  name <> other -> frame_get (setitem f name c) other = frame_get f other.
Proof.
  intros Hne. induction f as [|[n c0] f IH]; cbn [setitem frame_get].
  - by rewrite decide_False.
  - destruct (decide (n = name)) as [->|Hn]; cbn [frame_get].
    + by rewrite !decide_False.
    + by rewrite IH.
Qed.

Lemma setitem_setitem (f : DataFrame) (name : string) (c c' : column) :
  setitem (setitem f name c) name c' = setitem f name c'.
Proof.
  induction f as [|[n c0] f IH]; cbn [setitem].
  - by rewrite decide_True.
  - destruct (decide (n = name)) as [->|Hn]; cbn [setitem].
    + by rewrite decide_True.
    + by rewrite decide_False, IH.
Qed.

(** [df.copy()] allocates: every frame of the heap stays, the result is a
    reference that was free, and it holds the columns of [df]. *)
Lemma df_copy_run (df : ref) (w : world) :
  match frames w !! df with
  | None => df_copy df w = (Raise NameError, w)
  | Some f =>
      let r := fresh (dom (frames w)) in
      frames w !! r = None /\
      df_copy df w = (Ok r, World (<[r := f]> (frames w)) (label_encoders w))
  end.
Proof.
  unfold df_copy. destruct (frames w !! df) as [f|]; [|done].
  split; [|done]. apply not_elem_of_dom, is_fresh.
Qed.

(** Statements run on the frame of [r] leave every other frame alone. *)
Lemma on_frame_others {A} (r : ref) (p : SE locals A) (w w' : world)
    (res : result A) :
  on_frame r p w = (res, w') ->
  forall r0, r0 <> r -> frames w' !! r0 = frames w !! r0.
Proof.
  unfold on_frame. destruct (frames w !! r) as [f|].
  - destruct (p (label_encoders w, f)) as [res' [encoders f']].
    intros [= _ <-] r0 Hne. cbn [frames]. by rewrite lookup_insert_ne.
  - by intros [= _ <-].
Qed.

(** A function that copies its argument and then works on the copy only
    keeps every frame the caller had and returns a reference that was
    free. *)
Lemma copy_then_on_frame {A} (body : ref -> SE locals A) (df : ref)
    (w w' : world) (res : result ref) :
  (df_copy df ≫= fun r => on_frame r (body r) ≫= fun _ => mret r) w = (res, w') ->
  (forall r f, frames w !! r = Some f -> frames w' !! r = Some f) /\
  (forall r, res = Ok r -> frames w !! r = None /\ is_Some (frames w' !! r)).
Proof.
  unfold mbind, SE_bind, mret, SE_ret.
  pose proof (df_copy_run df w) as Hcopy.
  destruct (frames w !! df) as [f|] eqn:Hdf.
  - destruct Hcopy as [Hfresh ->].
    set (r := fresh (dom (frames w))) in *.
    destruct (on_frame r (body r) _) as [res' w1] eqn:Hbody.
    pose proof (on_frame_others _ _ _ _ _ Hbody) as Hothers.
    assert (Hr : is_Some (frames w1 !! r)).
    { revert Hbody. unfold on_frame. cbn [frames]. rewrite lookup_insert_eq.
      destruct (body r _) as [? [? ?]]. intros [= _ <-]. cbn [frames].
      rewrite lookup_insert_eq. by eexists. }
    assert (Hkeep : forall r0 f0, frames w !! r0 = Some f0 -> frames w1 !! r0 = Some f0).
    { intros r0 f0 H0. rewrite Hothers by congruence. cbn [frames].
      rewrite lookup_insert_ne by congruence. done. }
    destruct res'; intros [= <- <-]; (split; [done|]).
    + by intros ? [= <-].
    + done.
  - rewrite Hcopy. intros [= <- <-]. split; [done | done].
Qed.

(** C8: [create_features] and [create_target_variable] leave the table
    they are given, and every other table of the caller, as it was; the
    table they return is a new object. *)
Theorem input_table_unchanged `{NumpyMath} (df : ref) (w w' : world)
    (res : result ref) :
  create_features df w = (res, w') \/ create_target_variable df w = (res, w') ->
  (forall r f, frames w !! r = Some f -> frames w' !! r = Some f) /\
  (forall r, res = Ok r -> frames w !! r = None /\ is_Some (frames w' !! r)).
Proof.
  intros [Hrun | Hrun]; revert Hrun; apply copy_then_on_frame.
Qed.

(** ** Target labeler *)

(** The labels as the code computes them are 1 on the records whose
    status is the string [Rejected] and 0 on all others. *)
Lemma rejected_labels (status : column) :
  let labels := Z.b2z <$> eq_str status "Rejected" in
  length labels = col_len status /\
  forall i c, cells status !! i = Some c ->
    labels !! i = Some (if decide (c = CStr "Rejected") then 1 else 0).
Proof.
  destruct status as [xs|xs|xs]; cbn [eq_str cells col_len];
    (split; [by rewrite !length_fmap|]); intros i c;
    rewrite !list_lookup_fmap; destruct (xs !! i) as [x|]; cbn; try done;
    intros [= <-].
  - by rewrite decide_False.
  - destruct (is_nan x); by rewrite decide_False.
  - destruct x as [s|]; cbn.
    + destruct (decide (s = "Rejected"%string)) as [->|Hs].
      * by rewrite bool_decide_eq_true_2, decide_True.
      * rewrite bool_decide_eq_false_2, decide_False; [done | congruence..].
    + by rewrite bool_decide_eq_false_2, decide_False.
Qed.

Lemma create_target_variable_run (df : ref) (w : world) (f : DataFrame)
    (status : column) :
  frames w !! df = Some f ->
  frame_get f "Status" = Some status ->
  create_target_variable df w =
    (Ok (fresh (dom (frames w))),
     World (<[fresh (dom (frames w)) :=
               setitem f "will_drop_off" (astype_int (eq_str status "Rejected"))]>
              (frames w))
           (label_encoders w)).
Proof.
  intros Hdf Hstatus.
  unfold create_target_variable, mbind, SE_bind, mret, SE_ret.
  pose proof (df_copy_run df w) as Hcopy. rewrite Hdf in Hcopy.
  destruct Hcopy as [_ ->].
  unfold on_frame, frame_only, get_column, set_column, getitem.
  cbn [frames label_encoders fst snd]. rewrite lookup_insert_eq.
  cbn [fst snd]. rewrite Hstatus. by rewrite insert_insert_eq.
Qed.

(** C5: [create_target_variable] labels a record 1 exactly when its
    status is [Rejected] and 0 otherwise; it keeps no state (the encoders
    and the input table are as before), the same records get the same
    labels again, and labelling its own output changes nothing. *)
Theorem create_target_variable_labels (df : ref) (w : world) (f : DataFrame)
    (status : column) :
  frames w !! df = Some f ->
  frame_get f "Status" = Some status ->
  exists (labels : list Z) (r : ref) (w' : world),
    length labels = col_len status /\
    (forall i c, cells status !! i = Some c ->
       labels !! i = Some (if decide (c = CStr "Rejected") then 1 else 0)) /\
    create_target_variable df w = (Ok r, w') /\
    frames w' !! r = Some (setitem f "will_drop_off" (IntCol labels)) /\
    label_encoders w' = label_encoders w /\
    frames w' !! df = Some f /\
    (exists r2 w2, create_target_variable df w' = (Ok r2, w2) /\
                   frames w2 !! r2 = frames w' !! r) /\
    (exists r3 w3, create_target_variable r w' = (Ok r3, w3) /\
                   frames w3 !! r3 = frames w' !! r).
Proof.
  intros Hdf Hstatus.
  destruct (rejected_labels status) as [Hlen Hlabels].
  set (labels := Z.b2z <$> eq_str status "Rejected") in *.
  set (r := fresh (dom (frames w))).
  assert (Hfresh : r <> df).
  { intros Heq. pose proof (is_fresh (dom (frames w))) as Hnew.
    apply Hnew, elem_of_dom. fold r. rewrite Heq. by eexists. }
  pose proof (create_target_variable_run df w f status Hdf Hstatus) as Hrun.
  fold r in Hrun. fold labels in Hrun.
  eexists labels, r, _. split; [done|]. split; [done|]. split; [exact Hrun|].
  cbn [frames label_encoders]. rewrite lookup_insert_eq.
  split; [done|]. split; [done|].
  split; [by rewrite lookup_insert_ne|]. split.
  - eexists _, _. split.
    + eapply create_target_variable_run; [|exact Hstatus].
      cbn [frames]. by rewrite lookup_insert_ne.
    + cbn [frames]. by rewrite lookup_insert_eq.
  - eexists _, _. split.
    + eapply create_target_variable_run.
      * cbn [frames]. by rewrite lookup_insert_eq.
      * by rewrite frame_get_setitem_ne.
    + cbn [frames]. rewrite lookup_insert_eq. unfold astype_int.
      fold labels. by rewrite setitem_setitem.
Qed.

End Heap.

Lemma input_table_unchanged_witness :
  FeatureEngineering.frames
    (@FeatureEngineering.create_features uninspected_numpy 0%nat funnel_world).2
    !! 0%nat = Some funnel_records /\
  FeatureEngineering.frames
    (FeatureEngineering.create_target_variable 0%nat funnel_world).2
    !! 0%nat = Some funnel_records.
Proof.
  split.
  - eapply (@input_table_unchanged uninspected_numpy 0%nat funnel_world);
      [left; apply surjective_pairing | reflexivity].
  - eapply (@input_table_unchanged uninspected_numpy 0%nat funnel_world);
      [right; apply surjective_pairing | reflexivity].
Defined.

(** ** Feature encoder *)

Section Encoder.
Context `{NumpyMath}.
Import Pandas FeatureEngineering.

Lemma elem_of_unique (ys : list string) (y : string) :
  y ∈ LabelEncoder.unique ys <-> y ∈ ys.
Proof.
  unfold LabelEncoder.unique.
  by rewrite merge_sort_Permutation, elem_of_remove_dups.
Qed.

Lemma index_of_elem (classes : list string) (y : string) :
  y ∈ classes -> is_Some (LabelEncoder.index_of classes y).
Proof.
  intros Hy. unfold LabelEncoder.index_of. apply fmap_is_Some.
  by eapply list_find_elem_of.
Qed.

(** Every label met while fitting has a code. *)
Lemma map_to_integer_unique (ys : list string) :
  is_Some (LabelEncoder.map_to_integer (LabelEncoder.unique ys) ys).
Proof.
  unfold LabelEncoder.map_to_integer.
  assert (Hall : is_Some (mapM (LabelEncoder.index_of (LabelEncoder.unique ys)) ys)).
  { apply mapM_is_Some_2, Forall_forall. intros y Hy.
    by apply index_of_elem, elem_of_unique. }
  destruct Hall as [codes ->]. by eexists.
Qed.

(** [transform] on the data of [fit_transform] gives the same codes. *)
Lemma transform_fit_transform (ys : list string) (enc : LabelEncoder.t)
    (codes : column) :
  LabelEncoder.fit_transform ys = Ok (enc, codes) ->
  LabelEncoder.transform enc ys = Ok codes.
Proof.
  unfold LabelEncoder.fit_transform, LabelEncoder.transform.
  destruct (LabelEncoder.map_to_integer _ ys) as [c|] eqn:Hmap; [|done].
  intros [= <- <-]. cbn [LabelEncoder.classes_]. by rewrite Hmap.
Qed.

Lemma fit_transform_returns (ys : list string) :
  returns (LabelEncoder.fit_transform ys).
Proof.
  unfold LabelEncoder.fit_transform.
  destruct (map_to_integer_unique ys) as [c ->]. by eexists.
Qed.

Ltac reduce_pairs := cbv beta iota delta [fst snd negb from_option] in *.

Ltac run_statements :=
  unfold encode_categorical, mbind, SE_bind, mret, SE_ret, frame_only,
    in_columns, in_encoders, get_encoder, set_encoder, get_column, set_column,
    lift in *;
  reduce_pairs.

(** A turn of the loop only writes the entry of its own column. *)
Lemma encode_categorical_other_keys (col : string) (s s' : locals)
    (res : result unit) (k : string) :
  encode_categorical col s = (res, s') -> k <> col -> s'.1 !! k = s.1 !! k.
Proof.
  destruct s as [E f]. intros Hrun Hk. run_statements.
  destruct (has_column f col); reduce_pairs; [|by simplify_eq].
  destruct (bool_decide (is_Some (E !! col))); reduce_pairs.
  - repeat (case_match; simplify_eq; reduce_pairs); done.
  - rewrite lookup_insert_eq in Hrun. reduce_pairs.
    repeat (case_match; simplify_eq; reduce_pairs);
      rewrite ?lookup_insert_ne by done; done.
Qed.

(** Once a turn has succeeded, running it again from the same frame, with
    the encoder it left behind, gives the same frame and changes no
    encoder. *)
Lemma encode_categorical_again (col : string) (E E' E2 : gmap string LabelEncoder.t)
    (f f' : DataFrame) :
  encode_categorical col (E, f) = (Ok tt, (E', f')) ->
  E2 !! col = E' !! col ->
  encode_categorical col (E2, f) = (Ok tt, (E2, f')).
Proof.
  intros Hrun HE2. run_statements.
  destruct (has_column f col); reduce_pairs; [|by simplify_eq].
  destruct (E !! col) as [enc0|] eqn:HE.
  - rewrite bool_decide_eq_true_2 in Hrun by done. reduce_pairs.
    rewrite HE in Hrun.
    destruct (getitem f col) as [c|] eqn:Hget; reduce_pairs; [|discriminate Hrun].
    destruct (LabelEncoder.transform enc0 _) as [codes|] eqn:Htr;
      reduce_pairs; [|discriminate Hrun].
    simplify_eq. rewrite HE2, HE.
    rewrite bool_decide_eq_true_2 by done. reduce_pairs.
    by rewrite HE2, HE, Hget, Htr.
  - rewrite bool_decide_eq_false_2 in Hrun by (by intros [? ?]).
    reduce_pairs. rewrite lookup_insert_eq in Hrun.
    destruct (getitem f col) as [c|] eqn:Hget; reduce_pairs; [|discriminate Hrun].
    destruct (LabelEncoder.fit_transform _) as [[enc codes]|] eqn:Hfit;
      reduce_pairs; [|discriminate Hrun].
    simplify_eq.
    rewrite lookup_insert_eq in HE2. rewrite HE2.
    rewrite bool_decide_eq_true_2 by done. reduce_pairs.
    by rewrite HE2, Hget, (transform_fit_transform _ _ _ Hfit).
Qed.

Lemma for_each_other_keys (cols : list string) (s s' : locals)
    (res : result unit) (k : string) :
  for_each encode_categorical cols s = (res, s') ->
  k ∉ cols -> s'.1 !! k = s.1 !! k.
Proof.
  revert s. induction cols as [|c cols IH]; intros s Hrun Hk.
  - by injection Hrun as <- <-.
  - apply not_elem_of_cons in Hk as [Hkc Hk].
    cbn [for_each] in Hrun. unfold mbind, SE_bind in Hrun.
    destruct (encode_categorical c s) as [[[]|e] s1] eqn:Hstep.
    + rewrite (IH _ Hrun Hk). by eapply encode_categorical_other_keys.
    + injection Hrun as <- <-. by eapply encode_categorical_other_keys.
Qed.

(** The loop, run again from the same frame with the encoders it left
    behind, rebuilds the same frame and changes no encoder. *)
Lemma for_each_again (cols : list string) :
  NoDup cols ->
  forall (E E' E2 : gmap string LabelEncoder.t) (f f' : DataFrame),
    for_each encode_categorical cols (E, f) = (Ok tt, (E', f')) ->
    (forall c, c ∈ cols -> E2 !! c = E' !! c) ->
    for_each encode_categorical cols (E2, f) = (Ok tt, (E2, f')).
Proof.
  induction 1 as [|c cols Hc Hnodup IH]; intros E E' E2 f f' Hrun Hagree.
  - by injection Hrun as <- <-.
  - cbn [for_each] in *. unfold mbind, SE_bind in *.
    destruct (encode_categorical c (E, f)) as [[[]|e] [Ea fa]] eqn:Hstep;
      [|discriminate Hrun].
    assert (HEa : E2 !! c = Ea !! c).
    { rewrite Hagree by by left.
      apply (for_each_other_keys _ _ _ _ _ Hrun Hc). }
    rewrite (encode_categorical_again _ _ _ _ _ _ Hstep HEa).
    apply (IH _ _ _ _ _ Hrun). intros c' Hc'. apply Hagree. by right.
Qed.

Lemma categorical_cols_NoDup : NoDup categorical_cols.
Proof. by_compute. Qed.

(** C3: once [create_features] has returned for a table, a second call on
    the same table, with the encoders the first call left in [self],
    returns a feature table identical to the first one, and leaves the
    encoders as they are. *)
Theorem create_features_again (df : ref) (w w1 : world) (r1 : ref) :
  create_features df w = (Ok r1, w1) ->
  exists (r2 : ref) (w2 : world) (features : DataFrame),
    create_features df w1 = (Ok r2, w2) /\
    frames w1 !! r1 = Some features /\
    frames w2 !! r2 = Some features /\
    label_encoders w2 = label_encoders w1.
Proof.
  unfold create_features, mbind, SE_bind, mret, SE_ret. intros Hrun.
  pose proof (df_copy_run df w) as Hcopy.
  destruct (frames w !! df) as [f|] eqn:Hdf; [|by rewrite Hcopy in Hrun].
  destruct Hcopy as [Hfresh Hcopy]. rewrite Hcopy in Hrun. clear Hcopy.
  set (r := fresh (dom (frames w))) in *.
  unfold on_frame in Hrun. cbn [frames label_encoders] in Hrun.
  rewrite lookup_insert_eq in Hrun.
  destruct (for_each encode_categorical categorical_cols (label_encoders w, f))
    as [[[]|e] [E1 g]] eqn:Hloop; [|discriminate Hrun].
  unfold frame_only in Hrun. cbn [fst snd] in Hrun.
  destruct (derived_features g) as [[[]|e] f'] eqn:Hderived; [|discriminate Hrun].
  injection Hrun as <- <-. rewrite insert_insert_eq.
  assert (Hne : r <> df).
  { intros Heq. rewrite <- Heq in Hdf. congruence. }
  pose proof (df_copy_run df (World (<[r := f']> (frames w)) E1)) as Hcopy.
  cbn [frames label_encoders] in Hcopy.
  rewrite lookup_insert_ne, Hdf in Hcopy by done.
  destruct Hcopy as [_ ->].
  set (r2 := fresh (dom (<[r := f']> (frames w)))).
  unfold on_frame. cbn [frames label_encoders]. rewrite lookup_insert_eq.
  rewrite (for_each_again _ categorical_cols_NoDup _ _ E1 _ _ Hloop) by done.
  unfold frame_only. cbn [fst snd]. rewrite Hderived.
  eexists r2, _, f'. split; [done|]. cbn [frames label_encoders].
  by rewrite !lookup_insert_eq.
Qed.

End Encoder.

Lemma create_features_again_witness :
  exists (r2 : FeatureEngineering.ref) (w2 : FeatureEngineering.world)
         (features : Pandas.DataFrame),
    @FeatureEngineering.create_features uninspected_numpy 0%nat
      (@FeatureEngineering.create_features uninspected_numpy 0%nat funnel_world).2
    = (Ok r2, w2) /\
    FeatureEngineering.frames
      (@FeatureEngineering.create_features uninspected_numpy 0%nat funnel_world).2
      !! 1%nat = Some features /\
    FeatureEngineering.frames w2 !! r2 = Some features /\
    FeatureEngineering.label_encoders w2 =
    FeatureEngineering.label_encoders
      (@FeatureEngineering.create_features uninspected_numpy 0%nat funnel_world).2.
Proof.
  apply (@create_features_again uninspected_numpy 0%nat funnel_world).
  etransitivity; [apply surjective_pairing|]. f_equal.
Defined.

Lemma create_target_variable_labels_witness :
  exists (labels : list Z) (r : FeatureEngineering.ref)
         (w' : FeatureEngineering.world),
    FeatureEngineering.create_target_variable 0%nat funnel_world = (Ok r, w') /\
    FeatureEngineering.frames w' !! r =
      Some (Pandas.setitem funnel_records "will_drop_off" (Pandas.IntCol labels)) /\
    labels !! 0%nat = Some 0 /\ labels !! 1%nat = Some 1.
Proof.
  destruct (create_target_variable_labels 0%nat funnel_world funnel_records
              (Pandas.ObjCol [Some "Hired"; Some "Rejected"; Some "Passed";
                              Some "Hired"]%string))
    as (labels & r & w' & _ & Hlabels & Hrun & Hframe & _); [reflexivity..|].
  exists labels, r, w'. split; [done|]. split; [done|].
  split; [exact (Hlabels 0%nat _ eq_refl) | exact (Hlabels 1%nat _ eq_refl)].
Defined.

(** ** Imputation of missing values *)

Section Imputation.
Import Pandas FeatureEngineering.

Lemma select_columns_get (f X : DataFrame) (names : list string) :
  select_columns f names = Ok X ->
  X.*1 = names /\
  forall n c, (n, c) ∈ X -> frame_get f n = Some c.
Proof.
  revert X. induction names as [|n names IH]; intros X; cbn [select_columns].
  - intros [= <-]. split; [done|]. by intros ? ? ?%elem_of_nil.
  - unfold getitem. destruct (frame_get f n) as [c|] eqn:Hn; [|done].
    cbn [rbind]. destruct (select_columns f names) as [X0|]; [|done].
    cbn [rbind]. intros [= <-]. destruct (IH X0 eq_refl) as [Hnames Hget].
    split; [cbn; by f_equal|].
    intros n' c' [[= -> ->]|Hin]%elem_of_cons; [done | by apply Hget].
Qed.

Lemma fillna_medians_columns (X0 X : DataFrame) :
  fillna_medians X0 = Ok X ->
  X.*1 = X0.*1 /\
  forall n c, (n, c) ∈ X ->
    exists c0, (n, c0) ∈ X0 /\ fillna_median c0 = Ok c.
Proof.
  revert X. induction X0 as [|[n0 c0] X0 IH]; intros X; cbn [fillna_medians].
  - intros [= <-]. split; [done|]. by intros ? ? ?%elem_of_nil.
  - destruct (fillna_median c0) as [c0'|] eqn:Hfill; [|done]. cbn [rbind].
    destruct (fillna_medians X0) as [X'|]; [|done]. cbn [rbind].
    intros [= <-]. destruct (IH X' eq_refl) as [Hnames Hcols].
    split; [cbn; by f_equal|].
    intros n c [[= -> ->]|Hin]%elem_of_cons.
    + exists c0. split; [by left | done].
    + destruct (Hcols n c Hin) as (c1 & Hc1 & Hfill1).
      exists c1. split; [by right | done].
Qed.

(** The value that replaces a missing one comes from the very column
    being filled. *)
Lemma fillna_median_own (c0 c : column) :
  fillna_median c0 = Ok c ->
  c = match c0 with
      | FloatCol xs => FloatCol (fillna xs (median xs))
      | _ => c0
      end.
Proof. destruct c0; cbn [fillna_median]; [by intros [= <-].. | done]. Qed.

(** C4 (as amended): [prepare_for_modeling] fills the missing values of
    a numeric feature column with the median of that column in the table
    it is given; the call reads and writes no state of the encoder, so no
    median is kept from one call to the next. *)
Theorem prepare_for_modeling_own_median (df : ref) (target_col : string)
    (feature_cols : option (list string)) (w w' : world)
    (X : DataFrame) (y : option column) (cols : list string) :
  prepare_for_modeling df target_col feature_cols w = (Ok (X, y, cols), w') ->
  w' = w /\
  exists f, frames w !! df = Some f /\
    cols = default (auto_feature_cols f target_col) feature_cols /\
    X.*1 = cols /\
    forall name c, (name, c) ∈ X ->
      exists c0, frame_get f name = Some c0 /\
        c = match c0 with
            | FloatCol xs => FloatCol (fillna xs (median xs))
            | _ => c0
            end.
Proof.
  unfold prepare_for_modeling, mbind, SE_bind, mret, SE_ret, df_read, lift.
  destruct (frames w !! df) as [f|]; [|done].
  destruct (select_columns f _) as [X0|] eqn:Hselect; [|done].
  destruct (fillna_medians X0) as [X1|] eqn:Hfill; [|done].
  intros [= <- <- <- <-]. split; [done|]. exists f. split; [done|].
  split; [done|].
  destruct (select_columns_get _ _ _ Hselect) as [Hnames Hget].
  destruct (fillna_medians_columns _ _ Hfill) as [Hnames' Hcols].
  split; [congruence|]. intros name c Hin.
  destruct (Hcols name c Hin) as (c0 & Hin0 & Hc0).
  exists c0. split; [by apply Hget | by apply fillna_median_own].
Qed.

End Imputation.

Lemma prepare_for_modeling_own_median_witness :
  exists X,
    (FeatureEngineering.prepare_for_modeling 1%nat "will_drop_off" None
       fitting_and_new_tables).1 = Ok (X, None, ["Age"%string]) /\
    forall name c, (name, c) ∈ X ->
      c = Pandas.FloatCol
            (Pandas.fillna [Fin (Q2Qc 10); NaN; Fin (Q2Qc 20)]
               (Pandas.median [Fin (Q2Qc 10); NaN; Fin (Q2Qc 20)])).
Proof.
  destruct (FeatureEngineering.prepare_for_modeling 1%nat "will_drop_off" None
              fitting_and_new_tables) as [[[[X y] cols]|e] w'] eqn:Hrun;
    [|by vm_compute in Hrun].
  pose proof (prepare_for_modeling_own_median _ _ _ _ _ _ _ _ Hrun)
    as (-> & f & Hf & -> & Hnames & Hcols).
  injection Hf as <-. exists X. split.
  - cbn [fst]. assert (y = None) as -> by (by vm_compute in Hrun; simplify_eq).
    done.
  - intros name c Hin. destruct (Hcols name c Hin) as (c0 & Hget & ->).
    assert (name = "Age"%string) as ->.
    { apply (list_elem_of_fmap_2 fst) in Hin. rewrite Hnames in Hin.
      by apply list_elem_of_singleton in Hin. }
    by injection Hget as <-.
Defined.

(** C4, counterexample: after the fitting table has been prepared, the
    missing age of the new table is filled with 15, the median of the new
    table, and not with 2, the median of the fitting table. *)
Lemma prepare_for_modeling_recomputes_median :
  Pandas.median [Fin (Q2Qc 1); Fin (Q2Qc 3); NaN] = Fin (Q2Qc 2) /\
  (FeatureEngineering.prepare_for_modeling 1%nat "will_drop_off" None
     (FeatureEngineering.prepare_for_modeling 0%nat "will_drop_off" None
        fitting_and_new_tables).2).1
  = Ok ([("Age"%string,
          Pandas.FloatCol [Fin (Q2Qc 10); Fin (Q2Qc 15); Fin (Q2Qc 20)])],
        None, ["Age"%string]) /\
  Fin (Q2Qc 15) <> Fin (Q2Qc 2).
Proof. split; [by_compute | split; by_compute]. Qed.

(** ** Class-balance resampler *)

Section Resampling.
Context `{RandomState}.
Import Resampler.

Lemma count_label_app (b : bool) (y1 y2 : list bool) :
  count_label b (y1 ++ y2) = (count_label b y1 + count_label b y2)%nat.
Proof. unfold count_label. by rewrite filter_app, length_app. Qed.

Lemma count_label_replicate (b l : bool) (n : nat) :
  count_label b (replicate n l) = if decide (l = b) then n else 0%nat.
Proof.
  unfold count_label. induction n as [|n IH]; cbn [replicate].
  - by destruct (decide _).
  - destruct (decide (l = b)) as [Hl|Hl].
    + rewrite filter_cons_True by done. cbn. by rewrite IH.
    + by rewrite filter_cons_False.
Qed.

Lemma synthesize_length (n : nat) (minority : list sample) (g : rng) :
  length (synthesize n minority g).1 = n.
Proof.
  revert g. induction n as [|n IH]; intros g; cbn [synthesize]; [done|].
  destruct (rng_randint _ g) as [i g1].
  destruct (rng_randint _ g1) as [j g2].
  destruct (rng_uniform g2) as [gap g3].
  specialize (IH g3). destruct (synthesize n minority g3) as [rest g4].
  cbn in *. by rewrite IH.
Qed.

(** C2: what the resampler returns has as many samples of one label as of
    the other, one label for each sample, and, the seed being fixed, is the
    same whatever the state of the ambient generator, which it leaves
    untouched; it accepts every input with as many labels as samples and
    at least two samples of each label. *)
Theorem fit_resample_balanced_reproducible (seed : Z) (X : list sample)
    (y : list bool) :
  (forall (ambient ambient' : rng) (out : list sample * list bool),
     fit_resample (Some seed) X y ambient = (Ok out, ambient') ->
     count_label true out.2 = count_label false out.2 /\
     length out.1 = length out.2 /\
     ambient' = ambient /\
     forall other : rng, fit_resample (Some seed) X y other = (Ok out, other)) /\
  (length X = length y ->
   (2 <= count_label true y)%nat -> (2 <= count_label false y)%nat ->
   forall ambient : rng, returns (fit_resample (Some seed) X y ambient).1).
Proof.
  split.
  - intros ambient ambient' out. unfold fit_resample.
    case_bool_decide as Hlen; [done|]. case_bool_decide as Hmin; [done|].
    cbn [from_option].
    pose proof (synthesize_length
      (Nat.max (count_label false y) (count_label true y)
       - Nat.min (count_label false y) (count_label true y))
      (Pandas.mask_rows
         ((fun l => bool_decide
                      (l = bool_decide (count_label true y < count_label false y)%nat))
            <$> y) X)
      (rng_seed seed)) as Hsyn.
    destruct (synthesize _ _ (rng_seed seed)) as [synthetic g].
    cbn [fst] in Hsyn. intros [= <- <-]. cbn [fst snd].
    split; [|split; [|split; [done|]]].
    + rewrite !count_label_app, !count_label_replicate.
      case_bool_decide; repeat case_decide; try done; lia.
    + rewrite !length_app, length_replicate, Hsyn. lia.
    + done.
  - intros Hlen Ht Hf ambient. unfold fit_resample.
    rewrite bool_decide_eq_false_2 by (by intros []).
    rewrite bool_decide_eq_false_2 by lia.
    destruct (synthesize _ _ _) as [synthetic g]. by eexists.
Qed.

(** [train] resamples with the seed 42. *)
Lemma train_balance_seed (X : list sample) (y : list bool) :
  train_balance true X y = fit_resample (Some 42) X y.
Proof. reflexivity. Qed.

End Resampling.

Lemma fit_resample_balanced_reproducible_witness :
  exists out,
    (@Resampler.fit_resample lcg_random_state (Some 42) training_samples
       training_labels 7).1 = Ok out /\
    Resampler.count_label true out.2 = Resampler.count_label false out.2 /\
    length out.1 = 10%nat.
Proof.
  destruct (@fit_resample_balanced_reproducible lcg_random_state 42
              training_samples training_labels) as [Hbalanced Hreturns].
  destruct (Hreturns eq_refl) with (ambient := 7) as [out Hout];
    [vm_compute; lia..|].
  exists out. split; [done|].
  destruct (Hbalanced 7
              (@Resampler.fit_resample lcg_random_state (Some 42)
                 training_samples training_labels 7).2 out)
    as (Hcount & Hlen & _).
  { rewrite <- Hout. apply surjective_pairing. }
  split; [done|]. rewrite Hlen.
  rewrite <- (f_equal (fun r => match r with Ok o => length o.2 | _ => 10%nat end) Hout).
  by vm_compute.
Defined.

(** * Further properties *)

(** ** Experiment evaluator: the least duration *)

(** X1: for a positive whole number of daily applicants, the numbers
    below [2 ^ 53], the recommended duration is the least whole number of
    days in which the traffic covers both groups: [days] days bring at
    least [2 * required_sample_size] applicants, and one day less does
    not. *)
Theorem recommend_test_duration_least (daily_applicants required_sample_size days : Z) :
  0 < daily_applicants < 2 ^ 53 ->
  Z.abs (2 * required_sample_size) < 2 ^ 53 ->
  ABTesting.recommend_test_duration (PyInt daily_applicants) required_sample_size
  = Ok days ->
  2 * required_sample_size <= days * daily_applicants /\
  (days - 1) * daily_applicants < 2 * required_sample_size.
Proof.
  intros Hd Hbr Hrun.
  rewrite recommend_test_duration_int in Hrun by lia.
  apply Ok_inj in Hrun.
  pose proof (Qc_of_Z_pos _ (proj1 Hd)) as Hpos.
  set (q := (Qc_of_Z (2 * required_sample_size) / Qc_of_Z daily_applicants)%Qc) in *.
  assert (Hq : (q * Qc_of_Z daily_applicants)%Qc = Qc_of_Z (2 * required_sample_size)).
  { subst q. rewrite Qcmult_comm. by apply Qcmult_div_r, Qc_pos_nonzero. }
  split.
  - apply Z2Qc_inj_le. rewrite <- Hq, Z2Qc_inj_mul, <- Hrun.
    apply Qcmult_le_compat_r; [|by apply Qclt_le_weak].
    exact (Qle_ceiling q).
  - apply Z2Qc_inj_lt. rewrite <- Hq, Z2Qc_inj_mul, <- Hrun.
    apply Qcmult_lt_compat_r; [done|].
    exact (Qceiling_lt q).
Qed.

Lemma recommend_test_duration_least_witness :
  ABTesting.recommend_test_duration (PyInt 7) 10 = Ok 3 /\
  2 * 10 <= 3 * 7 /\ (3 - 1) * 7 < 2 * 10.
Proof.
  assert (Hrun : ABTesting.recommend_test_duration (PyInt 7) 10 = Ok 3)
    by (by vm_compute).
  split; [exact Hrun|].
  refine (recommend_test_duration_least 7 10 3 _ _ Hrun); lia.
Defined.

(** ** Experiment evaluator: the significance test on arbitrary counts *)

Lemma Qc_of_Z_div_unit (a b : Z) :
  0 <= a <= b -> 0 < b ->
  (0 <= Qc_of_Z a / Qc_of_Z b)%Qc /\ (Qc_of_Z a / Qc_of_Z b <= 1)%Qc.
Proof.
  intros Ha Hb.
  assert (Hbpos : (0 < Qc_of_Z b)%Qc) by (rewrite <- Z2Qc_inj_0; by apply (proj1 (Z2Qc_inj_lt 0 b))).
  assert (Hmul : (Qc_of_Z a / Qc_of_Z b * Qc_of_Z b)%Qc = Qc_of_Z a).
  { rewrite Qcmult_comm. apply Qcmult_div_r. by apply Qc_pos_nonzero. }
  split; apply (Qcmult_lt_0_le_reg_r _ _ (Qc_of_Z b) Hbpos); rewrite Hmul.
  - rewrite Qcmult_0_l, <- Z2Qc_inj_0. apply (proj1 (Z2Qc_inj_le 0 a)). lia.
  - rewrite Qcmult_1_l. apply (proj1 (Z2Qc_inj_le a b)). lia.
Qed.

Section SignificanceDomain.
Context `{NumpyMath} `{ScipyStats}.
Import Scipy ABTesting.

Lemma chi2_contingency_Ok_nonneg (o : contingency Z) (res : pyfloat * pyfloat) :
  chi2_contingency o = Ok res -> Forall (fun x => 0 <= x) (cells4 o).
Proof.
  unfold chi2_contingency.
  destruct (existsb _ (cells4 o)) eqn:Hneg; [done|]. intros _.
  apply Forall_forall. intros x Hx.
  destruct (decide (0 <= x)) as [|Hlt]; [done|]. exfalso.
  assert (existsb (fun x => bool_decide (x < 0)) (cells4 o) = true); [|congruence].
  apply existsb_exists. exists x. split; [by apply list_elem_of_In|].
  apply bool_decide_eq_true_2. lia.
Qed.

Lemma chi2_contingency_raises (o : contingency Z) (e : py_exception) :
  chi2_contingency o = Raise e -> e = ValueError.
Proof. unfold chi2_contingency. repeat case_match; congruence. Qed.

Lemma py_truediv_Z_Ok (x : pyfloat) (z : Z) (q : pyfloat) :
  py_truediv x (of_Z z) = Ok q -> z <> 0.
Proof.
  unfold py_truediv, of_Z. case_bool_decide as Hz; [done|]. intros _ ->.
  by rewrite Z2Qc_inj_0 in Hz.
Qed.

Lemma py_truediv_zero (x : pyfloat) :
  py_truediv x (of_Z 0) = Raise ZeroDivisionError.
Proof.
  unfold py_truediv, of_Z. by rewrite bool_decide_eq_true_2 by apply Z2Qc_inj_0.
Qed.

(** X2: the test returns only for well-formed counts: both totals are
    positive, each success count lies between 0 and its total, and the two
    rates of the result are the success fractions, between 0 and 1. *)
Theorem significance_returns_for_valid_counts (cs ct ts tt : Z) (a : pyfloat)
    (r : significance) :
  calculate_statistical_significance cs ct ts tt a = Ok r ->
  0 <= cs <= ct /\ 0 < ct /\ 0 <= ts <= tt /\ 0 < tt /\
  control_rate r = Fin (Qc_of_Z cs / Qc_of_Z ct)%Qc /\
  treatment_rate r = Fin (Qc_of_Z ts / Qc_of_Z tt)%Qc /\
  fle (of_Z 0) (control_rate r) = true /\ fle (control_rate r) (of_Z 1) = true /\
  fle (of_Z 0) (treatment_rate r) = true /\ fle (treatment_rate r) (of_Z 1) = true.
Proof.
  intros Hrun. apply significance_fields in Hrun as (Htest & Hp1 & Hp2 & _ & _).
  apply chi2_contingency_Ok_nonneg in Htest. cbn [cells4] in Htest.
  apply Forall_cons in Htest as [Hcs Htest].
  apply Forall_cons in Htest as [Hcf Htest].
  apply Forall_cons in Htest as [Hts Htest].
  apply Forall_cons in Htest as [Htf _].
  pose proof (py_truediv_Z_Ok _ _ _ Hp1) as Hct.
  pose proof (py_truediv_Z_Ok _ _ _ Hp2) as Htt.
  rewrite py_truediv_Z, np_div_Z in Hp1, Hp2 by done.
  apply Ok_inj in Hp1. apply Ok_inj in Hp2. rewrite <- Hp1, <- Hp2.
  destruct (Qc_of_Z_div_unit cs ct) as [Hc0 Hc1]; [lia..|].
  destruct (Qc_of_Z_div_unit ts tt) as [Ht0 Ht1]; [lia..|].
  unfold of_Z. rewrite Z2Qc_inj_0, Z2Qc_inj_1.
  repeat split; try lia; by apply fle_fin.
Qed.

(** X3: ill-formed counts are rejected by an exception: a success count
    below 0 or above its total raises [ValueError], and a zero total raises
    [ValueError] or [ZeroDivisionError]. *)
Theorem significance_rejects_invalid_counts (cs ct ts tt : Z) (a : pyfloat) :
  (cs < 0 \/ ct < cs \/ ts < 0 \/ tt < ts ->
   calculate_statistical_significance cs ct ts tt a = Raise ValueError) /\
  (ct = 0 \/ tt = 0 ->
   calculate_statistical_significance cs ct ts tt a = Raise ValueError \/
   calculate_statistical_significance cs ct ts tt a = Raise ZeroDivisionError).
Proof.
  split.
  - intros Hbad. unfold calculate_statistical_significance, chi2_contingency.
    assert (Hneg : existsb (fun x => bool_decide (x < 0))
                     (cells4 ((cs, ct - cs), (ts, tt - ts))) = true).
    { apply existsb_exists. cbn [cells4].
      destruct Hbad as [?|[?|[?|?]]];
        [exists cs | exists (ct - cs) | exists ts | exists (tt - ts)];
        (split; [cbn; tauto | apply bool_decide_eq_true_2; lia]). }
    by rewrite Hneg.
  - intros Hzero. unfold calculate_statistical_significance.
    destruct (chi2_contingency _) as [test|e] eqn:Htest.
    + right. cbn [rbind]. destruct Hzero as [-> | ->].
      * by rewrite py_truediv_zero.
      * rewrite py_truediv_zero.
        destruct (py_truediv (of_Z cs) (of_Z ct)) as [p1|e1] eqn:Hp1; cbn [rbind].
        -- done.
        -- unfold py_truediv, of_Z in Hp1. case_bool_decide; congruence.
    + left. cbn [rbind]. by rewrite (chi2_contingency_raises _ _ Htest).
Qed.

End SignificanceDomain.

Lemma significance_returns_for_valid_counts_witness :
  exists r,
    @ABTesting.calculate_statistical_significance uninspected_numpy tabulated_chi2
      50 100 70 100 (Fin (Q2Qc (5 # 100))) = Ok r /\
    ABTesting.control_rate r = Fin (Qc_of_Z 50 / Qc_of_Z 100)%Qc /\
    fle (ABTesting.treatment_rate r) (of_Z 1) = true.
Proof.
  destruct (@ABTesting.calculate_statistical_significance uninspected_numpy
              tabulated_chi2 50 100 70 100 (Fin (Q2Qc (5 # 100)))) as [r|e] eqn:Hrun;
    [|by vm_compute in Hrun].
  exists r. split; [done|].
  destruct (@significance_returns_for_valid_counts uninspected_numpy tabulated_chi2
              _ _ _ _ _ _ Hrun) as (_ & _ & _ & _ & Hc & _ & _ & _ & _ & Ht).
  by split.
Defined.

Lemma significance_rejects_invalid_counts_witness :
  @ABTesting.calculate_statistical_significance uninspected_numpy tabulated_chi2
    120 100 70 100 (Fin (Q2Qc (5 # 100))) = Raise ValueError /\
  (@ABTesting.calculate_statistical_significance uninspected_numpy tabulated_chi2
     0 0 70 100 (Fin (Q2Qc (5 # 100))) = Raise ValueError \/
   @ABTesting.calculate_statistical_significance uninspected_numpy tabulated_chi2
     0 0 70 100 (Fin (Q2Qc (5 # 100))) = Raise ZeroDivisionError).
Proof.
  split.
  - apply (@significance_rejects_invalid_counts uninspected_numpy tabulated_chi2). lia.
  - apply (@significance_rejects_invalid_counts uninspected_numpy tabulated_chi2). lia.
Defined.

(** ** Frames: row selection keeps the columns at one length *)

Section Frames.
Import Pandas.

Lemma mask_rows_length {A B} (m : list bool) (xs : list A) (ys : list B) :
  length xs = length ys -> length (mask_rows m xs) = length (mask_rows m ys).
Proof.
  revert xs ys. induction m as [|b m IH]; intros [|x xs] [|y ys]; try done.
  intros [= Hlen]. cbn [mask_rows]. destruct b; cbn [length]; auto.
Qed.

Lemma mask_rows_none {A} (m : list bool) (xs : list A) :
  Forall (fun b => b = false) m -> mask_rows m xs = [].
Proof.
  intros Hm. revert xs. induction Hm as [|b m -> _ IH]; intros [|x xs]; try done.
  cbn [mask_rows]. apply IH.
Qed.

Lemma take_rows_length {A B} (idx : list nat) (xs : list A) (ys : list B) :
  length xs = length ys -> length (take_rows idx xs) = length (take_rows idx ys).
Proof.
  intros Hlen. unfold take_rows. induction idx as [|i idx IH]; [done|].
  cbn [omap list_omap].
  destruct (decide (i < length xs)%nat) as [Hi|Hi].
  - destruct (lookup_lt_is_Some_2 xs i Hi) as [x ->].
    rewrite Hlen in Hi. destruct (lookup_lt_is_Some_2 ys i Hi) as [y ->].
    cbn [length]. by rewrite IH.
  - rewrite (lookup_ge_None_2 xs i) by lia.
    rewrite (lookup_ge_None_2 ys i) by lia. done.
Qed.

Lemma take_rows_nil {A} (idx : list nat) : take_rows idx (@nil A) = [].
Proof. unfold take_rows. induction idx as [|i idx IH]; [done|]. cbn. done. Qed.

Lemma col_len_filter (m : list bool) (c c' : column) :
  col_len c = col_len c' -> col_len (col_filter m c) = col_len (col_filter m c').
Proof. destruct c, c'; cbn [col_len col_filter]; apply mask_rows_length. Qed.

Lemma col_len_take (idx : list nat) (c c' : column) :
  col_len c = col_len c' -> col_len (col_take idx c) = col_len (col_take idx c').
Proof. destruct c, c'; cbn [col_len col_take]; apply take_rows_length. Qed.

Lemma rectangular_fmap (g : column -> column) (df : DataFrame) :
  (forall c c', col_len c = col_len c' -> col_len (g c) = col_len (g c')) ->
  rectangular df -> rectangular (prod_map id g <$> df).
Proof.
  intros Hg. unfold rectangular. destruct df as [|[n c] df]; [done|].
  cbn [fmap list_fmap df_len prod_map fst snd id].
  rewrite !Forall_cons, Forall_fmap. intros [_ Hrest]. split; [done|].
  eapply Forall_impl; [exact Hrest|]. intros [n' c'] Hc. cbn in *. by apply Hg.
Qed.

Lemma rectangular_filter (m : list bool) (df : DataFrame) :
  rectangular df -> rectangular (df_filter m df).
Proof. apply rectangular_fmap, col_len_filter. Qed.

Lemma rectangular_take (idx : list nat) (df : DataFrame) :
  rectangular df -> rectangular (df_take idx df).
Proof. apply rectangular_fmap, col_len_take. Qed.

Lemma frame_get_fmap (g : column -> column) (df : DataFrame) (name : string) :
  frame_get (prod_map id g <$> df) name = g <$> frame_get df name.
Proof.
  induction df as [|[n c] df IH]; [done|].
  cbn [fmap list_fmap frame_get prod_map fst snd id]. by case_decide.
Qed.

Lemma frame_get_elem (df : DataFrame) (name : string) (c : column) :
  frame_get df name = Some c -> (name, c) ∈ df.
Proof.
  induction df as [|[n c0] df IH]; [done|]. cbn [frame_get].
  case_decide as Hn; [intros [= ->]; subst; by left | right; auto].
Qed.

Lemma rectangular_get (df : DataFrame) (name : string) (c : column) :
  rectangular df -> frame_get df name = Some c -> col_len c = df_len df.
Proof.
  intros Hrect Hget%frame_get_elem.
  by apply (proj1 (Forall_forall _ _) Hrect) in Hget.
Qed.

Lemma eq_str_length (c : column) (s : string) : length (eq_str c s) = col_len c.
Proof. destruct c; cbn [eq_str col_len]; apply length_fmap. Qed.

Lemma ne_str_length (c : column) (s : string) : length (ne_str c s) = col_len c.
Proof. unfold ne_str. by rewrite length_fmap, eq_str_length. Qed.

Lemma bool_sum_bounds (m : list bool) : 0 <= bool_sum m <= Z.of_nat (length m).
Proof. unfold bool_sum. pose proof (length_filter (fun b => b = true) m). lia. Qed.

Lemma getitem_Ok (df : DataFrame) (name : string) (c : column) :
  getitem df name = Ok c <-> frame_get df name = Some c.
Proof. unfold getitem. destruct (frame_get df name); split; congruence. Qed.

End Frames.

(** ** Experiment evaluator: the simulated counts *)

Lemma py_int_le (q : Qc) (k z : Z) :
  py_int (Fin q) = Ok z -> (q <= Qc_of_Z k)%Qc -> z <= k.
Proof.
  unfold py_int. intros [= <-] Hq.
  assert (Hc : Qceiling q <= k).
  { rewrite <- (Qceiling_Z k). apply Qceiling_resp_le. exact Hq. }
  destruct (Qc_negb q); [done|].
  pose proof (Qle_floor_ceiling q) as Hfc. rewrite <- Zle_Qle in Hfc. lia.
Qed.

Lemma py_int_nonneg (q : Qc) (z : Z) :
  py_int (Fin q) = Ok z -> (0 <= q)%Qc -> 0 <= z.
Proof.
  unfold py_int, Qc_negb. intros [= <-] Hq.
  rewrite bool_decide_eq_false_2 by by apply Qcle_not_lt.
  rewrite <- (Qfloor_Z 0). apply Qfloor_resp_le. exact Hq.
Qed.

Section SimulatedCounts.
Context `{PandasSampling}.
Import Pandas ABTesting.

(** What a returned simulation holds, field by field; the rows it is
    computed from are those of the stage, or rows drawn from them. *)
Lemma simulate_intervention_fields (df : DataFrame) (stage : string)
    (r : pyfloat) (size : option Z) (sim : simulation) :
  simulate_intervention df stage r size = Ok sim ->
  exists stage_col stage_data status,
    getitem df "Stage" = Ok stage_col /\
    (stage_data = df_filter (eq_str stage_col stage) df \/
     exists idx, stage_data = df_take idx (df_filter (eq_str stage_col stage) df)) /\
    getitem stage_data "Status" = Ok status /\
    sim_sample_size sim = df_len stage_data /\
    baseline_pass_rate sim = bool_mean (ne_str status "Rejected") /\
    baseline_passed sim = bool_sum (ne_str status "Rejected") /\
    new_pass_rate sim
      = py_min (fmul (baseline_pass_rate sim) (fadd (of_Z 1) r)) (Fin 1%Qc) /\
    py_int (fmul (of_Z (Z.of_nat (df_len stage_data))) (new_pass_rate sim))
      = Ok (expected_passed sim) /\
    additional_passed sim = expected_passed sim - baseline_passed sim.
Proof.
  intros Hrun. unfold simulate_intervention in Hrun.
  destruct (getitem df "Stage") as [stage_col|]; [cbn [rbind] in Hrun | done].
  match type of Hrun with rbind ?s _ = _ =>
    destruct s as [stage_data|] eqn:Hsample end; [cbn [rbind] in Hrun | done].
  destruct (getitem stage_data "Status") as [status|] eqn:Hstatus;
    [cbn [rbind] in Hrun | done].
  match type of Hrun with rbind ?s _ = _ => destruct s as [ep|] eqn:Hint end;
    [cbn [rbind] in Hrun | done].
  apply Ok_inj in Hrun as <-.
  exists stage_col, stage_data, status.
  cbn [sim_sample_size baseline_pass_rate baseline_passed new_pass_rate
       expected_passed additional_passed].
  repeat split; try done.
  destruct size as [n|]; [|left; congruence].
  destruct (bool_decide (n = 0)); [left; congruence|].
  cbv zeta in Hsample. destruct (bool_decide (_ < 0)); [done|].
  right. eexists. symmetry. by apply Ok_inj in Hsample.
Qed.

Lemma bool_mean_nil : bool_mean [] = NaN.
Proof. by vm_compute. Qed.

Lemma bool_mean_fin (m : list bool) :
  (0 < length m)%nat ->
  bool_mean m = Fin (Qc_of_Z (bool_sum m) / Qc_of_Z (Z.of_nat (length m)))%Qc.
Proof. intros Hm. unfold bool_mean. apply np_div_Z. lia. Qed.

(** A returned simulation of a well-formed table ran on at least one
    record, and its baseline rate is the fraction of the records that
    passed. *)
Lemma simulate_intervention_sample (df : DataFrame) (stage : string)
    (r : pyfloat) (size : option Z) (sim : simulation) :
  rectangular df ->
  simulate_intervention df stage r size = Ok sim ->
  let n := Z.of_nat (sim_sample_size sim) in
  0 < n /\ 0 <= baseline_passed sim <= n /\
  baseline_pass_rate sim = Fin (Qc_of_Z (baseline_passed sim) / Qc_of_Z n)%Qc /\
  py_int (fmul (of_Z n) (new_pass_rate sim)) = Ok (expected_passed sim).
Proof.
  intros Hrect Hrun n.
  apply simulate_intervention_fields in Hrun
    as (stage_col & stage_data & status & _ & Hdata & Hstatus & Hn & Hrate & Hbp
        & Hmin & Hint & _).
  assert (Hrect' : rectangular stage_data).
  { destruct Hdata as [-> | [idx ->]];
      [|apply rectangular_take]; by apply rectangular_filter. }
  apply getitem_Ok in Hstatus.
  pose proof (rectangular_get _ _ _ Hrect' Hstatus) as Hlen.
  rewrite <- (ne_str_length status "Rejected"), <- Hn in Hlen.
  subst n. rewrite <- Hn in Hint.
  destruct (decide (sim_sample_size sim = 0)%nat) as [Hzero|Hpos].
  - exfalso. rewrite Hzero in Hlen. apply nil_length_inv in Hlen.
    rewrite Hmin, Hrate, Hlen, bool_mean_nil in Hint. done.
  - pose proof (bool_sum_bounds (ne_str status "Rejected")) as Hb.
    rewrite Hlen in Hb. rewrite Hrate, Hbp, bool_mean_fin, Hlen by lia.
    repeat split; try lia; done.
Qed.

End SimulatedCounts.

Lemma Qcmult_nonneg (a b : Qc) : (0 <= a)%Qc -> (0 <= b)%Qc -> (0 <= a * b)%Qc.
Proof.
  intros Ha Hb. rewrite <- (Qcmult_0_l b). by apply Qcmult_le_compat_r.
Qed.

Section SimulatedStage.
Context `{PandasSampling}.
Import Pandas ABTesting.

Lemma has_column_get (df : DataFrame) (name : string) :
  has_column df name = true -> exists c, frame_get df name = Some c.
Proof.
  unfold has_column, df_columns. intros Hin%bool_decide_eq_true.
  induction df as [|[n c] df IH]; [by apply elem_of_nil in Hin|].
  cbn [frame_get]. case_decide; [by eexists|].
  apply IH. rewrite fmap_cons in Hin. apply elem_of_cons in Hin as [?|?]; [|done].
  by subst.
Qed.

Lemma col_filter_none (m : list bool) (c : column) :
  Forall (fun b => b = false) m -> col_len (col_filter m c) = 0%nat.
Proof. intros Hm. destruct c; cbn [col_filter col_len]; by rewrite mask_rows_none. Qed.

Lemma col_take_empty (idx : list nat) (c : column) :
  col_len c = 0%nat -> col_len (col_take idx c) = 0%nat.
Proof.
  destruct c as [xs|xs|xs]; cbn [col_len col_take]; intros ->%nil_length_inv;
    by rewrite take_rows_nil.
Qed.

Lemma ne_str_empty (c : column) (s : string) : col_len c = 0%nat -> ne_str c s = [].
Proof. intros Hc. apply nil_length_inv. by rewrite ne_str_length. Qed.

(** X4: a stage that has no record cannot be simulated: whatever the
    improvement and the sample size, the pass rate of the empty selection
    is NaN and the call raises [ValueError] when the expected count is
    converted to an integer (or already when a negative sample size is
    drawn). *)
Theorem simulate_intervention_empty_stage (df : DataFrame) (stage : string)
    (improvement_rate : pyfloat) (sample_size : option Z) (stage_col : column) :
  getitem df "Stage" = Ok stage_col ->
  has_column df "Status" = true ->
  Forall (fun b => b = false) (eq_str stage_col stage) ->
  simulate_intervention df stage improvement_rate sample_size = Raise ValueError.
Proof.
  intros Hstage [status Hstatus]%has_column_get Hnone.
  assert (Hraise : forall stage_data status',
    getitem stage_data "Status" = Ok status' -> col_len status' = 0%nat ->
    rbind (getitem stage_data "Status") (fun status =>
      let baseline_pass_rate := bool_mean (ne_str status "Rejected") in
      let baseline_passed := bool_sum (ne_str status "Rejected") in
      let new_pass_rate :=
        py_min (fmul baseline_pass_rate (fadd (of_Z 1) improvement_rate))
               (Fin 1%Qc) in
      rbind (py_int (fmul (of_Z (Z.of_nat (df_len stage_data))) new_pass_rate))
        (fun expected_passed =>
         Ok {| sim_stage := stage;
               sim_sample_size := df_len stage_data;
               baseline_pass_rate := baseline_pass_rate;
               new_pass_rate := new_pass_rate;
               baseline_passed := baseline_passed;
               expected_passed := expected_passed;
               additional_passed := expected_passed - baseline_passed;
               improvement_pct :=
                 fmul (np_div (fsub new_pass_rate baseline_pass_rate)
                              baseline_pass_rate)
                      (of_Z 100) |})) = Raise ValueError).
  { intros stage_data status' -> Hempty. cbn [rbind].
    by rewrite (ne_str_empty _ _ Hempty), bool_mean_nil. }
  unfold simulate_intervention. rewrite Hstage. cbn [rbind].
  assert (Hfiltered :
    getitem (df_filter (eq_str stage_col stage) df) "Status"
    = Ok (col_filter (eq_str stage_col stage) status)).
  { apply getitem_Ok. unfold df_filter. by rewrite frame_get_fmap, Hstatus. }
  destruct sample_size as [size|]; [|cbn [rbind]; eapply Hraise; [done|]].
  - case_bool_decide; [cbn [rbind]; eapply Hraise; [done|]; by apply col_filter_none|].
    case_bool_decide; [done|]. cbn [rbind]. eapply Hraise.
    + apply getitem_Ok. unfold df_take. rewrite frame_get_fmap.
      apply getitem_Ok in Hfiltered. by rewrite Hfiltered.
    + by apply col_take_empty, col_filter_none.
  - by apply col_filter_none.
Qed.

(** X5: the counts of a returned simulation of a well-formed table: the
    sample is not empty, the records that passed are at most the sample,
    the baseline rate is their fraction of the sample, the expected count
    is at most the sample (and not negative when the improvement is not),
    and the additional count is the difference of the two. *)
Theorem simulate_intervention_counts (df : DataFrame) (stage : string)
    (improvement_rate : pyfloat) (sample_size : option Z) (sim : simulation) :
  rectangular df ->
  simulate_intervention df stage improvement_rate sample_size = Ok sim ->
  let n := Z.of_nat (sim_sample_size sim) in
  0 < n /\
  0 <= baseline_passed sim <= n /\
  baseline_pass_rate sim = Fin (Qc_of_Z (baseline_passed sim) / Qc_of_Z n)%Qc /\
  expected_passed sim <= n /\
  (fle (of_Z 0) improvement_rate = true -> 0 <= expected_passed sim) /\
  additional_passed sim = expected_passed sim - baseline_passed sim.
Proof.
  intros Hrect Hrun n.
  destruct (simulate_intervention_sample _ _ _ _ _ Hrect Hrun)
    as (Hn & Hbp & Hrate & Hint).
  fold n in Hn, Hbp, Hrate, Hint.
  apply simulate_intervention_fields in Hrun
    as (? & ? & ? & _ & _ & _ & _ & _ & _ & Hmin & _ & Hadd).
  destruct (py_int_Ok_fin _ _ Hint) as [p Hp].
  destruct (fmul_fin_inv _ _ _ Hp) as [q Hq].
  rewrite Hq in Hint, Hmin. cbn [fmul] in Hint. symmetry in Hmin.
  destruct (py_min_one_fin _ _ Hmin) as (Hle1%fle_fin & _ & Heq).
  assert (Hn0 : (0 <= Qc_of_Z n)%Qc).
  { rewrite <- Z2Qc_inj_0. apply (proj1 (Z2Qc_inj_le 0 n)). lia. }
  repeat split; try lia; try done.
  - apply (py_int_le _ _ _ Hint).
    rewrite <- (Qcmult_1_r (Qc_of_Z n)) at 2. rewrite !(Qcmult_comm (Qc_of_Z n)).
    by apply Qcmult_le_compat_r.
  - intros Hr. apply (py_int_nonneg _ _ Hint).
    assert (Hq0 : (0 <= q)%Qc); [|by apply Qcmult_nonneg].
    clear Hmin Hint Hp Hq. destruct Heq as [Heq | [= ->]]; [|done].
    rewrite Hrate in Heq. unfold of_Z in Heq, Hr.
    destruct improvement_rate as [rate|[]|]; cbn [fadd fmul] in Heq; try done.
    + injection Heq as ->. apply fle_fin in Hr. rewrite Z2Qc_inj_0 in Hr.
      apply Qcmult_nonneg.
      * by apply Qc_of_Z_div_unit.
      * rewrite <- (Qcplus_0_l 0). apply Qcplus_le_compat; [|done].
        rewrite Z2Qc_inj_1. done.
    + by case_bool_decide.
Qed.

End SimulatedStage.

Lemma simulate_intervention_empty_stage_witness :
  @ABTesting.simulate_intervention leading_rows_sampling technical_round_records
    "Offer Extended" (Fin (Q2Qc (15 # 100))) (Some 500) = Raise ValueError.
Proof.
  eapply (@simulate_intervention_empty_stage leading_rows_sampling
            technical_round_records).
  - reflexivity.
  - reflexivity.
  - by_compute.
Defined.

Lemma simulate_intervention_counts_witness :
  exists sim,
    @ABTesting.simulate_intervention leading_rows_sampling technical_round_records
      "Technical Round" (Fin (Q2Qc (15 # 100))) (Some 3) = Ok sim /\
    ABTesting.sim_sample_size sim = 3%nat /\
    0 <= ABTesting.baseline_passed sim <= 3 /\
    0 <= ABTesting.expected_passed sim <= 3.
Proof.
  destruct (@ABTesting.simulate_intervention leading_rows_sampling
              technical_round_records "Technical Round" (Fin (Q2Qc (15 # 100)))
              (Some 3)) as [sim|e] eqn:Hrun; [|by vm_compute in Hrun].
  exists sim. split; [done|].
  assert (Hn : ABTesting.sim_sample_size sim = 3%nat).
  { vm_compute in Hrun. by injection Hrun as <-. }
  destruct (@simulate_intervention_counts leading_rows_sampling
              technical_round_records "Technical Round" (Fin (Q2Qc (15 # 100)))
              (Some 3) sim) as (_ & Hbp & _ & Hep & Hep0 & _);
    [by_compute | done |].
  rewrite Hn in Hbp, Hep. split; [done|]. split; [done|].
  split; [apply Hep0; by_compute | done].
Defined.

(** ** Experiment evaluator: the domain of the significance test *)

Section SignificanceTotal.
Context `{NumpyMath} `{ScipyStats}.
Import Scipy ABTesting.

Lemma Qcdiv_0_l (q : Qc) : (Qc_of_Z 0 / q)%Qc = 0%Qc.
Proof. rewrite Z2Qc_inj_0. unfold Qcdiv. ring. Qed.

(** The test returns on a table only when both outcomes occur. *)
Lemma chi2_contingency_Ok_columns (a b c d : Z) (res : pyfloat * pyfloat) :
  chi2_contingency ((a, b), (c, d)) = Ok res ->
  0 < a + b + c + d < 2 ^ 63 -> 0 < a + c /\ 0 < b + d.
Proof.
  intros Hrun Htot.
  pose proof (chi2_contingency_Ok_nonneg _ _ Hrun) as Hnn. cbn [cells4] in Hnn.
  apply Forall_cons in Hnn as [Ha Hnn]. apply Forall_cons in Hnn as [Hb Hnn].
  apply Forall_cons in Hnn as [Hc Hnn]. apply Forall_cons in Hnn as [Hd _].
  unfold chi2_contingency in Hrun.
  destruct (existsb _ (cells4 ((a, b), (c, d)))); [done|].
  destruct (existsb _ (cells4 (expected_freq _))) eqn:Hzero; [done|]. clear Hrun.
  unfold expected_freq in Hzero. cbn [cells4 existsb] in Hzero.
  apply orb_false_iff in Hzero as [H11 Hzero].
  apply orb_false_iff in Hzero as [H12 _].
  split.
  - destruct (decide (a + c = 0)) as [Hcol|]; [|lia]. exfalso.
    rewrite Hcol, Z.mul_0_r, np_div_Z, Qcdiv_0_l in H11 by lia.
    cbn [feq] in H11. by rewrite bool_decide_eq_true_2 in H11.
  - destruct (decide (b + d = 0)) as [Hcol|]; [|lia]. exfalso.
    rewrite Hcol, Z.mul_0_r, np_div_Z, Qcdiv_0_l in H12 by lia.
    cbn [feq] in H12. by rewrite bool_decide_eq_true_2 in H12.
Qed.

Lemma chi2_contingency_returns (a b c d : Z) :
  0 <= a -> 0 <= b -> 0 <= c -> 0 <= d ->
  0 < a + b < 2 ^ 31 -> 0 < c + d < 2 ^ 31 -> 0 < a + c -> 0 < b + d ->
  returns (chi2_contingency ((a, b), (c, d))).
Proof.
  intros Ha Hb Hc Hd Hr1 Hr2 Hc1 Hc2. unfold chi2_contingency.
  assert (Hneg : existsb (fun x => bool_decide (x < 0)) (cells4 ((a, b), (c, d)))
                 = false).
  { cbn [cells4 existsb]. rewrite !bool_decide_eq_false_2 by lia. done. }
  rewrite Hneg. unfold expected_freq. cbn [cells4 existsb].
  rewrite !expected_cell_nonzero by nia. cbn [orb]. by eexists.
Qed.

Lemma significance_no_zero_division (cs ct ts tt : Z) (a : pyfloat) :
  0 < ct -> 0 < tt ->
  calculate_statistical_significance cs ct ts tt a <> Raise ZeroDivisionError.
Proof.
  intros Hct Htt.
  assert (Hguard : forall p1 p2 : pyfloat,
    (if flt (of_Z 0) p1
     then rbind (py_truediv (fsub p2 p1) p1) (fun q => Ok (fmul q (of_Z 100)))
     else Ok (of_Z 0)) <> Raise ZeroDivisionError).
  { intros p1 p2. destruct (flt (of_Z 0) p1) eqn:Hpos; [|done].
    unfold py_truediv. destruct p1 as [q| |]; [|done..].
    case_bool_decide as Hq; [|done].
    subst q. unfold of_Z in Hpos. rewrite Z2Qc_inj_0 in Hpos.
    apply flt_fin in Hpos. by apply Qclt_not_le in Hpos. }
  unfold calculate_statistical_significance, chi2_contingency.
  repeat case_match; try done; cbn [rbind fst snd];
    rewrite !py_truediv_Z by lia; cbn [rbind].
  match goal with |- rbind ?g _ <> _ =>
    pose proof (Hguard (np_div (of_Z cs) (of_Z ct)) (np_div (of_Z ts) (of_Z tt)));
    destruct g; [done | cbn [rbind]; congruence] end.
Qed.

(** X6: the domain of the significance test, for groups below 2^31: the
    call returns exactly when both totals are positive, each success
    count lies between 0 and its total, and the two groups together hold
    at least one success and at least one failure. *)
Theorem significance_returns_iff (cs ct ts tt : Z) (a : pyfloat) :
  ct < 2 ^ 31 -> tt < 2 ^ 31 ->
  returns (calculate_statistical_significance cs ct ts tt a) <->
  0 < ct /\ 0 < tt /\ 0 <= cs <= ct /\ 0 <= ts <= tt /\
  0 < cs + ts < ct + tt.
Proof.
  intros Hct Htt. split.
  - intros [r Hrun]. apply significance_fields in Hrun as (Htest & Hp1 & Hp2 & _).
    pose proof (chi2_contingency_Ok_nonneg _ _ Htest) as Hnn. cbn [cells4] in Hnn.
    apply Forall_cons in Hnn as [Hcs Hnn]. apply Forall_cons in Hnn as [Hcf Hnn].
    apply Forall_cons in Hnn as [Hts Hnn]. apply Forall_cons in Hnn as [Htf _].
    apply py_truediv_Z_Ok in Hp1, Hp2.
    apply chi2_contingency_Ok_columns in Htest; lia.
  - intros (Hct0 & Htt0 & Hcs & Hts & Hmix).
    unfold calculate_statistical_significance.
    destruct (chi2_contingency_returns cs (ct - cs) ts (tt - ts)) as [test ->];
      [lia..|].
    cbn [rbind]. rewrite !py_truediv_Z by lia. cbn [rbind].
    rewrite !np_div_Z by lia.
    destruct (flt _ _) eqn:Hpos; [|by eexists].
    unfold py_truediv. rewrite bool_decide_eq_false_2; [by eexists|].
    intros Hzero. rewrite Hzero in Hpos. unfold of_Z in Hpos.
    rewrite Z2Qc_inj_0 in Hpos. by rewrite flt_irrefl_fin in Hpos.
Qed.

End SignificanceTotal.

Lemma significance_returns_iff_witness :
  returns (@ABTesting.calculate_statistical_significance uninspected_numpy
             tabulated_chi2 3 10 5 12 (Fin (Q2Qc (5 # 100)))) /\
  ~ returns (@ABTesting.calculate_statistical_significance uninspected_numpy
               tabulated_chi2 0 10 0 12 (Fin (Q2Qc (5 # 100)))).
Proof.
  split.
  - apply (@significance_returns_iff uninspected_numpy tabulated_chi2); lia.
  - intros Hret.
    apply (@significance_returns_iff uninspected_numpy tabulated_chi2) in Hret; lia.
Defined.

(** ** Experiment evaluator: the simulation followed by the test *)

Section TechnicalRoundTest.
Context `{PandasSampling} `{NumpyMath} `{ScipyStats}.
Import Pandas Scipy ABTesting ABTestingMain.

Lemma simulate_intervention_no_zero_division (df : DataFrame) (stage : string)
    (r : pyfloat) (size : option Z) :
  simulate_intervention df stage r size <> Raise ZeroDivisionError.
Proof.
  unfold simulate_intervention, getitem.
  destruct (frame_get df "Stage"); [cbn [rbind]|done].
  match goal with |- rbind ?s _ <> _ => destruct s as [stage_data|e] eqn:Hs end;
    cbn [rbind].
  - destruct (frame_get stage_data "Status"); [cbn [rbind]|done].
    match goal with |- rbind ?s _ <> _ => destruct s as [ep|e] eqn:Hint end;
      cbn [rbind]; [done|].
    unfold py_int in Hint. repeat case_match; congruence.
  - destruct size; [|done]. cbv zeta in Hs. repeat case_match; congruence.
Qed.

(** X7: test 1 of [main] on a well-formed table never fails with a
    division by zero, the simulation returning only for a sample that is
    not empty; when it returns, the control rate of the test is the
    baseline pass rate of the simulation, the treatment rate is the
    expected count over the sample, and, for a sample below 2^62 records,
    some but not all of the observed and expected outcomes are passes. *)
Theorem technical_round_test_rates (df : DataFrame) :
  rectangular df ->
  technical_round_test df <> Raise ZeroDivisionError /\
  forall tech sig,
    technical_round_test df = Ok (tech, sig) ->
    let n := Z.of_nat (sim_sample_size tech) in
    control_rate sig = baseline_pass_rate tech /\
    treatment_rate sig = Fin (Qc_of_Z (expected_passed tech) / Qc_of_Z n)%Qc /\
    0 <= expected_passed tech <= n /\
    (n < 2 ^ 62 ->
     0 < baseline_passed tech + expected_passed tech < 2 * n).
Proof.
  intros Hrect. split.
  - unfold technical_round_test. destruct (simulate_intervention _ _ _ _) as [tech|e] eqn:Hsim; cbn [rbind].
    + destruct (simulate_intervention_sample _ _ _ _ _ Hrect Hsim) as (Hn & _).
      pose proof (significance_no_zero_division (baseline_passed tech)
                    (Z.of_nat (sim_sample_size tech)) (expected_passed tech)
                    (Z.of_nat (sim_sample_size tech)) (Fin (Q2Qc (5 # 100))) Hn Hn).
      destruct (calculate_statistical_significance _ _ _ _ _); cbn [rbind]; congruence.
    + intros Heq. injection Heq as ->.
      by apply simulate_intervention_no_zero_division in Hsim.
  - intros tech sig Hrun n. unfold technical_round_test in Hrun.
    destruct (simulate_intervention _ _ _ _) as [tech'|] eqn:Hsim;
      [cbn [rbind] in Hrun | done].
    destruct (calculate_statistical_significance _ _ _ _ _) as [sig'|] eqn:Hsig;
      [cbn [rbind] in Hrun | done].
    injection Hrun as -> ->.
    destruct (simulate_intervention_sample _ _ _ _ _ Hrect Hsim)
      as (Hn & Hbp & Hrate & _). fold n in Hn, Hbp, Hrate, Hsig.
    apply significance_fields in Hsig as (Htest & Hp1 & Hp2 & _).
    pose proof (chi2_contingency_Ok_nonneg _ _ Htest) as Hnn. cbn [cells4] in Hnn.
    apply Forall_cons in Hnn as [_ Hnn]. apply Forall_cons in Hnn as [_ Hnn].
    apply Forall_cons in Hnn as [Hep Hnn]. apply Forall_cons in Hnn as [Hef _].
    rewrite py_truediv_Z, np_div_Z in Hp1, Hp2 by lia.
    apply Ok_inj in Hp1. apply Ok_inj in Hp2.
    split; [congruence|]. split; [done|]. split; [lia|].
    intros Hsmall. apply chi2_contingency_Ok_columns in Htest; lia.
Qed.

End TechnicalRoundTest.

Lemma technical_round_test_rates_witness :
  exists tech sig,
    @ABTestingMain.technical_round_test leading_rows_sampling uninspected_numpy
      tabulated_chi2 technical_round_records = Ok (tech, sig) /\
    ABTesting.control_rate sig = ABTesting.baseline_pass_rate tech /\
    0 < ABTesting.baseline_passed tech + ABTesting.expected_passed tech.
Proof.
  destruct (@ABTestingMain.technical_round_test leading_rows_sampling
              uninspected_numpy tabulated_chi2 technical_round_records)
    as [[tech sig]|e] eqn:Hrun; [|by vm_compute in Hrun].
  exists tech, sig. split; [done|].
  destruct (@technical_round_test_rates leading_rows_sampling uninspected_numpy
              tabulated_chi2 technical_round_records) as [_ Hrates]; [by_compute|].
  destruct (Hrates tech sig Hrun) as (Hc & _ & _ & Hmix).
  split; [done|].
  assert (Hn : ABTesting.sim_sample_size tech = 4%nat).
  { vm_compute in Hrun. by injection Hrun as <- _. }
  rewrite Hn in Hmix. lia.
Defined.

(** ** Feature engineering: what a call assigns *)

Section Assignments.
Context `{NumpyMath}.
Import Pandas FeatureEngineering.

Lemma assigns_only_ret {S A} (frame_of : S -> DataFrame) (names : list string)
    (a : A) :
  assigns_only frame_of names (mret a).
Proof. by intros s res s' [= _ <-]. Qed.

Lemma assigns_only_lift {S A} (frame_of : S -> DataFrame) (names : list string)
    (r : result A) :
  assigns_only frame_of names (lift r).
Proof. by intros s res s' [= _ <-]. Qed.

Lemma assigns_only_bind {S A B} (frame_of : S -> DataFrame) (names : list string)
    (m : SE S A) (k : A -> SE S B) :
  assigns_only frame_of names m ->
  (forall a, assigns_only frame_of names (k a)) ->
  assigns_only frame_of names (m ≫= k).
Proof.
  intros Hm Hk s res s'. unfold mbind, SE_bind.
  destruct (m s) as [[a|e] s1] eqn:Hrun.
  - intros Hrest n Hn. rewrite (Hk a _ _ _ Hrest n Hn). by eapply Hm.
  - intros [= _ <-] n Hn. by eapply Hm.
Qed.

Lemma assigns_only_when {S} (frame_of : S -> DataFrame) (names : list string)
    (b : bool) (p : SE S unit) :
  assigns_only frame_of names p -> assigns_only frame_of names (when b p).
Proof. destruct b; [done|]. intros _. apply assigns_only_ret. Qed.

Lemma assigns_only_in_columns (names : list string) (name : string) :
  assigns_only id names (in_columns name).
Proof. by intros s res s' [= _ <-]. Qed.

Lemma assigns_only_get_column (names : list string) (name : string) :
  assigns_only id names (get_column name).
Proof. by intros s res s' [= _ <-]. Qed.

Lemma assigns_only_set_column (names : list string) (name : string) (c : column) :
  name ∈ names -> assigns_only id names (set_column name c).
Proof.
  intros Hin s res s' [= _ <-] n Hn. apply frame_get_setitem_ne. by intros ->.
Qed.

Lemma assigns_only_frame_only {A} (names : list string) (p : SE DataFrame A) :
  assigns_only id names p -> assigns_only snd names (frame_only p).
Proof.
  intros Hp [E f] res [E' f']. unfold frame_only. cbn [fst snd].
  destruct (p f) as [res' f1] eqn:Hrun. intros [= _ _ <-]. by eapply Hp.
Qed.

Lemma assigns_only_in_encoders (names : list string) (name : string) :
  assigns_only snd names (in_encoders name).
Proof. by intros s res s' [= _ <-]. Qed.

Lemma assigns_only_get_encoder (names : list string) (name : string) :
  assigns_only snd names (get_encoder name).
Proof. by intros s res s' [= _ <-]. Qed.

Lemma assigns_only_set_encoder (names : list string) (name : string)
    (enc : LabelEncoder.t) :
  assigns_only snd names (set_encoder name enc).
Proof. by intros s res s' [= _ <-]. Qed.

Lemma assigns_only_for_each {S A} (frame_of : S -> DataFrame) (names : list string)
    (body : A -> SE S unit) (xs : list A) :
  (forall x, x ∈ xs -> assigns_only frame_of names (body x)) ->
  assigns_only frame_of names (for_each body xs).
Proof.
  induction xs as [|x xs IH]; intros Hbody; cbn [for_each].
  - apply assigns_only_ret.
  - apply assigns_only_bind; [apply Hbody; by left|].
    intros _. apply IH. intros x' Hx'. apply Hbody. by right.
Qed.

(** A turn of the encoding loop assigns the encoded column of its own
    column only. *)
Lemma encode_categorical_assigns (names : list string) (col : string) :
  encoded_name col ∈ names -> assigns_only snd names (encode_categorical col).
Proof.
  intros Hin. unfold encode_categorical.
  apply assigns_only_bind; [apply assigns_only_frame_only, assigns_only_in_columns|].
  intros [|]; [|apply assigns_only_ret].
  apply assigns_only_bind; [apply assigns_only_in_encoders|].
  intros known. destruct (negb known);
    repeat first
      [ apply assigns_only_bind; [|intros ?]
      | apply assigns_only_set_encoder
      | apply assigns_only_get_encoder
      | apply assigns_only_lift
      | apply assigns_only_frame_only
      | apply assigns_only_get_column
      | by apply assigns_only_set_column ].
Qed.

(** Sections 2 to 6 assign the derived columns only. *)
Lemma derived_features_assigns (names : list string) :
  derived_cols ⊆ names -> assigns_only id names derived_features.
Proof.
  intros Hnames. unfold derived_features.
  repeat first
    [ apply assigns_only_bind; [|intros ?]
    | apply assigns_only_when
    | apply assigns_only_in_columns
    | apply assigns_only_get_column
    | apply assigns_only_lift
    | apply assigns_only_set_column, Hnames; by_compute ].
Qed.

End Assignments.

(** ** Feature engineering: the run of [create_features] *)

Section FeatureRun.
Context `{NumpyMath}.
Import Pandas FeatureEngineering.

(** The steps of a call: the copy, the encoding loop on the copy, then the
    derived features; an exception leaves the copy as far as it got. *)
Lemma create_features_run (df : ref) (w w' : world) (res : result ref) :
  create_features df w = (res, w') ->
  match frames w !! df with
  | None => res = Raise NameError /\ w' = w
  | Some f =>
      let r := fresh (dom (frames w)) in
      exists res1 E1 g,
        for_each encode_categorical categorical_cols (label_encoders w, f)
          = (res1, (E1, g)) /\
        match res1 with
        | Raise e => res = Raise e /\ w' = World (<[r := g]> (frames w)) E1
        | Ok _ =>
            exists res2 f',
              derived_features g = (res2, f') /\
              w' = World (<[r := f']> (frames w)) E1 /\
              res = match res2 with Ok _ => Ok r | Raise e => Raise e end
        end
  end.
Proof.
  unfold create_features, mbind, SE_bind, mret, SE_ret. intros Hrun.
  pose proof (df_copy_run df w) as Hcopy.
  destruct (frames w !! df) as [f|] eqn:Hdf.
  - destruct Hcopy as [Hfresh Hcopy]. rewrite Hcopy in Hrun. clear Hcopy.
    set (r := fresh (dom (frames w))) in *.
    unfold on_frame in Hrun. cbn [frames label_encoders] in Hrun.
    rewrite lookup_insert_eq in Hrun.
    destruct (for_each encode_categorical categorical_cols (label_encoders w, f))
      as [[[]|e] [E1 g]] eqn:Hloop.
    + unfold frame_only in Hrun. cbn [fst snd] in Hrun.
      destruct (derived_features g) as [[[]|e] f'] eqn:Hderived;
        injection Hrun as <- <-; rewrite insert_insert_eq;
        eexists _, E1, g; (split; [done|]); by eexists _, f'.
    + injection Hrun as <- <-. rewrite insert_insert_eq. by eexists _, E1, g.
  - rewrite Hcopy in Hrun. by injection Hrun as <- <-.
Qed.

(** A turn of the loop keeps every encoder it finds. *)
Lemma encode_categorical_keeps (col : string) (s s' : locals) (res : result unit)
    (k : string) (enc : LabelEncoder.t) :
  encode_categorical col s = (res, s') ->
  s.1 !! k = Some enc -> s'.1 !! k = Some enc.
Proof.
  intros Hrun Hk. destruct (decide (k = col)) as [->|Hne].
  - destruct s as [E f]. cbn [fst] in Hk.
    unfold encode_categorical, mbind, SE_bind, mret, SE_ret, frame_only,
      in_columns, in_encoders, get_encoder, set_encoder, get_column, set_column,
      lift in Hrun.
    cbv beta iota delta [fst snd negb from_option] in Hrun.
    destruct (has_column f col);
      cbv beta iota delta [fst snd negb from_option] in Hrun; [|by simplify_eq].
    rewrite bool_decide_eq_true_2 in Hrun by by eexists.
    cbv beta iota delta [fst snd negb from_option] in Hrun. rewrite Hk in Hrun.
    repeat (case_match; simplify_eq;
            cbv beta iota delta [fst snd negb from_option] in * ); done.
  - by rewrite (encode_categorical_other_keys _ _ _ _ _ Hrun Hne).
Qed.

Lemma for_each_keeps (cols : list string) (s s' : locals) (res : result unit)
    (k : string) (enc : LabelEncoder.t) :
  for_each encode_categorical cols s = (res, s') ->
  s.1 !! k = Some enc -> s'.1 !! k = Some enc.
Proof.
  revert s. induction cols as [|c cols IH]; intros s Hrun Hk.
  - by injection Hrun as <- <-.
  - cbn [for_each] in Hrun. unfold mbind, SE_bind in Hrun.
    destruct (encode_categorical c s) as [[[]|e] s1] eqn:Hstep.
    + apply (IH _ Hrun). by eapply encode_categorical_keeps.
    + injection Hrun as <- <-. by eapply encode_categorical_keeps.
Qed.

(** X8: [create_features] never refits: an encoder that [self] holds
    before the call is the one it holds afterwards, whether the call
    returns or raises, and an encoder under any other name than the five
    categorical columns is neither added nor removed. *)
Theorem create_features_keeps_encoders (df : ref) (w w' : world)
    (res : result ref) :
  create_features df w = (res, w') ->
  (forall k enc, label_encoders w !! k = Some enc ->
                 label_encoders w' !! k = Some enc) /\
  (forall k, k ∉ categorical_cols ->
             label_encoders w' !! k = label_encoders w !! k).
Proof.
  intros Hrun%create_features_run.
  destruct (frames w !! df) as [f|]; [|by destruct Hrun as [_ ->]].
  destruct Hrun as (res1 & E1 & g & Hloop & Hrest).
  assert (label_encoders w' = E1) as ->.
  { destruct res1 as [[]|e]; [|by destruct Hrest as [_ ->]].
    by destruct Hrest as (res2 & f' & _ & -> & _). }
  split.
  - intros k enc Hk. by apply (for_each_keeps _ _ _ _ _ _ Hloop).
  - intros k Hk. by apply (for_each_other_keys _ _ _ _ _ Hloop).
Qed.

Lemma encoded_cols_not_derived (names : list string) :
  names = encoded_cols ++ derived_cols ->
  forall col, col ∈ categorical_cols -> encoded_name col ∈ names.
Proof.
  intros -> col Hcol. apply elem_of_app. left.
  by apply list_elem_of_fmap_2.
Qed.

(** The table a returned call holds under its new reference: the columns
    of the input, but for the encoded and derived names. *)
Lemma create_features_frame (df r : ref) (w w' : world) (f : DataFrame) :
  create_features df w = (Ok r, w') ->
  frames w !! df = Some f ->
  exists f',
    frames w' = <[r := f']> (frames w) /\
    frames w !! r = None /\
    forall name, name ∉ encoded_cols ++ derived_cols ->
      frame_get f' name = frame_get f name.
Proof.
  intros Hrun%create_features_run Hdf. rewrite Hdf in Hrun.
  destruct Hrun as ([[]|e] & E1 & g & Hloop & Hrest); [|by destruct Hrest].
  destruct Hrest as (res2 & f' & Hderived & -> & Hres).
  destruct res2 as [[]|e]; [|done]. injection Hres as ->.
  exists f'. cbn [frames]. split; [done|].
  split; [apply not_elem_of_dom, is_fresh|].
  intros name Hname.
  assert (Hsub : derived_cols ⊆ encoded_cols ++ derived_cols).
  { intros x Hx. apply elem_of_app. by right. }
  pose proof (derived_features_assigns _ Hsub _ _ _ Hderived name Hname) as Hd.
  cbn [id] in Hd. rewrite Hd.
  apply (assigns_only_for_each snd (encoded_cols ++ derived_cols)
           encode_categorical categorical_cols) with (s := (label_encoders w, f))
           (s' := (E1, g)) (res := Ok tt); [|done..].
  intros col Hcol. apply encode_categorical_assigns.
  by apply (encoded_cols_not_derived _ eq_refl).
Qed.

(** X9: [create_features] only adds columns: in the table it returns,
    every column whose name is not one of the encoded or derived names is
    the column of that name in the table it was given (and is absent if
    it was absent there); in particular the identifiers, the stage, the
    status and a target column pass through untouched. *)
Theorem create_features_keeps_columns (df r : ref) (w w' : world) (f : DataFrame) :
  create_features df w = (Ok r, w') ->
  frames w !! df = Some f ->
  exists f',
    frames w' !! r = Some f' /\
    (forall name, name ∉ encoded_cols ++ derived_cols ->
       frame_get f' name = frame_get f name) /\
    Forall (fun name => frame_get f' name = frame_get f name)
      ["Applicant_ID"; "Application_Date"; "Stage_Date"; "Stage"; "Status";
       "will_drop_off"]%string.
Proof.
  intros Hrun Hdf.
  destruct (create_features_frame _ _ _ _ _ Hrun Hdf) as (f' & Hframes & _ & Hkeep).
  exists f'. split; [by rewrite Hframes, lookup_insert_eq|]. split; [done|].
  repeat (apply Forall_cons; split; [apply Hkeep; by_compute|]). done.
Qed.

End FeatureRun.

Lemma create_features_keeps_encoders_witness :
  let fitted := (@FeatureEngineering.create_features uninspected_numpy 0%nat
                   funnel_world).2 in
  FeatureEngineering.label_encoders fitted !! "Source"%string
    = Some {| LabelEncoder.classes_ := Some ["LinkedIn"; "Referral"; "nan"]%string |} /\
  FeatureEngineering.label_encoders
    (@FeatureEngineering.create_features uninspected_numpy 0%nat fitted).2
    !! "Source"%string
    = Some {| LabelEncoder.classes_ := Some ["LinkedIn"; "Referral"; "nan"]%string |}.
Proof.
  intros fitted.
  assert (Hfitted : FeatureEngineering.label_encoders fitted !! "Source"%string
    = Some {| LabelEncoder.classes_ := Some ["LinkedIn"; "Referral"; "nan"]%string |}).
  { by_compute. }
  split; [exact Hfitted|].
  exact (proj1 (@create_features_keeps_encoders uninspected_numpy 0%nat fitted
                  _ _ (surjective_pairing _)) _ _ Hfitted).
Defined.

Lemma create_features_keeps_columns_witness :
  exists f',
    FeatureEngineering.frames
      (@FeatureEngineering.create_features uninspected_numpy 0%nat funnel_world).2
      !! 1%nat = Some f' /\
    Pandas.frame_get f' "Status"
    = Some (Pandas.ObjCol [Some "Hired"; Some "Rejected"; Some "Passed";
                           Some "Hired"]%string).
Proof.
  destruct (@create_features_keeps_columns uninspected_numpy 0%nat 1%nat
              funnel_world
              (@FeatureEngineering.create_features uninspected_numpy 0%nat
                 funnel_world).2 funnel_records) as (f' & Hf' & Hkeep & _).
  - etransitivity; [apply surjective_pairing|]. f_equal; by_compute.
  - reflexivity.
  - exists f'. split; [done|]. rewrite Hkeep; [reflexivity|]. by_compute.
Defined.

(** ** Feature encoder: the codes and the classes *)

Section Encoding.
Context `{NumpyMath}.
Import Pandas FeatureEngineering.

Lemma frame_get_has_column (f : DataFrame) (name : string) (c : column) :
  frame_get f name = Some c -> has_column f name = true.
Proof.
  intros Hget%frame_get_elem. apply bool_decide_eq_true_2. unfold df_columns.
  by apply (list_elem_of_fmap_2 fst) in Hget.
Qed.

Lemma index_of_lookup (classes : list string) (y : string) (k : nat) :
  LabelEncoder.index_of classes y = Some k -> classes !! k = Some y.
Proof.
  unfold LabelEncoder.index_of. intros ([k' y'] & Hfind & ->)%fmap_Some.
  by apply list_find_Some in Hfind as (Hk & -> & _).
Qed.

(** Each code is the position of its label among the classes. *)
Lemma map_to_integer_decodes (classes ys : list string) (codes : column) :
  LabelEncoder.map_to_integer classes ys = Some codes ->
  exists ks : list nat,
    codes = match ks with [] => FloatCol [] | _ => IntCol (Z.of_nat <$> ks) end /\
    Forall2 (fun y k => classes !! k = Some y) ys ks.
Proof.
  unfold LabelEncoder.map_to_integer.
  destruct (mapM _ ys) as [ks|] eqn:Hks; [|done]. intros [= <-].
  exists ks. split; [done|]. apply mapM_Some in Hks.
  eapply Forall2_impl; [exact Hks|]. intros y k. apply index_of_lookup.
Qed.

(** A turn that completes on a frame that has the column: the encoder it
    leaves, the codes it assigns. *)
Lemma encode_categorical_Ok (col : string) (E E' : gmap string LabelEncoder.t)
    (f f' : DataFrame) (c : column) :
  encode_categorical col (E, f) = (Ok tt, (E', f')) ->
  frame_get f col = Some c ->
  exists enc codes,
    E' !! col = Some enc /\
    LabelEncoder.transform enc (astype_str c) = Ok codes /\
    f' = setitem f (encoded_name col) codes /\
    match E !! col with
    | Some enc0 => enc = enc0
    | None => LabelEncoder.classes_ enc = Some (LabelEncoder.unique (astype_str c))
    end.
Proof.
  intros Hrun Hc.
  unfold encode_categorical, mbind, SE_bind, mret, SE_ret, frame_only,
    in_columns, in_encoders, get_encoder, set_encoder, get_column, set_column,
    lift, getitem in Hrun.
  cbv beta iota delta [fst snd negb from_option] in Hrun.
  rewrite (frame_get_has_column _ _ _ Hc) in Hrun.
  cbv beta iota delta [fst snd negb from_option] in Hrun.
  destruct (E !! col) as [enc0|] eqn:HE.
  - rewrite bool_decide_eq_true_2 in Hrun by done.
    cbv beta iota delta [fst snd negb from_option] in Hrun.
    rewrite HE, Hc in Hrun.
    cbv beta iota delta [fst snd negb from_option] in Hrun.
    destruct (LabelEncoder.transform enc0 _) as [codes|] eqn:Htr;
      cbv beta iota delta [fst snd negb from_option] in Hrun; [|discriminate Hrun].
    simplify_eq. by exists enc0, codes.
  - rewrite bool_decide_eq_false_2 in Hrun by (by intros [? ?]).
    cbv beta iota delta [fst snd negb from_option] in Hrun.
    rewrite lookup_insert_eq, Hc in Hrun.
    cbv beta iota delta [fst snd negb from_option] in Hrun.
    destruct (LabelEncoder.fit_transform _) as [[enc codes]|] eqn:Hfit;
      cbv beta iota delta [fst snd negb from_option] in Hrun; [|discriminate Hrun].
    simplify_eq. exists enc, codes. rewrite lookup_insert_eq.
    split; [done|]. split; [by apply transform_fit_transform|]. split; [done|].
    unfold LabelEncoder.fit_transform in Hfit. case_match; by simplify_eq.
Qed.

Lemma for_each_encodes (cols : list string) :
  NoDup cols -> NoDup (encoded_name <$> cols) ->
  (forall a, a ∈ cols -> a ∉ encoded_name <$> cols) ->
  forall (E E' : gmap string LabelEncoder.t) (f f' : DataFrame),
    for_each encode_categorical cols (E, f) = (Ok tt, (E', f')) ->
    forall col c, col ∈ cols -> frame_get f col = Some c ->
    exists enc codes,
      E' !! col = Some enc /\
      LabelEncoder.transform enc (astype_str c) = Ok codes /\
      frame_get f' (encoded_name col) = Some codes /\
      match E !! col with
      | Some enc0 => enc = enc0
      | None => LabelEncoder.classes_ enc = Some (LabelEncoder.unique (astype_str c))
      end.
Proof.
  induction cols as [|c0 cols IH]; intros Hnodup Hnodup' Hdisj E E' f f' Hrun col c Hcol Hc.
  { by apply elem_of_nil in Hcol. }
  apply NoDup_cons in Hnodup as [Hc0 Hnodup]. rewrite fmap_cons in Hnodup'.
  apply NoDup_cons in Hnodup' as [Hc0' Hnodup'].
  cbn [for_each] in Hrun. unfold mbind, SE_bind in Hrun.
  destruct (encode_categorical c0 (E, f)) as [[[]|e] [E1 f1]] eqn:Hstep;
    [|discriminate Hrun].
  apply elem_of_cons in Hcol as [->|Hcol].
  - destruct (encode_categorical_Ok _ _ _ _ _ _ Hstep Hc)
      as (enc & codes & HE1 & Htr & -> & Hfit).
    exists enc, codes.
    pose proof (for_each_other_keys _ _ _ _ c0 Hrun Hc0) as Hkeys.
    cbn [fst] in Hkeys. rewrite Hkeys. split; [done|]. split; [done|].
    split; [|done].
    pose proof (assigns_only_for_each snd (encoded_name <$> cols)
                  encode_categorical cols) as Hassigns.
    pose proof (Hassigns (fun x Hx => encode_categorical_assigns _ x
                            (list_elem_of_fmap_2 encoded_name _ _ Hx))
                  _ _ _ Hrun _ Hc0') as Hlater.
    cbn [snd] in Hlater. rewrite Hlater. apply frame_get_setitem_eq.
  - assert (Hne : col <> c0) by (by intros ->).
    assert (Hcol' : col <> encoded_name c0).
    { intros Heq. apply (Hdisj col); [by right|]. rewrite Heq, fmap_cons. by left. }
    assert (Hf1 : frame_get f1 col = Some c).
    { rewrite <- Hc.
      assert (Hin : encoded_name c0 ∈ [encoded_name c0]) by by left.
      apply (encode_categorical_assigns [encoded_name c0] c0 Hin
               _ _ _ Hstep col). by intros ?%list_elem_of_singleton. }
    destruct (IH Hnodup Hnodup') with (E := E1) (E' := E') (f := f1) (f' := f')
      (col := col) (c := c) as (enc & codes & HE' & Htr & Hget & Hfit); try done.
    { intros a Ha Hin. apply (Hdisj a); [by right|]. rewrite fmap_cons. by right. }
    exists enc, codes. split; [done|]. split; [done|]. split; [done|].
    pose proof (encode_categorical_other_keys _ _ _ _ col Hstep Hne) as Hkeys.
    cbn [fst] in Hkeys. by rewrite <- Hkeys.
Qed.

(** X10: after [create_features] has returned, every categorical column
    of the table has a fitted encoder and an encoded column: each code is
    the position of its label among the classes of the encoder (so the
    labels can be read back, and a label outside the classes of a stored
    encoder does not let the call return), and an encoder fitted by this
    call has the sorted distinct labels of the column as classes. *)
Theorem create_features_encodes (df r : ref) (w w' : world) (f : DataFrame)
    (col : string) (c : column) :
  create_features df w = (Ok r, w') ->
  frames w !! df = Some f ->
  col ∈ categorical_cols ->
  frame_get f col = Some c ->
  exists (classes : list string) (ks : list nat) (f' : DataFrame),
    label_encoders w' !! col = Some {| LabelEncoder.classes_ := Some classes |} /\
    (label_encoders w !! col = None ->
     classes = LabelEncoder.unique (astype_str c)) /\
    (forall enc0, label_encoders w !! col = Some enc0 ->
                  LabelEncoder.classes_ enc0 = Some classes) /\
    frames w' !! r = Some f' /\
    frame_get f' (encoded_name col)
      = Some (match ks with [] => FloatCol [] | _ => IntCol (Z.of_nat <$> ks) end) /\
    Forall2 (fun label k => classes !! k = Some label) (astype_str c) ks.
Proof.
  intros Hrun%create_features_run Hdf Hcol Hc. rewrite Hdf in Hrun.
  destruct Hrun as ([[]|e] & E1 & g & Hloop & Hrest); [|by destruct Hrest].
  destruct Hrest as (res2 & f' & Hderived & -> & Hres).
  destruct res2 as [[]|e]; [|done]. injection Hres as ->.
  destruct (for_each_encodes categorical_cols) with (E := label_encoders w)
    (E' := E1) (f := f) (f' := g) (col := col) (c := c)
    as (enc & codes & HE1 & Htr & Hget & Hfit); try done; try by_compute.
  { apply Forall_forall. by_compute. }
  unfold LabelEncoder.transform in Htr.
  destruct enc as [[classes|]]; cbn [LabelEncoder.classes_] in Htr; [|done].
  destruct (LabelEncoder.map_to_integer classes _) as [codes'|] eqn:Hmap; [|done].
  injection Htr as ->.
  destruct (map_to_integer_decodes _ _ _ Hmap) as (ks & -> & Hks).
  exists classes, ks, f'. cbn [frames label_encoders].
  split; [done|]. split; [|split; [|split; [|split]]].
  - intros HE. rewrite HE in Hfit. cbn in Hfit. congruence.
  - intros enc0 HE. rewrite HE in Hfit. by subst.
  - by rewrite lookup_insert_eq.
  - rewrite <- Hget.
    assert (Hsub : derived_cols ⊆ derived_cols) by by intros x.
    pose proof (derived_features_assigns derived_cols Hsub _ _ _ Hderived
                  (encoded_name col)) as Hd.
    cbn [id] in Hd. apply Hd.
    clear -Hcol. revert col Hcol. apply Forall_forall. by_compute.
  - done.
Qed.

End Encoding.

Lemma create_features_encodes_witness :
  exists (classes : list string) (ks : list nat) (f' : Pandas.DataFrame),
    FeatureEngineering.frames
      (@FeatureEngineering.create_features uninspected_numpy 0%nat funnel_world).2
      !! 1%nat = Some f' /\
    classes = ["LinkedIn"; "Referral"; "nan"]%string /\
    Pandas.frame_get f' "Source_encoded"
      = Some (match ks with
              | [] => Pandas.FloatCol []
              | _ => Pandas.IntCol (Z.of_nat <$> ks)
              end) /\
    Forall2 (fun label k => classes !! k = Some label)
      ["LinkedIn"; "Referral"; "LinkedIn"; "nan"]%string ks.
Proof.
  destruct (@create_features_encodes uninspected_numpy 0%nat 1%nat funnel_world
              (@FeatureEngineering.create_features uninspected_numpy 0%nat
                 funnel_world).2 funnel_records "Source"
              (Pandas.ObjCol [Some "LinkedIn"; Some "Referral"; Some "LinkedIn";
                              None]%string))
    as (classes & ks & f' & _ & Hfit & _ & Hf' & Hcodes & Hdecode).
  - etransitivity; [apply surjective_pairing|]. f_equal; by_compute.
  - reflexivity.
  - by_compute.
  - reflexivity.
  - exists classes, ks, f'. split; [done|]. split; [|by split].
    rewrite Hfit by reflexivity. by_compute.
Defined.

(** ** Modelling tables: feature selection and imputation *)

Section Modelling.
Import Pandas FeatureEngineering.

Lemma frame_get_NoDup (f : DataFrame) (name : string) (c : column) :
  NoDup (df_columns f) -> (name, c) ∈ f -> frame_get f name = Some c.
Proof.
  unfold df_columns. induction f as [|[n c0] f IH]; intros Hnodup Hin.
  { by apply elem_of_nil in Hin. }
  rewrite fmap_cons in Hnodup. apply NoDup_cons in Hnodup as [Hn Hnodup].
  cbn [frame_get]. apply elem_of_cons in Hin as [[= -> ->]|Hin].
  - by rewrite decide_True.
  - rewrite decide_False; [by apply IH|].
    intros ->. apply Hn. by apply (list_elem_of_fmap_2 fst) in Hin.
Qed.

Lemma frame_get_absent (f : DataFrame) (name : string) :
  (if has_column f name then frame_get f name else None) = frame_get f name.
Proof.
  destruct (has_column f name) eqn:Hhas; [done|].
  destruct (frame_get f name) as [c|] eqn:Hget; [|done].
  apply frame_get_has_column in Hget. congruence.
Qed.

Lemma numeric_dtype (c : column) :
  col_dtype c ∈ [int64; float64] <-> col_dtype c <> object.
Proof.
  destruct c; cbn [col_dtype]; split; try done.
  - intros _. by left.
  - intros _. right. by left.
  - intros Hin. by repeat (apply elem_of_cons in Hin as [?|Hin]; [done|]);
      apply elem_of_nil in Hin.
Qed.

(** The columns selected when no list is given: the numeric columns whose
    name is not excluded. *)
Lemma elem_of_auto_feature_cols (f : DataFrame) (target_col name : string) :
  name ∈ auto_feature_cols f target_col <->
  (name ∉ exclude_cols target_col) /\
  exists c, (name, c) ∈ f /\ col_dtype c <> object.
Proof.
  unfold auto_feature_cols. rewrite list_elem_of_fmap. split.
  - intros ([n c] & -> & Hin). apply list_elem_of_filter in Hin as [[Hex Hnum] Hin].
    cbn [fst snd] in *. split; [done|]. exists c. split; [done|].
    by apply numeric_dtype.
  - intros (Hex & c & Hin & Hnum). exists (name, c). split; [done|].
    apply list_elem_of_filter. split; [|done]. split; [done|].
    by apply numeric_dtype.
Qed.

Lemma select_columns_returns (f : DataFrame) (names : list string) :
  Forall (fun n => is_Some (frame_get f n)) names ->
  returns (select_columns f names).
Proof.
  induction 1 as [|n names [c Hn] _ [X IH]]; cbn [select_columns]; [by eexists|].
  unfold getitem. rewrite Hn, IH. cbn [rbind]. by eexists.
Qed.

Lemma select_columns_missing (f : DataFrame) (names : list string) (name : string) :
  name ∈ names -> frame_get f name = None ->
  select_columns f names = Raise KeyError.
Proof.
  intros Hin Hmissing. induction names as [|n names IH]; [by apply elem_of_nil in Hin|].
  cbn [select_columns]. unfold getitem.
  destruct (frame_get f n) as [c|] eqn:Hn; [|done]. cbn [rbind].
  apply elem_of_cons in Hin as [->|Hin]; [congruence|]. by rewrite IH.
Qed.

Lemma fillna_median_dtype (c c' : column) :
  fillna_median c = Ok c' -> col_dtype c' = col_dtype c /\ col_dtype c <> object.
Proof. destruct c; cbn [fillna_median]; [by intros [= <-].. | done]. Qed.

Lemma fillna_medians_returns (X : DataFrame) :
  Forall (fun nc => col_dtype nc.2 <> object) X -> returns (fillna_medians X).
Proof.
  induction 1 as [|[n c] X Hc _ [X' IH]]; cbn [fillna_medians]; [by eexists|].
  cbn [snd] in Hc. rewrite IH.
  destruct c; cbn [fillna_median rbind]; [by eexists.. | done].
Qed.

(** What a returned call holds. *)
Lemma prepare_for_modeling_run (df : ref) (target_col : string)
    (feature_cols : option (list string)) (w w' : world)
    (res : result (DataFrame * option column * list string)) :
  prepare_for_modeling df target_col feature_cols w = (res, w') ->
  w' = w /\
  match frames w !! df with
  | None => res = Raise NameError
  | Some f =>
      let cols := default (auto_feature_cols f target_col) feature_cols in
      res = rbind (select_columns f cols) (fun X0 =>
            rbind (fillna_medians X0) (fun X =>
            Ok (X, frame_get f target_col, cols)))
  end.
Proof.
  unfold prepare_for_modeling, mbind, SE_bind, mret, SE_ret, df_read, lift.
  destruct (frames w !! df) as [f|]; [|by intros [= <- <-]].
  rewrite frame_get_absent.
  destruct (select_columns f _) as [X0|]; cbn [rbind]; [|by intros [= <- <-]].
  destruct (fillna_medians X0) as [X1|]; cbn [rbind]; by intros [= <- <-].
Qed.

(** X11: without a feature list, [prepare_for_modeling] returns for every
    table whose column names are distinct: the features are the numeric
    columns whose name is not excluded, in the order of the table, the
    target is never among them, the target column is returned as it is,
    and no state is changed. *)
Theorem prepare_for_modeling_auto (df : ref) (target_col : string) (w : world)
    (f : DataFrame) :
  frames w !! df = Some f ->
  NoDup (df_columns f) ->
  let cols := auto_feature_cols f target_col in
  exists X,
    prepare_for_modeling df target_col None w
      = (Ok (X, frame_get f target_col, cols), w) /\
    df_columns X = cols /\
    (target_col ∉ cols) /\
    (forall name, name ∈ cols <->
       (name ∉ exclude_cols target_col) /\
       exists c, frame_get f name = Some c /\ col_dtype c <> object) /\
    (forall name c, (name, c) ∈ X -> col_dtype c <> object).
Proof.
  intros Hdf Hnodup cols.
  assert (Hcols : forall name, name ∈ cols <->
    (name ∉ exclude_cols target_col) /\
    exists c, frame_get f name = Some c /\ col_dtype c <> object).
  { intros name. subst cols. rewrite elem_of_auto_feature_cols.
    split; intros (Hex & c & Hc & Hnum); (split; [done|]); exists c;
      (split; [|done]); [by apply frame_get_NoDup | by apply frame_get_elem]. }
  destruct (select_columns_returns f cols) as [X0 Hselect].
  { apply Forall_forall. intros name (_ & c & Hc & _)%Hcols. by eexists. }
  destruct (select_columns_get _ _ _ Hselect) as [Hnames0 Hget0].
  destruct (fillna_medians_returns X0) as [X Hfill].
  { apply Forall_forall. intros [n c] Hin. cbn [snd].
    pose proof (Hget0 _ _ Hin) as Hget.
    assert (Hn : n ∈ cols).
    { rewrite <- Hnames0. by apply (list_elem_of_fmap_2 fst) in Hin. }
    apply Hcols in Hn as (_ & c' & Hc' & Hnum). congruence. }
  destruct (fillna_medians_columns _ _ Hfill) as [Hnames Hfilled].
  exists X. split; [|split; [|split; [|split]]].
  - pose proof (prepare_for_modeling_run df target_col None w) as Hrun.
    destruct (prepare_for_modeling df target_col None w) as [res w'].
    destruct (Hrun _ _ eq_refl) as [-> Hres]. rewrite Hdf in Hres.
    cbn [default] in Hres. fold cols in Hres.
    rewrite Hselect in Hres. cbn [rbind] in Hres. rewrite Hfill in Hres.
    by rewrite Hres.
  - unfold df_columns. congruence.
  - intros (Hex & _)%Hcols. apply Hex. by left.
  - done.
  - intros name c Hin. destruct (Hfilled _ _ Hin) as (c0 & _ & Hc0).
    apply fillna_median_dtype in Hc0 as [-> ?]. done.
Qed.

(** X12: a feature list that names a column the table does not have makes
    [prepare_for_modeling] raise [KeyError], and nothing is changed. *)
Theorem prepare_for_modeling_missing_feature (df : ref) (target_col : string)
    (names : list string) (w : world) (f : DataFrame) (name : string) :
  frames w !! df = Some f ->
  name ∈ names ->
  frame_get f name = None ->
  prepare_for_modeling df target_col (Some names) w = (Raise KeyError, w).
Proof.
  intros Hdf Hin Hmissing.
  pose proof (prepare_for_modeling_run df target_col (Some names) w) as Hrun.
  destruct (prepare_for_modeling df target_col (Some names) w) as [res w'].
  destruct (Hrun _ _ eq_refl) as [-> Hres]. rewrite Hdf in Hres.
  cbv zeta in Hres. cbn [default from_option id] in Hres.
  rewrite (select_columns_missing _ _ _ Hin Hmissing) in Hres. by subst.
Qed.

End Modelling.

Lemma prepare_for_modeling_auto_witness :
  exists X,
    FeatureEngineering.prepare_for_modeling 0%nat "will_drop_off" None funnel_world
      = (Ok (X, None, ["Age"; "Education"; "Stage_Sequence"]%string), funnel_world) /\
    ("will_drop_off"%string ∉ Pandas.df_columns X).
Proof.
  destruct (prepare_for_modeling_auto 0%nat "will_drop_off" funnel_world
              funnel_records) as (X & Hrun & Hnames & Htarget & _);
    [reflexivity | by_compute |].
  exists X. split; [exact Hrun | by rewrite Hnames].
Defined.

Lemma prepare_for_modeling_missing_feature_witness :
  FeatureEngineering.prepare_for_modeling 0%nat "will_drop_off"
    (Some ["Age"; "Salary"]%string) funnel_world
  = (Raise KeyError, funnel_world).
Proof.
  apply (prepare_for_modeling_missing_feature 0%nat "will_drop_off"
           ["Age"; "Salary"]%string funnel_world funnel_records "Salary"%string);
    [reflexivity | by_compute | reflexivity].
Defined.

(** ** Imputation: what the median fill leaves *)

Section MedianFill.
Import Pandas FeatureEngineering.

Lemma dropna_fin (xs : list pyfloat) :
  Forall (fun x => x <> Inf true /\ x <> Inf false) xs ->
  Forall (fun x => exists q, x = Fin q) (dropna xs).
Proof.
  intros Hxs. unfold dropna. apply Forall_forall.
  intros x [Hnan Hin]%list_elem_of_filter.
  apply (proj1 (Forall_forall _ _) Hxs) in Hin as [Hneg Hpos].
  destruct x as [q|[]|]; try done. by eexists.
Qed.

(** The median of a column with a number and no infinity is a number. *)
Lemma median_fin (xs : list pyfloat) :
  Forall (fun x => x <> Inf true /\ x <> Inf false) xs ->
  (exists q, Fin q ∈ xs) ->
  exists m, median xs = Fin m.
Proof.
  intros Hinf [q Hq]. unfold median.
  set (vs := merge_sort fle_prop (dropna xs)).
  assert (Hvs : Forall (fun x => exists q, x = Fin q) vs).
  { subst vs. rewrite merge_sort_Permutation. by apply dropna_fin. }
  assert (Hlen : (0 < length vs)%nat).
  { assert (Hin : Fin q ∈ vs).
    { subst vs. rewrite merge_sort_Permutation. by apply list_elem_of_filter. }
    destruct vs; [by apply elem_of_nil in Hin | cbn; lia]. }
  assert (Hget : forall i, (i < length vs)%nat -> exists a, vs !! i = Some (Fin a)).
  { intros i Hi. destruct (lookup_lt_is_Some_2 vs i Hi) as [x Hx].
    destruct (proj1 (Forall_lookup _ _) Hvs i x Hx) as [a ->]. by eexists. }
  cbv zeta. rewrite bool_decide_eq_false_2 by lia.
  destruct (Hget (length vs / 2)%nat) as [a Ha]; [apply Nat.div_lt; lia|].
  rewrite Ha. cbn [default from_option id].
  destruct (Nat.odd _); [by eexists|].
  destruct (Hget (length vs / 2 - 1)%nat) as [b Hb].
  { pose proof (Nat.div_lt (length vs) 2). lia. }
  rewrite Hb. cbn [default from_option id fadd]. unfold np_div, of_Z.
  rewrite bool_decide_eq_false_2; [by eexists|]. by apply Qc_of_Z_nonzero.
Qed.

Lemma median_all_missing (xs : list pyfloat) :
  Forall (fun x => x = NaN) xs -> median xs = NaN.
Proof.
  intros Hxs. unfold median.
  assert (Hdrop : dropna xs = []).
  { unfold dropna. induction Hxs as [|x xs -> _ IH]; [done|].
    by rewrite filter_cons_False. }
  cbv zeta. rewrite bool_decide_eq_true_2; [done|].
  by rewrite merge_sort_Permutation, Hdrop.
Qed.

(** X13: the median fill of a float column, [X.fillna(X.median())]: the
    column keeps its length, every value that is not missing stays, every
    missing value becomes the median of the column; when the column holds
    a number and no infinity no missing value is left, and a column whose
    values are all missing stays as it is. *)
Theorem fillna_median_fills (xs : list pyfloat) :
  exists ys,
    fillna_median (FloatCol xs) = Ok (FloatCol ys) /\
    length ys = length xs /\
    (forall i x, xs !! i = Some x -> is_nan x = false -> ys !! i = Some x) /\
    (forall i, xs !! i = Some NaN -> ys !! i = Some (median xs)) /\
    (Forall (fun x => x <> Inf true /\ x <> Inf false) xs ->
     (exists q, Fin q ∈ xs) ->
     Forall (fun y => is_nan y = false) ys) /\
    (Forall (fun x => x = NaN) xs -> ys = xs).
Proof.
  exists (fillna xs (median xs)). unfold fillna.
  split; [done|]. split; [by rewrite length_fmap|].
  split; [|split; [|split]].
  - intros i x Hx Hnan. by rewrite list_lookup_fmap, Hx; cbn; rewrite Hnan.
  - intros i Hx. by rewrite list_lookup_fmap, Hx.
  - intros Hinf Hnum. destruct (median_fin xs Hinf Hnum) as [m ->].
    apply Forall_fmap, Forall_forall. intros x _. cbn. by destruct x.
  - intros Hxs. rewrite (median_all_missing xs Hxs).
    induction Hxs as [|x xs -> _ IH]; [done|]. cbn. by rewrite IH.
Qed.

(** X14: a table without a [Status] column cannot be labelled:
    [create_target_variable] raises [KeyError]; the encoders and the
    table it was given are as before. *)
Theorem create_target_variable_missing_status (df : ref) (w : world)
    (f : DataFrame) :
  frames w !! df = Some f ->
  frame_get f "Status" = None ->
  exists w',
    create_target_variable df w = (Raise KeyError, w') /\
    label_encoders w' = label_encoders w /\
    frames w' !! df = Some f.
Proof.
  intros Hdf Hstatus.
  unfold create_target_variable, mbind, SE_bind, mret, SE_ret.
  pose proof (df_copy_run df w) as Hcopy. rewrite Hdf in Hcopy.
  destruct Hcopy as [Hfresh ->].
  unfold on_frame, frame_only, get_column, set_column, getitem.
  cbn [frames label_encoders fst snd]. rewrite lookup_insert_eq.
  cbn [fst snd]. rewrite Hstatus. eexists. split; [done|].
  cbn [frames label_encoders]. split; [done|].
  rewrite insert_insert_eq, lookup_insert_ne; [done|]. congruence.
Qed.

End MedianFill.

Lemma fillna_median_fills_witness :
  exists ys,
    FeatureEngineering.fillna_median
      (Pandas.FloatCol [Fin (Q2Qc 10); NaN; Fin (Q2Qc 20)])
    = Ok (Pandas.FloatCol ys) /\
    ys !! 0%nat = Some (Fin (Q2Qc 10)) /\
    Forall (fun y => is_nan y = false) ys.
Proof.
  destruct (fillna_median_fills [Fin (Q2Qc 10); NaN; Fin (Q2Qc 20)])
    as (ys & Hrun & _ & Hkeep & _ & Hfull & _).
  exists ys. split; [done|]. split; [by apply Hkeep|].
  apply Hfull.
  - repeat (apply Forall_cons; split; [done|]). done.
  - exists (Q2Qc 10). by left.
Defined.

Lemma create_target_variable_missing_status_witness :
  exists w',
    FeatureEngineering.create_target_variable 0%nat fitting_and_new_tables
    = (Raise KeyError, w') /\
    FeatureEngineering.frames w' !! 0%nat
    = Some [("Age"%string, Pandas.FloatCol [Fin (Q2Qc 1); Fin (Q2Qc 3); NaN])].
Proof.
  destruct (create_target_variable_missing_status 0%nat fitting_and_new_tables
              [("Age"%string, Pandas.FloatCol [Fin (Q2Qc 1); Fin (Q2Qc 3); NaN])])
    as (w' & Hrun & _ & Hdf); [reflexivity..|].
  by exists w'.
Defined.

(** ** The training pipeline: target, features, modelling tables *)

Section Pipeline.
Context `{NumpyMath}.
Import Pandas FeatureEngineering TrainingPipeline.

(** X15: steps 2 and 3 of the training pipeline, when they return: the
    target handed to the model is the drop-off label of each record of
    the table that was read (1 where the status is [Rejected]), the
    engineered features leave it as it is, no feature carries the target,
    the status or another excluded column, and the table that was read is
    unchanged. *)
Theorem prepare_training_data_target (df : ref) (w w' : world) (X : DataFrame)
    (y : option column) (cols : list string) (f : DataFrame) (status : column) :
  prepare_training_data df w = (Ok (X, y, cols), w') ->
  frames w !! df = Some f ->
  frame_get f "Status" = Some status ->
  y = Some (astype_int (eq_str status "Rejected")) /\
  df_columns X = cols /\
  (forall name, name ∈ cols -> name ∉ exclude_cols "will_drop_off") /\
  frames w' !! df = Some f.
Proof.
  intros Hrun Hdf Hstatus.
  unfold prepare_training_data, mbind, SE_bind, new_feature_engineer in Hrun.
  rewrite (create_target_variable_run df w f status Hdf Hstatus) in Hrun.
  cbn [frames] in Hrun.
  set (r1 := fresh (dom (frames w))) in *.
  set (f1 := setitem f "will_drop_off" (astype_int (eq_str status "Rejected"))) in *.
  assert (Hr1 : r1 <> df).
  { intros Heq. pose proof (is_fresh (dom (frames w))) as Hnew.
    apply Hnew, elem_of_dom. fold r1. rewrite Heq. by eexists. }
  destruct (create_features r1 _) as [[r2|e] w3] eqn:Hfeatures; [|discriminate Hrun].
  destruct (create_features_frame _ _ _ _ f1 Hfeatures)
    as (f3 & Hframes & Hr2 & Hkeep).
  { cbn [frames]. by rewrite lookup_insert_eq. }
  cbn [frames] in Hframes, Hr2.
  assert (Hne : r2 <> df).
  { intros ->. rewrite lookup_insert_ne, Hdf in Hr2 by done. done. }
  destruct (prepare_for_modeling_run _ _ _ _ _ _ Hrun) as [-> Hres].
  rewrite Hframes, lookup_insert_eq in Hres. cbv zeta in Hres.
  cbn [default from_option id] in Hres.
  destruct (select_columns f3 _) as [X0|] eqn:Hselect; [|done].
  cbn [rbind] in Hres.
  destruct (fillna_medians X0) as [X1|] eqn:Hfill; [|done].
  cbn [rbind] in Hres. injection Hres as -> -> ->.
  destruct (select_columns_get _ _ _ Hselect) as [Hnames0 _].
  destruct (fillna_medians_columns _ _ Hfill) as [Hnames _].
  split; [|split; [|split]].
  - rewrite Hkeep by by_compute. subst f1. by rewrite frame_get_setitem_eq.
  - unfold df_columns. congruence.
  - by intros name (Hex & _)%elem_of_auto_feature_cols.
  - by rewrite Hframes, !lookup_insert_ne.
Qed.

End Pipeline.

Lemma prepare_training_data_target_witness :
  exists X cols w',
    @TrainingPipeline.prepare_training_data uninspected_numpy 0%nat funnel_world
    = (Ok (X, Some (Pandas.IntCol [0; 1; 0; 0]), cols), w') /\
    ("will_drop_off"%string ∉ cols) /\
    FeatureEngineering.frames w' !! 0%nat = Some funnel_records.
Proof.
  destruct (@TrainingPipeline.prepare_training_data uninspected_numpy 0%nat
              funnel_world) as [[[[X y] cols]|e] w'] eqn:Hrun;
    [|by vm_compute in Hrun].
  destruct (@prepare_training_data_target uninspected_numpy 0%nat funnel_world w'
              X y cols funnel_records
              (Pandas.ObjCol [Some "Hired"; Some "Rejected"; Some "Passed";
                              Some "Hired"]%string) Hrun)
    as (-> & _ & Hex & Hdf); [reflexivity..|].
  exists X, cols, w'. split; [done|]. split; [|done].
  intros Hin. apply (Hex _ Hin). by left.
Defined.

(** ** Feature engineering: the derived features, section by section *)

Ltac assigns_only_steps :=
  repeat first
    [ apply assigns_only_bind; [|intros ?]
    | apply assigns_only_when
    | apply assigns_only_in_columns
    | apply assigns_only_get_column
    | apply assigns_only_lift
    | apply assigns_only_set_column; by_compute ].

Section Sections.
Context `{NumpyMath}.
Import Pandas FeatureEngineering FeatureSections.

(** [derived_features] runs the six sections in order. *)
Lemma derived_features_sections (f : DataFrame) :
  derived_features f
  = (age_features;; education_features;; stage_features;; time_features;;
     source_features;; interaction_features) f.
Proof.
  unfold derived_features, age_features, education_features, stage_features,
    time_features, source_features, interaction_features.
  unfold mbind, SE_bind, in_columns.
  repeat match goal with
         | |- context [when ?b ?p ?s] =>
             let res := fresh "res" in
             let g := fresh "g" in
             destruct (when b p s) as [[[]|?] g]; try reflexivity
         end.
Qed.

Lemma bind_Ok {S A B} (m : SE S A) (k : A -> SE S B) (s s' : S) (b : B) :
  (m ≫= k) s = (Ok b, s') ->
  exists a s1, m s = (Ok a, s1) /\ k a s1 = (Ok b, s').
Proof.
  unfold mbind, SE_bind. destruct (m s) as [[a|e] s1]; [|done]. by eexists _, _.
Qed.

Lemma age_features_assigns :
  assigns_only id ["Age_squared"; "Age_normalized"]%string age_features.
Proof. unfold age_features. assigns_only_steps. Qed.

Lemma education_features_assigns :
  assigns_only id ["Education_level"]%string education_features.
Proof. unfold education_features. assigns_only_steps. Qed.

Lemma stage_features_assigns :
  assigns_only id ["Stage_progress"; "Is_early_stage"; "Is_late_stage"]%string
    stage_features.
Proof. unfold stage_features. assigns_only_steps. Qed.

Lemma time_features_assigns :
  assigns_only id ["Days_log"; "Is_slow_process"]%string time_features.
Proof. unfold time_features. assigns_only_steps. Qed.

Lemma source_features_assigns :
  assigns_only id ["Source_success_rate"]%string source_features.
Proof. unfold source_features. assigns_only_steps. Qed.

Lemma interaction_features_assigns :
  assigns_only id ["Age_Education_interaction"]%string interaction_features.
Proof. unfold interaction_features. assigns_only_steps. Qed.

End Sections.

Section SectionRuns.
Context `{NumpyMath}.
Import Pandas FeatureEngineering FeatureSections.

(** The frames between the sections of a run that completes. *)
Lemma derived_features_Ok (g f' : DataFrame) :
  derived_features g = (Ok tt, f') ->
  exists f1 f2 f3 f4 f5,
    age_features g = (Ok tt, f1) /\
    education_features f1 = (Ok tt, f2) /\
    stage_features f2 = (Ok tt, f3) /\
    time_features f3 = (Ok tt, f4) /\
    source_features f4 = (Ok tt, f5) /\
    interaction_features f5 = (Ok tt, f').
Proof.
  rewrite derived_features_sections. intros Hrun.
  apply bind_Ok in Hrun as ([] & f1 & H1 & Hrun).
  apply bind_Ok in Hrun as ([] & f2 & H2 & Hrun).
  apply bind_Ok in Hrun as ([] & f3 & H3 & Hrun).
  apply bind_Ok in Hrun as ([] & f4 & H4 & Hrun).
  apply bind_Ok in Hrun as ([] & f5 & H5 & Hrun).
  by exists f1, f2, f3, f4, f5.
Qed.

(** A returned call of [create_features], as the run of the encoding loop
    and of the six sections on the copy. *)
Lemma create_features_sections (df r : ref) (w w' : world) (f : DataFrame) :
  create_features df w = (Ok r, w') ->
  frames w !! df = Some f ->
  exists g f1 f2 f3 f4 f5 f',
    frames w' !! r = Some f' /\
    (forall name, name ∉ encoded_cols -> frame_get g name = frame_get f name) /\
    age_features g = (Ok tt, f1) /\
    education_features f1 = (Ok tt, f2) /\
    stage_features f2 = (Ok tt, f3) /\
    time_features f3 = (Ok tt, f4) /\
    source_features f4 = (Ok tt, f5) /\
    interaction_features f5 = (Ok tt, f').
Proof.
  intros Hrun%create_features_run Hdf. rewrite Hdf in Hrun.
  destruct Hrun as ([[]|e] & E1 & g & Hloop & Hrest); [|by destruct Hrest].
  destruct Hrest as (res2 & f' & Hderived & -> & Hres).
  destruct res2 as [[]|e]; [|done]. injection Hres as ->.
  destruct (derived_features_Ok _ _ Hderived)
    as (f1 & f2 & f3 & f4 & f5 & H1 & H2 & H3 & H4 & H5 & H6).
  exists g, f1, f2, f3, f4, f5, f'. cbn [frames].
  split; [by rewrite lookup_insert_eq|]. split; [|done].
  intros name Hname.
  apply (assigns_only_for_each snd encoded_cols encode_categorical
           categorical_cols) with (s := (label_encoders w, f))
           (s' := (E1, g)) (res := Ok tt); [|done..].
  intros col Hcol. apply encode_categorical_assigns.
  by apply list_elem_of_fmap_2.
Qed.

(** Section 3 on a table that has the stage sequence. *)
Lemma stage_features_Ok (f f' : DataFrame) (stage : column) :
  stage_features f = (Ok tt, f') ->
  frame_get f "Stage_Sequence" = Some stage ->
  exists xs,
    to_floats stage = Ok xs /\
    frame_get f' "Is_early_stage"
      = Some (astype_int ((fun x => fle x (of_Z 3)) <$> xs)) /\
    frame_get f' "Is_late_stage"
      = Some (astype_int ((fun x => fle (of_Z 6) x) <$> xs)).
Proof.
  intros Hrun Hget.
  unfold stage_features, mbind, SE_bind, in_columns, when, get_column,
    set_column, lift, getitem, col_div_scalar, col_le, col_ge in Hrun.
  rewrite (frame_get_has_column _ _ _ Hget), Hget in Hrun.
  destruct (to_floats stage) as [xs|] eqn:Hxs; cbn [rbind] in Hrun; [|done].
  rewrite !frame_get_setitem_ne, Hget in Hrun by done.
  rewrite Hxs in Hrun. cbn [rbind] in Hrun.
  rewrite !frame_get_setitem_ne, Hget in Hrun by done.
  rewrite Hxs in Hrun. cbn [rbind] in Hrun.
  injection Hrun as <-. exists xs. split; [done|].
  by rewrite frame_get_setitem_ne, !frame_get_setitem_eq.
Qed.

Lemma fle_of_Z (a b : Z) : fle (of_Z a) (of_Z b) = bool_decide (a <= b).
Proof.
  unfold of_Z. destruct (fle _ _) eqn:Hle.
  - symmetry. apply bool_decide_eq_true_2.
    apply fle_fin in Hle. by apply Z2Qc_inj_le.
  - symmetry. apply bool_decide_eq_false_2. intros Hab.
    apply (proj1 (Z2Qc_inj_le a b)), fle_fin in Hab. congruence.
Qed.

(** No number is at most 3 and at least 6. *)
Lemma early_late_exclusive (x : pyfloat) :
  fle x (of_Z 3) && fle (of_Z 6) x = false.
Proof.
  destruct (fle x (of_Z 3)) eqn:H3, (fle (of_Z 6) x) eqn:H6; try done.
  exfalso. destruct x as [q|[]|]; try done.
  unfold of_Z in H3, H6. apply fle_fin in H3, H6.
  pose proof (Qcle_trans _ _ _ H6 H3) as H63.
  apply Z2Qc_inj_le in H63. lia.
Qed.

(** X16: the stage flags of section 3: after [create_features] has
    returned on a table with a stage sequence, [Is_early_stage] and
    [Is_late_stage] are columns of zeros and ones, one entry for each
    record, never both 1 on a record; on an integer stage sequence the
    first is 1 exactly on the stages up to 3 and the second exactly on
    the stages from 6. *)
Theorem create_features_stage_flags (df r : ref) (w w' : world) (f : DataFrame)
    (stage : column) :
  create_features df w = (Ok r, w') ->
  frames w !! df = Some f ->
  frame_get f "Stage_Sequence" = Some stage ->
  exists f' early late,
    frames w' !! r = Some f' /\
    frame_get f' "Is_early_stage" = Some (IntCol early) /\
    frame_get f' "Is_late_stage" = Some (IntCol late) /\
    length early = col_len stage /\ length late = col_len stage /\
    (forall i a b, early !! i = Some a -> late !! i = Some b ->
       (a = 0 \/ a = 1) /\ (b = 0 \/ b = 1) /\ a + b <= 1) /\
    (forall zs, stage = IntCol zs ->
       forall i z, zs !! i = Some z ->
         early !! i = Some (if decide (z <= 3) then 1 else 0) /\
         late !! i = Some (if decide (6 <= z) then 1 else 0)).
Proof.
  intros Hrun Hdf Hstage.
  destruct (create_features_sections _ _ _ _ _ Hrun Hdf)
    as (g & f1 & f2 & f3 & f4 & f5 & f' & Hf' & Hg & H1 & H2 & H3 & H4 & H5 & H6).
  assert (Hstage2 : frame_get f2 "Stage_Sequence" = Some stage).
  { pose proof (education_features_assigns _ _ _ H2 "Stage_Sequence"%string) as He.
    pose proof (age_features_assigns _ _ _ H1 "Stage_Sequence"%string) as Ha.
    cbn [id] in He, Ha. rewrite He, Ha, Hg by by_compute. done. }
  destruct (stage_features_Ok _ _ _ H3 Hstage2) as (xs & Hxs & Hearly & Hlate).
  assert (Hlater : forall name,
    name ∈ ["Is_early_stage"; "Is_late_stage"]%string ->
    frame_get f' name = frame_get f3 name).
  { intros name Hname.
    pose proof (time_features_assigns _ _ _ H4 name) as Ht.
    pose proof (source_features_assigns _ _ _ H5 name) as Hs.
    pose proof (interaction_features_assigns _ _ _ H6 name) as Hi.
    cbn [id] in Ht, Hs, Hi.
    repeat (apply elem_of_cons in Hname as [->|Hname];
            [rewrite Hi, Hs, Ht by by_compute; done|]).
    by apply elem_of_nil in Hname. }
  assert (Hlen : length xs = col_len stage).
  { destruct stage; cbn [to_floats] in Hxs; simplify_eq; cbn [col_len];
      by rewrite ?length_fmap. }
  eexists f', _, _. split; [done|].
  split; [rewrite Hlater by by_compute; exact Hearly|].
  split; [rewrite Hlater by by_compute; exact Hlate|].
  split; [by rewrite !length_fmap|]. split; [by rewrite !length_fmap|]. split.
  - intros i a b. rewrite !list_lookup_fmap.
    destruct (xs !! i) as [x|]; cbn; [|done]. intros [= <-] [= <-].
    pose proof (early_late_exclusive x).
    by destruct (fle x (of_Z 3)), (fle (of_Z 6) x); cbn; auto with lia.
  - intros zs -> i z Hz. cbn [to_floats] in Hxs. injection Hxs as <-.
    rewrite !list_lookup_fmap, Hz. cbn. rewrite !fle_of_Z.
    split; f_equal; case_bool_decide; by case_decide.
Qed.

End SectionRuns.

Lemma create_features_stage_flags_witness :
  exists f' early late,
    FeatureEngineering.frames
      (@FeatureEngineering.create_features uninspected_numpy 0%nat funnel_world).2
      !! 1%nat = Some f' /\
    Pandas.frame_get f' "Is_early_stage" = Some (Pandas.IntCol early) /\
    Pandas.frame_get f' "Is_late_stage" = Some (Pandas.IntCol late) /\
    early !! 0%nat = Some 1 /\ late !! 0%nat = Some 0 /\
    early !! 1%nat = Some 0 /\ late !! 1%nat = Some 0 /\
    early !! 3%nat = Some 0 /\ late !! 3%nat = Some 1.
Proof.
  destruct (@create_features_stage_flags uninspected_numpy 0%nat 1%nat funnel_world
              (@FeatureEngineering.create_features uninspected_numpy 0%nat
                 funnel_world).2 funnel_records (Pandas.IntCol [1; 4; 6; 8]))
    as (f' & early & late & Hf' & Hearly & Hlate & _ & _ & _ & Hint).
  - etransitivity; [apply surjective_pairing|]. f_equal; by_compute.
  - reflexivity.
  - reflexivity.
  - exists f', early, late. split; [done|]. split; [done|]. split; [done|].
    destruct (Hint _ eq_refl 0%nat 1 eq_refl) as [-> ->].
    destruct (Hint _ eq_refl 1%nat 4 eq_refl) as [-> ->].
    destruct (Hint _ eq_refl 3%nat 8 eq_refl) as [-> ->].
    done.
Defined.

(** ** Feature engineering: when a call returns *)

Section Outcomes.
Context `{NumpyMath}.
Import Pandas FeatureEngineering FeatureSections.

Lemma has_column_absent (f : DataFrame) (name : string) :
  frame_get f name = None -> has_column f name = false.
Proof.
  intros Hget. destruct (has_column f name) eqn:Hhas; [|done].
  apply has_column_get in Hhas as [c Hc]. congruence.
Qed.

Lemma to_floats_outcome (c : column) :
  if bool_decide (col_dtype c <> object)
  then exists xs, to_floats c = Ok xs /\ length xs = col_len c
  else to_floats c = Raise TypeError.
Proof.
  destruct c as [xs|xs|xs]; cbn [col_dtype to_floats col_len].
  - rewrite bool_decide_eq_true_2 by done. eexists. split; [done|].
    by rewrite length_fmap.
  - rewrite bool_decide_eq_true_2 by done. by eexists.
  - by rewrite bool_decide_eq_false_2 by (by intros []).
Qed.

Lemma col_pow2_outcome (c : column) :
  if bool_decide (col_dtype c <> object)
  then returns (col_pow2 c) else col_pow2 c = Raise TypeError.
Proof.
  destruct c as [xs|xs|xs]; cbn [col_dtype col_pow2].
  - rewrite bool_decide_eq_true_2 by done. by eexists.
  - rewrite bool_decide_eq_true_2 by done. by eexists.
  - by rewrite bool_decide_eq_false_2 by (by intros []).
Qed.

Lemma series_std_returns (c : column) (xs : list pyfloat) :
  to_floats c = Ok xs -> returns (series_std c).
Proof.
  intros Hxs. unfold series_std. rewrite Hxs. cbn [rbind]. cbv zeta.
  case_bool_decide; by eexists.
Qed.

Lemma col_mul_outcome (c1 c2 : column) :
  if bool_decide (col_dtype c1 <> object) && bool_decide (col_dtype c2 <> object)
  then returns (col_mul c1 c2) else col_mul c1 c2 = Raise TypeError.
Proof.
  destruct c1 as [xs|xs|xs], c2 as [ys|ys|ys];
    cbn [col_dtype col_mul to_floats rbind];
    rewrite ?bool_decide_eq_true_2 by done;
    rewrite ?bool_decide_eq_false_2 by (by intros []); cbn [andb];
    first [by eexists | done].
Qed.

(** Section 2 on the age: it completes when the age is absent or numeric,
    and raises [TypeError] otherwise. *)
Lemma age_features_outcome (f : DataFrame) :
  exists f',
    age_features f
    = (if numeric_if_present f "Age" then Ok tt else Raise TypeError, f').
Proof.
  unfold numeric_if_present, age_features, mbind, SE_bind, in_columns, when,
    get_column, set_column, lift, getitem, mret, SE_ret.
  destruct (frame_get f "Age") as [c|] eqn:Hget.
  - rewrite (frame_get_has_column _ _ _ Hget), Hget.
    pose proof (col_pow2_outcome c) as Hpow. pose proof (to_floats_outcome c) as Hxs.
    destruct (bool_decide (col_dtype c <> object)).
    + destruct Hpow as [squared ->]. destruct Hxs as (xs & Hxs & _).
      rewrite frame_get_setitem_ne, Hget by done.
      destruct (series_std_returns c xs Hxs) as [std ->].
      unfold series_mean, col_sub_scalar, col_div_scalar. rewrite Hxs.
      cbn [rbind to_floats]. by eexists.
    + rewrite Hpow. by eexists.
  - rewrite (has_column_absent _ _ Hget). by eexists.
Qed.

Lemma education_features_outcome (f : DataFrame) :
  exists f', education_features f = (Ok tt, f').
Proof.
  unfold education_features, mbind, SE_bind, in_columns, when, get_column,
    set_column, getitem, mret, SE_ret.
  destruct (frame_get f "Education") as [c|] eqn:Hget.
  - rewrite (frame_get_has_column _ _ _ Hget), Hget. by eexists.
  - rewrite (has_column_absent _ _ Hget). by eexists.
Qed.

Lemma stage_features_outcome (f : DataFrame) :
  exists f',
    stage_features f
    = (if numeric_if_present f "Stage_Sequence" then Ok tt else Raise TypeError, f').
Proof.
  unfold numeric_if_present, stage_features, mbind, SE_bind, in_columns, when,
    get_column, set_column, lift, getitem, mret, SE_ret, col_div_scalar, col_le,
    col_ge.
  destruct (frame_get f "Stage_Sequence") as [c|] eqn:Hget.
  - rewrite (frame_get_has_column _ _ _ Hget), Hget.
    pose proof (to_floats_outcome c) as Hxs.
    destruct (bool_decide (col_dtype c <> object)).
    + destruct Hxs as (xs & Hxs & _). rewrite Hxs. cbn [rbind].
      rewrite !frame_get_setitem_ne, Hget by done. rewrite Hxs. cbn [rbind].
      rewrite !frame_get_setitem_ne, Hget by done. rewrite Hxs. cbn [rbind].
      by eexists.
    + rewrite Hxs. by eexists.
  - rewrite (has_column_absent _ _ Hget). by eexists.
Qed.

Lemma time_features_outcome (f : DataFrame) :
  exists f',
    time_features f
    = (if numeric_if_present f "Days_Since_Application"
       then Ok tt else Raise TypeError, f').
Proof.
  unfold numeric_if_present, time_features, mbind, SE_bind, in_columns, when,
    get_column, set_column, lift, getitem, mret, SE_ret, col_log1p, col_gt.
  destruct (frame_get f "Days_Since_Application") as [c|] eqn:Hget.
  - rewrite (frame_get_has_column _ _ _ Hget), Hget.
    pose proof (to_floats_outcome c) as Hxs.
    destruct (bool_decide (col_dtype c <> object)).
    + destruct Hxs as (xs & Hxs & _). rewrite Hxs. cbn [rbind].
      rewrite !frame_get_setitem_ne, Hget by done. rewrite Hxs. cbn [rbind].
      by eexists.
    + rewrite Hxs. by eexists.
  - rewrite (has_column_absent _ _ Hget). by eexists.
Qed.

Lemma source_features_outcome (f : DataFrame) :
  exists f', source_features f = (Ok tt, f').
Proof.
  unfold source_features, mbind, SE_bind, in_columns, when, get_column,
    set_column, getitem, mret, SE_ret.
  destruct (frame_get f "Source") as [c|] eqn:Hsource;
    [rewrite (frame_get_has_column _ _ _ Hsource)
    |rewrite (has_column_absent _ _ Hsource); by eexists].
  destruct (frame_get f "Status") as [s|] eqn:Hstatus;
    [rewrite (frame_get_has_column _ _ _ Hstatus)
    |rewrite (has_column_absent _ _ Hstatus); by eexists].
  cbn [andb]. rewrite Hsource, Hstatus. by eexists.
Qed.

Lemma interaction_features_outcome (f : DataFrame) :
  numeric_if_present f "Age" = true ->
  exists f',
    interaction_features f
    = (if implb (has_column f "Age") (numeric_if_present f "Education")
       then Ok tt else Raise TypeError, f').
Proof.
  unfold numeric_if_present, interaction_features, mbind, SE_bind, in_columns,
    when, get_column, set_column, lift, getitem, mret, SE_ret.
  destruct (frame_get f "Age") as [a|] eqn:Hage;
    [rewrite (frame_get_has_column _ _ _ Hage)
    |rewrite (has_column_absent _ _ Hage); by eexists].
  intros Ha.
  destruct (frame_get f "Education") as [e|] eqn:Hedu;
    [rewrite (frame_get_has_column _ _ _ Hedu)
    |rewrite (has_column_absent _ _ Hedu); by eexists].
  cbn [andb implb]. rewrite Hage, Hedu.
  pose proof (col_mul_outcome a e) as Hmul. rewrite Ha in Hmul. cbn [andb] in Hmul.
  destruct (bool_decide (col_dtype e <> object)).
  - destruct Hmul as [c ->]. by eexists.
  - rewrite Hmul. by eexists.
Qed.

End Outcomes.

Section FreshEngineer.
Context `{NumpyMath}.
Import Pandas FeatureEngineering FeatureSections.

Lemma has_column_ext (f f' : DataFrame) (name : string) :
  frame_get f' name = frame_get f name -> has_column f' name = has_column f name.
Proof.
  intros Heq. destruct (frame_get f name) as [c|] eqn:Hget.
  - by rewrite (frame_get_has_column _ _ _ Hget), (frame_get_has_column _ _ _ Heq).
  - by rewrite (has_column_absent _ _ Hget), (has_column_absent _ _ Heq).
Qed.

Lemma numeric_if_present_ext (f f' : DataFrame) (name : string) :
  frame_get f' name = frame_get f name ->
  numeric_if_present f' name = numeric_if_present f name.
Proof. unfold numeric_if_present. by intros ->. Qed.

(** Sections 2 to 6 complete exactly on the tables whose age, stage
    sequence and days are numeric or absent, with a numeric education
    when there is an age; they raise [TypeError] on all others. *)
Lemma derived_features_outcome (g : DataFrame) :
  exists f',
    derived_features g
    = (if features_computable g then Ok tt else Raise TypeError, f').
Proof.
  rewrite derived_features_sections.
  unfold mbind, SE_bind, features_computable, arithmetic_columns_numeric.
  destruct (age_features_outcome g) as [f1 H1]. rewrite H1.
  destruct (numeric_if_present g "Age") eqn:Hage; cbn [andb]; [|by eexists].
  destruct (education_features_outcome f1) as [f2 H2]. rewrite H2.
  assert (Hkeep2 : forall name,
    name ∉ ["Age_squared"; "Age_normalized"; "Education_level"]%string ->
    frame_get f2 name = frame_get g name).
  { intros name Hname.
    pose proof (education_features_assigns _ _ _ H2 name) as He.
    pose proof (age_features_assigns _ _ _ H1 name) as Ha.
    cbn [id] in He, Ha. rewrite He, Ha; [done|..];
      intros Hin; apply Hname; revert Hin;
      rewrite !elem_of_cons, !elem_of_nil; tauto. }
  destruct (stage_features_outcome f2) as [f3 H3]. rewrite H3.
  rewrite (numeric_if_present_ext g f2) by (apply Hkeep2; by_compute).
  destruct (numeric_if_present g "Stage_Sequence") eqn:Hstage; cbn [andb];
    [|by eexists].
  assert (Hkeep3 : forall name,
    name ∉ ["Age_squared"; "Age_normalized"; "Education_level"; "Stage_progress";
            "Is_early_stage"; "Is_late_stage"]%string ->
    frame_get f3 name = frame_get g name).
  { intros name Hname.
    pose proof (stage_features_assigns _ _ _ H3 name) as Hs. cbn [id] in Hs.
    rewrite Hs, Hkeep2; [done|..];
      intros Hin; apply Hname; revert Hin;
      rewrite !elem_of_cons, !elem_of_nil; tauto. }
  destruct (time_features_outcome f3) as [f4 H4]. rewrite H4.
  rewrite (numeric_if_present_ext g f3) by (apply Hkeep3; by_compute).
  destruct (numeric_if_present g "Days_Since_Application") eqn:Hdays; cbn [andb];
    [|by eexists].
  destruct (source_features_outcome f4) as [f5 H5]. rewrite H5.
  assert (Hkeep5 : forall name,
    name ∉ ["Age_squared"; "Age_normalized"; "Education_level"; "Stage_progress";
            "Is_early_stage"; "Is_late_stage"; "Days_log"; "Is_slow_process";
            "Source_success_rate"]%string ->
    frame_get f5 name = frame_get g name).
  { intros name Hname.
    pose proof (source_features_assigns _ _ _ H5 name) as Hs.
    pose proof (time_features_assigns _ _ _ H4 name) as Ht.
    cbn [id] in Hs, Ht. rewrite Hs, Ht, Hkeep3; [done|..];
      intros Hin; apply Hname; revert Hin;
      rewrite !elem_of_cons, !elem_of_nil; tauto. }
  destruct (interaction_features_outcome f5) as [f6 H6].
  { rewrite (numeric_if_present_ext g f5) by (apply Hkeep5; by_compute). done. }
  rewrite H6.
  rewrite (numeric_if_present_ext g f5) by (apply Hkeep5; by_compute).
  rewrite (has_column_ext g f5) by (apply Hkeep5; by_compute).
  by eexists.
Qed.

(** With no encoder stored for a column, its turn of the loop fits one
    and completes. *)
Lemma encode_categorical_fresh (col : string) (E : gmap string LabelEncoder.t)
    (f : DataFrame) :
  E !! col = None ->
  exists E' f', encode_categorical col (E, f) = (Ok tt, (E', f')).
Proof.
  intros HE.
  unfold encode_categorical, mbind, SE_bind, mret, SE_ret, frame_only,
    in_columns, in_encoders, get_encoder, set_encoder, get_column, set_column,
    lift, getitem.
  cbv beta iota delta [fst snd negb from_option].
  destruct (frame_get f col) as [c|] eqn:Hget.
  - rewrite (frame_get_has_column _ _ _ Hget).
    cbv beta iota delta [fst snd negb from_option].
    rewrite bool_decide_eq_false_2 by (rewrite HE; by intros [? ?]).
    cbv beta iota delta [fst snd negb from_option].
    rewrite lookup_insert_eq, Hget.
    cbv beta iota delta [fst snd negb from_option].
    destruct (fit_transform_returns (astype_str c)) as [[enc codes] ->].
    cbv beta iota delta [fst snd negb from_option]. by eexists _, _.
  - rewrite (has_column_absent _ _ Hget). by eexists _, _.
Qed.

Lemma for_each_fresh (cols : list string) :
  NoDup cols ->
  forall (E : gmap string LabelEncoder.t) (f : DataFrame),
    (forall c, c ∈ cols -> E !! c = None) ->
    exists E' f', for_each encode_categorical cols (E, f) = (Ok tt, (E', f')).
Proof.
  induction 1 as [|c cols Hc Hnodup IH]; intros E f Hfresh; cbn [for_each].
  - by eexists _, _.
  - unfold mbind, SE_bind.
    destruct (encode_categorical_fresh c E f) as (E1 & f1 & Hstep);
      [apply Hfresh; by left|].
    rewrite Hstep. apply IH. intros c' Hc'.
    pose proof (encode_categorical_other_keys _ _ _ _ c' Hstep) as Hkeys.
    cbn [fst] in Hkeys. rewrite Hkeys; [apply Hfresh; by right | by intros ->].
Qed.

(** With no encoder stored, the encoding loop completes and the call ends
    as the derived features do. *)
Lemma create_features_fresh_run (df : ref) (w : world) (f : DataFrame) :
  frames w !! df = Some f ->
  label_encoders w = ∅ ->
  exists w',
    create_features df w
    = (if features_computable f then Ok (fresh (dom (frames w)))
       else Raise TypeError, w').
Proof.
  intros Hdf Hfresh.
  destruct (for_each_fresh categorical_cols categorical_cols_NoDup
              (label_encoders w) f) as (E1 & g & Hloop).
  { intros c _. by rewrite Hfresh. }
  assert (Hg : forall name, name ∉ encoded_cols ->
                            frame_get g name = frame_get f name).
  { intros name Hname.
    apply (assigns_only_for_each snd encoded_cols encode_categorical
             categorical_cols) with (s := (label_encoders w, f))
             (s' := (E1, g)) (res := Ok tt); [|done..].
    intros col Hcol. apply encode_categorical_assigns.
    by apply list_elem_of_fmap_2. }
  assert (Hsame : features_computable g = features_computable f).
  { unfold features_computable, arithmetic_columns_numeric.
    rewrite !(numeric_if_present_ext f g), (has_column_ext f g)
      by (apply Hg; by_compute). done. }
  destruct (derived_features_outcome g) as [f' Hderived]. rewrite Hsame in Hderived.
  destruct (create_features df w) as [res w'] eqn:Hrun.
  apply create_features_run in Hrun. rewrite Hdf in Hrun.
  destruct Hrun as (res1 & E1' & g' & Hloop' & Hrest).
  rewrite Hloop in Hloop'. injection Hloop' as <- <- <-.
  destruct Hrest as (res2 & f2 & Hderived' & -> & ->).
  rewrite Hderived in Hderived'. injection Hderived' as <- <-.
  eexists. by destruct (features_computable f).
Qed.

Lemma holds_string_not_numeric (f : DataFrame) (name : string) :
  holds_string f name = true -> numeric_if_present f name = false.
Proof.
  unfold holds_string, numeric_if_present.
  by destruct (frame_get f name) as [[| |xs]|].
Qed.

(** X17: with a new [FeatureEngineer] (no encoder stored), on a table
    with distinct column names, the encoding of the categorical columns
    never fails, and [create_features] returns for every table whose
    [Age], [Education], [Stage_Sequence] and [Days_Since_Application]
    columns are numeric or absent.  It raises
    [TypeError] when the first of [Age], [Stage_Sequence] and
    [Days_Since_Application] that is not numeric holds a string: the
    arithmetic of section 2, 3 or 4 meets the string. *)
Theorem create_features_fresh_outcome (df : ref) (w : world) (f : DataFrame) :
  frames w !! df = Some f ->
  NoDup (df_columns f) ->
  label_encoders w = ∅ ->
  (arithmetic_columns_numeric f && numeric_if_present f "Education" = true ->
   exists r w', create_features df w = (Ok r, w')) /\
  (holds_string f "Age"
   || numeric_if_present f "Age"
      && (holds_string f "Stage_Sequence"
          || numeric_if_present f "Stage_Sequence"
             && holds_string f "Days_Since_Application") = true ->
   exists w', create_features df w = (Raise TypeError, w')).
Proof.
  intros Hdf _ Hfresh.
  destruct (create_features_fresh_run df w f Hdf Hfresh) as [w' Hrun].
  unfold features_computable in Hrun. split.
  - intros [Harith Hedu]%andb_true_iff. rewrite Harith, Hedu in Hrun.
    rewrite Bool.implb_true_r in Hrun. cbn [andb] in Hrun. by eexists _, _.
  - intros Hstring.
    assert (Harith : arithmetic_columns_numeric f = false).
    { unfold arithmetic_columns_numeric.
      apply orb_true_iff in Hstring as [Hage|[Hage Hrest]%andb_true_iff].
      { by rewrite (holds_string_not_numeric _ _ Hage). }
      rewrite Hage. cbn [andb].
      apply orb_true_iff in Hrest as [Hstage|[Hstage Hdays]%andb_true_iff].
      { by rewrite (holds_string_not_numeric _ _ Hstage). }
      rewrite Hstage. cbn [andb].
      by rewrite (holds_string_not_numeric _ _ Hdays). }
    rewrite Harith in Hrun. cbn [andb] in Hrun. by eexists.
Qed.

End FreshEngineer.

Lemma create_features_fresh_outcome_witness :
  (exists r w',
     @FeatureEngineering.create_features uninspected_numpy 0%nat funnel_world
     = (Ok r, w')) /\
  (exists w',
     @FeatureEngineering.create_features uninspected_numpy 0%nat
       (FeatureEngineering.World
          {[ 0%nat := [("Age"%string, Pandas.ObjCol [Some "thirty"%string])] ]} ∅)
     = (Raise TypeError, w')).
Proof.
  split.
  - apply (@create_features_fresh_outcome uninspected_numpy 0%nat funnel_world
             funnel_records); [reflexivity | by_compute | reflexivity | by_compute].
  - apply (@create_features_fresh_outcome uninspected_numpy 0%nat _
             [("Age"%string, Pandas.ObjCol [Some "thirty"%string])]);
      [reflexivity | by_compute | reflexivity | by_compute].
Defined.

(** ** Feature engineering: the success rate of a source *)

Section SourceRates.
Context `{NumpyMath}.
Import Pandas FeatureEngineering FeatureSections.







End SourceRates.


(** ** Feature engineering: the normalized age *)

Section NormalizedAge.
Context `{NumpyMath}.
Import Pandas FeatureEngineering FeatureSections.

(** Section 2 on a table that has the age. *)
Lemma age_features_Ok (f f' : DataFrame) (age : column) :
  age_features f = (Ok tt, f') ->
  frame_get f "Age" = Some age ->
  exists xs mean std,
    to_floats age = Ok xs /\
    series_mean age = Ok mean /\
    series_std age = Ok std /\
    frame_get f' "Age_normalized"
    = Some (FloatCol ((fun x => np_div x std) <$> ((fun x => fsub x mean) <$> xs))).
Proof.
  intros Hrun Hget.
  unfold age_features, mbind, SE_bind, in_columns, when, get_column, set_column,
    lift, getitem in Hrun.
  rewrite (frame_get_has_column _ _ _ Hget), Hget in Hrun.
  pose proof (col_pow2_outcome age) as Hpow.
  pose proof (to_floats_outcome age) as Hxs.
  destruct (bool_decide (col_dtype age <> object)).
  - destruct Hpow as [squared Hpow]. destruct Hxs as (xs & Hxs & _).
    rewrite Hpow in Hrun. rewrite frame_get_setitem_ne, Hget in Hrun by done.
    destruct (series_std_returns age xs Hxs) as [std Hstd].
    rewrite Hstd in Hrun.
    unfold series_mean, col_sub_scalar, col_div_scalar in Hrun |- *.
    rewrite Hxs in Hrun |- *. cbn [rbind to_floats] in Hrun |- *.
    injection Hrun as <-. eexists xs, _, std.
    split; [done|]. split; [done|]. split; [done|].
    apply frame_get_setitem_eq.
  - by rewrite Hpow in Hrun.
Qed.

Lemma np_div_nan (x : pyfloat) : np_div x NaN = NaN.
Proof. by destruct x. Qed.

(** X19: with fewer than two ages that are not missing, the deviation of
    the age is NaN, and so is every entry of [Age_normalized] in the table
    that [create_features] returns. *)
Theorem create_features_age_normalized_few (df r : ref) (w w' : world)
    (f : DataFrame) (age : column) (xs : list pyfloat) :
  create_features df w = (Ok r, w') ->
  frames w !! df = Some f ->
  frame_get f "Age" = Some age ->
  to_floats age = Ok xs ->
  (length (dropna xs) <= 1)%nat ->
  exists f' normalized,
    frames w' !! r = Some f' /\
    frame_get f' "Age_normalized" = Some (FloatCol normalized) /\
    length normalized = length xs /\
    Forall (fun x => x = NaN) normalized.
Proof.
  intros Hrun Hdf Hage Hxs Hfew.
  destruct (create_features_sections _ _ _ _ _ Hrun Hdf)
    as (g & f1 & f2 & f3 & f4 & f5 & f' & Hf' & Hg & H1 & H2 & H3 & H4 & H5 & H6).
  assert (Hage' : frame_get g "Age" = Some age) by (by rewrite Hg by by_compute).
  destruct (age_features_Ok _ _ _ H1 Hage')
    as (xs' & mean & std & Hxs' & _ & Hstd & Hnorm).
  rewrite Hxs in Hxs'. injection Hxs' as <-.
  assert (std = NaN) as ->.
  { unfold series_std in Hstd. rewrite Hxs in Hstd. cbn [rbind] in Hstd.
    cbv zeta in Hstd. rewrite bool_decide_eq_true_2 in Hstd by done.
    by injection Hstd as <-. }
  pose proof (education_features_assigns _ _ _ H2 "Age_normalized"%string) as He.
  pose proof (stage_features_assigns _ _ _ H3 "Age_normalized"%string) as Hs.
  pose proof (time_features_assigns _ _ _ H4 "Age_normalized"%string) as Ht.
  pose proof (source_features_assigns _ _ _ H5 "Age_normalized"%string) as Hso.
  pose proof (interaction_features_assigns _ _ _ H6 "Age_normalized"%string) as Hi.
  cbn [id] in He, Hs, Ht, Hso, Hi.
  eexists f', _. split; [done|].
  split; [rewrite Hi, Hso, Ht, Hs, He by by_compute; exact Hnorm|].
  split; [by rewrite !length_fmap|].
  apply Forall_fmap, Forall_forall. intros x _. apply np_div_nan.
Qed.

End NormalizedAge.

Lemma create_features_age_normalized_few_witness :
  exists f' normalized,
    FeatureEngineering.frames
      (@FeatureEngineering.create_features uninspected_numpy 0%nat
         (FeatureEngineering.World
            {[ 0%nat := [("Age"%string, Pandas.IntCol [41])] ]} ∅)).2
      !! 1%nat = Some f' /\
    Pandas.frame_get f' "Age_normalized" = Some (Pandas.FloatCol normalized) /\
    normalized = [NaN].
Proof.
  destruct (@create_features_age_normalized_few uninspected_numpy 0%nat 1%nat
              (FeatureEngineering.World
                 {[ 0%nat := [("Age"%string, Pandas.IntCol [41])] ]} ∅)
              (@FeatureEngineering.create_features uninspected_numpy 0%nat
                 (FeatureEngineering.World
                    {[ 0%nat := [("Age"%string, Pandas.IntCol [41])] ]} ∅)).2
              [("Age"%string, Pandas.IntCol [41])] (Pandas.IntCol [41]) [of_Z 41])
    as (f' & normalized & Hf' & Hnorm & Hlen & Hnan).
  - etransitivity; [apply surjective_pairing|]. f_equal; by_compute.
  - reflexivity.
  - reflexivity.
  - reflexivity.
  - by_compute.
  - exists f', normalized. split; [done|]. split; [done|].
    destruct normalized as [|x [|y rest]]; try done.
    by apply Forall_cons in Hnan as [-> _].
Defined.

(** ** Experiment evaluator: groups that differ by one success *)

Section ContinuityCorrection.
Context `{NumpyMath} `{ScipyStats}.
Import Scipy ABTesting.

Lemma chi2_contingency_Ok_value (o : contingency Z) (chi2 p : pyfloat) :
  chi2_contingency o = Ok (chi2, p) ->
  chi2 = chi2_statistic o /\ p = chi2_sf chi2.
Proof.
  unfold chi2_contingency, chi2_p_value. repeat case_match; try done.
  by intros [= <- <-].
Qed.

(** An observation within one half of its expectation is moved onto it. *)
Lemma yates_half (o k : Z) :
  -1 <= k <= 1 ->
  yates o (Fin (Qc_of_Z o + Qc_of_Z k / Qc_of_Z 2)%Qc)
  = Fin (Qc_of_Z o + Qc_of_Z k / Qc_of_Z 2)%Qc.
Proof.
  intros Hk. unfold yates, fsub, of_Z. cbn [fneg fadd].
  replace (Qc_of_Z o + Qc_of_Z k / Qc_of_Z 2 + - Qc_of_Z o)%Qc
    with (Qc_of_Z k / Qc_of_Z 2)%Qc by ring.
  assert (Hmove : forall d : Qc,
    d = (Qc_of_Z (-1) / Qc_of_Z 2)%Qc \/ d = (Qc_of_Z 0 / Qc_of_Z 2)%Qc \/
    d = (Qc_of_Z 1 / Qc_of_Z 2)%Qc ->
    fmul (np_minimum (Fin (Q2Qc (1 # 2))) (np_abs (Fin d))) (np_sign (Fin d)) = Fin d).
  { intros d [-> | [-> | ->]]; by_compute. }
  rewrite Hmove; [done|].
  assert (k = -1 \/ k = 0 \/ k = 1) as [-> | [-> | ->]] by lia; auto.
Qed.

Lemma pearson_term_zero (e : Qc) :
  e <> 0%Qc -> pearson_term (Fin e) (Fin e) = Fin 0%Qc.
Proof.
  intros He. unfold pearson_term, fsub. cbn [fneg fadd fmul np_div].
  rewrite bool_decide_eq_false_2 by done. f_equal. unfold Qcdiv. ring.
Qed.

(** The expectation of a cell in two groups of one size: half the sum of
    its column. *)
Lemma expected_half (n o col : Z) :
  0 < n ->
  (Qc_of_Z (n * col) / Qc_of_Z (2 * n))%Qc
  = (Qc_of_Z o + Qc_of_Z (col - 2 * o) / Qc_of_Z 2)%Qc.
Proof.
  intros Hn. rewrite !Z2Qc_inj_mul, Z2Qc_inj_sub, Z2Qc_inj_mul.
  assert (Hn' : Qc_of_Z n <> 0%Qc) by (apply Qc_of_Z_nonzero; lia).
  assert (H2 : Qc_of_Z 2 <> 0%Qc) by (by apply Qc_of_Z_nonzero).
  field. by split.
Qed.

Lemma corrected_cell_zero (n o col : Z) :
  0 < n -> 0 < col -> -1 <= col - 2 * o <= 1 ->
  let e := np_div (of_Z (n * col)) (of_Z (2 * n)) in
  pearson_term (yates o e) e = Fin 0%Qc.
Proof.
  intros Hn Hcol Hk e. subst e. rewrite np_div_Z by lia.
  assert (Hne : (Qc_of_Z (n * col) / Qc_of_Z (2 * n))%Qc <> 0%Qc).
  { apply Qcdiv_nonzero; apply Qc_of_Z_nonzero; nia. }
  revert Hne. rewrite (expected_half n o col Hn). intros Hne.
  rewrite yates_half by done. by apply pearson_term_zero.
Qed.

(** In two groups of one size whose success counts differ by at most one,
    the continuity correction absorbs the whole difference. *)
Lemma chi2_statistic_equal_groups (cs ts n : Z) :
  0 <= cs <= n -> 0 <= ts <= n -> 0 < n < 2 ^ 31 ->
  0 < cs + ts < 2 * n -> -1 <= ts - cs <= 1 ->
  chi2_statistic ((cs, n - cs), (ts, n - ts)) = Fin 0%Qc.
Proof.
  intros Hcs Hts Hn Hmix Hdiff. unfold chi2_statistic, expected_freq.
  replace (cs + (n - cs)) with n by lia.
  replace (ts + (n - ts)) with n by lia.
  replace (n + ts + (n - ts)) with (2 * n) by lia.
  rewrite (corrected_cell_zero n cs (cs + ts)) by lia.
  rewrite (corrected_cell_zero n (n - cs) (n - cs + (n - ts))) by lia.
  rewrite (corrected_cell_zero n ts (cs + ts)) by lia.
  rewrite (corrected_cell_zero n (n - ts) (n - cs + (n - ts))) by lia.
  by_compute.
Qed.

(** X20: two groups of one size (below 2^26, where every product of the
    margins is exact in double precision too) whose success counts differ
    by at most one are never told apart: whenever the test returns, the
    continuity correction has absorbed the difference, the statistic is
    exactly 0, and the p-value is the upper tail at 0 (the verdict is the
    comparison of that value with [alpha]). *)
Theorem significance_difference_of_one (cs ts n : Z) (a : pyfloat)
    (r : significance) :
  n < 2 ^ 26 ->
  -1 <= ts - cs <= 1 ->
  calculate_statistical_significance cs n ts n a = Ok r ->
  chi_square r = Fin 0%Qc /\
  p_value r = chi2_sf (Fin 0%Qc) /\
  is_significant r = flt (chi2_sf (Fin 0%Qc)) a.
Proof.
  intros Hn Hdiff Hrun.
  assert (Hdom : returns (calculate_statistical_significance cs n ts n a))
    by by eexists.
  apply significance_fields in Hrun as (Htest & Hp1 & Hp2 & Hsig & _).
  pose proof (chi2_contingency_Ok_nonneg _ _ Htest) as Hnn. cbn [cells4] in Hnn.
  apply Forall_cons in Hnn as [Hcs Hnn]. apply Forall_cons in Hnn as [Hcf Hnn].
  apply Forall_cons in Hnn as [Hts Hnn]. apply Forall_cons in Hnn as [Htf _].
  apply py_truediv_Z_Ok in Hp1.
  pose proof (chi2_contingency_Ok_columns _ _ _ _ _ Htest) as Hcols.
  apply chi2_contingency_Ok_value in Htest as [Hchi Hp].
  rewrite chi2_statistic_equal_groups in Hchi by lia.
  rewrite Hsig, Hp, Hchi. done.
Qed.

End ContinuityCorrection.

Lemma significance_difference_of_one_witness :
  exists r,
    @ABTesting.calculate_statistical_significance uninspected_numpy tabulated_chi2
      50 100 51 100 (Fin (Q2Qc (5 # 100))) = Ok r /\
    ABTesting.chi_square r = Fin 0%Qc /\
    ABTesting.is_significant r = false.
Proof.
  destruct (@ABTesting.calculate_statistical_significance uninspected_numpy
              tabulated_chi2 50 100 51 100 (Fin (Q2Qc (5 # 100)))) as [r|e] eqn:Hrun;
    [|by vm_compute in Hrun].
  exists r. split; [done|].
  destruct (@significance_difference_of_one uninspected_numpy tabulated_chi2
              50 51 100 (Fin (Q2Qc (5 # 100))) r) as (Hchi & _ & Hsig);
    [lia | lia | done |].
  split; [done|]. rewrite Hsig. by_compute.
Defined.

(** ** Funnel generator: the journey of an applicant *)

Section Journey.
Context `{PyRandom}.
Import FunnelGenerator.

Variables (applicant_id source dept : string) (application_date : Z)
  (gets_hired : bool).

Ltac run_stage Hrun :=
  cbn [progress] in Hrun;
  let passes := fresh "passes" in
  let g1 := fresh "g" in
  let Hpass := fresh "Hpass" in
  destruct (pass_stage _ gets_hired _) as [passes g1] eqn:Hpass;
  destruct passes;
  [ let d := fresh "d" in
    let g2 := fresh "g" in
    let Hd := fresh "Hd" in
    let rest := fresh "rows" in
    let g3 := fresh "g" in
    let Hrest := fresh "Hrest" in
    match type of Hrun with
    | context [if bool_decide (?i = 0%nat) then (0, ?g) else random_randint 3 10 ?g] =>
        destruct (if bool_decide (i = 0%nat) then (0, g) else random_randint 3 10 g)
          as [d g2] eqn:Hd
    end;
    match type of Hrun with
    | context [progress applicant_id source dept application_date gets_hired ?i ?r ?c ?q ?g] =>
        destruct (progress applicant_id source dept application_date gets_hired i r c q g) as [rest g3] eqn:Hrest
    end;
    injection Hrun as <- <-
  | injection Hrun as <- <- ].

(** The records follow the stages in order, numbered from
    [stage_sequence]; a rejection ends the journey, and a stage that is
    passed is followed by the next one. *)
Lemma progress_shape (remaining : list stage) :
  forall (stage_idx : nat) (current_date stage_sequence : Z) (g g' : prng)
         (rows : list funnel_row),
    progress applicant_id source dept application_date gets_hired stage_idx
      remaining current_date stage_sequence g = (rows, g') ->
    (length rows <= length remaining)%nat /\
    (remaining <> [] -> rows <> []) /\
    forall i row, rows !! i = Some row ->
      remaining !! i = Some (Stage row) /\
      Stage_Sequence row = stage_sequence + Z.of_nat i /\
      Applicant_ID row = applicant_id /\ Source row = source /\
      Department row = dept /\ Application_Date row = application_date /\
      (Status row = "Rejected"%string \/
       Status row = if bool_decide (Some (Stage row) <> last stages)
                    then "Passed"%string else "Hired"%string) /\
      (Status row = "Rejected"%string ->
       length rows = S i /\ Stage row <> ApplicationReceived /\
       (Stage row = Hired -> gets_hired = false)) /\
      (Status row <> "Rejected"%string ->
       (S i < length remaining -> S i < length rows)%nat /\
       (Stage row = Hired -> gets_hired = true)).
Proof.
  induction remaining as [|s rest IH];
    intros stage_idx current_date stage_sequence g g' rows Hrun.
  { injection Hrun as <- <-. split; [done|]. split; [done|]. by intros i row ?. }
  run_stage Hrun.
  - destruct (IH _ _ _ _ _ _ Hrest) as (Hlen & Hne & Hrows).
    split; [cbn; lia|]. split; [done|]. intros [|i] row Hrow.
    + injection Hrow as <-. cbn [Stage Stage_Sequence Applicant_ID Source
        Department Application_Date Status lookup list_lookup].
      split; [done|]. split; [lia|]. do 4 (split; [done|]).
      split; [by right|]. split.
      * match goal with |- context [bool_decide ?P] => by destruct (bool_decide P) end.
      * intros _. split.
        -- cbn [length]. intros Hmore. destruct rest; [cbn in Hmore; lia|].
           assert (rows0 <> []) by by apply Hne. destruct rows0; [done|]. cbn. lia.
        -- intros ->. cbn [pass_stage] in Hpass. by injection Hpass as ->.
    + cbn [lookup list_lookup] in Hrow |- *.
      destruct (Hrows i row Hrow) as (Hstage & Hseq & Hid & Hsrc & Hdept & Happ
                                      & Hstatus & Hrej & Hpassed).
      split; [done|]. split; [lia|]. do 4 (split; [done|]). split; [done|].
      split.
      * intros Hr. destruct (Hrej Hr) as (Hl & ? & ?). cbn [length]. by rewrite Hl.
      * intros Hp. destruct (Hpassed Hp) as [Hnext ?]. split; [|done].
        cbn [length]. lia.
  - split; [cbn; lia|]. split; [done|]. intros [|i] row Hrow; [|done].
    injection Hrow as <-. cbn [Stage Stage_Sequence Applicant_ID Source
      Department Application_Date Status lookup list_lookup].
    split; [done|]. split; [lia|]. do 4 (split; [done|]).
    split; [by left|]. split; [|done]. intros _. split; [done|]. split.
    + intros ->. cbn [pass_stage] in Hpass. by injection Hpass.
    + intros ->. cbn [pass_stage] in Hpass. by injection Hpass as ->.
Qed.

(** The dates: the first record of the loop keeps the date when it is
    the application itself or a rejection, every later stage that is
    passed comes 3 to 10 days after the one before, and a rejection is
    dated as the record before it. *)
Lemma progress_days (remaining : list stage) :
  forall (stage_idx : nat) (current_date stage_sequence : Z) (g g' : prng)
         (rows : list funnel_row),
    progress applicant_id source dept application_date gets_hired stage_idx
      remaining current_date stage_sequence g = (rows, g') ->
    let o := if bool_decide (stage_idx = 0%nat) then 0%nat else 1%nat in
    (forall i row, rows !! i = Some row ->
       Days_Since_Application row = Stage_Date row - application_date /\
       let steps := if bool_decide (Status row = "Rejected"%string)
                    then (i + o - 1)%nat else (i + o)%nat in
       current_date + 3 * Z.of_nat steps <= Stage_Date row
         <= current_date + 10 * Z.of_nat steps) /\
    (forall i row row', rows !! i = Some row -> rows !! S i = Some row' ->
       if bool_decide (Status row' = "Rejected"%string)
       then Stage_Date row' = Stage_Date row
       else Stage_Date row + 3 <= Stage_Date row' <= Stage_Date row + 10).
Proof.
  induction remaining as [|s rest IH];
    intros stage_idx current_date stage_sequence g g' rows Hrun o.
  { injection Hrun as <- <-. split; [by intros i row ?|by intros i row row' ?]. }
  run_stage Hrun.
  - destruct (IH _ _ _ _ _ _ Hrest) as (Hbound & Hnext).
    assert (Hdays : 3 * Z.of_nat o <= d <= 10 * Z.of_nat o).
    { subst o. destruct (bool_decide (stage_idx = 0%nat)).
      - injection Hd as <- <-. lia.
      - pose proof (random_randint_range 3 10 g0) as Hrange.
        rewrite Hd in Hrange. cbn [fst] in Hrange. lia. }
    split.
    + intros [|i] row Hrow.
      * injection Hrow as <-. cbn [Days_Since_Application Stage_Date Status].
        split; [done|].
        match goal with |- context [bool_decide (Some s <> ?l)] =>
          destruct (bool_decide (Some s <> l)) end;
          rewrite bool_decide_eq_false_2 by done; cbv zeta; lia.
      * cbn [lookup list_lookup] in Hrow.
        destruct (Hbound i row Hrow) as [Hdiff Hsteps]. split; [done|].
        cbv zeta in Hsteps |- *.
        rewrite (bool_decide_eq_false_2 (S stage_idx = 0%nat)) in Hsteps by done.
        destruct (bool_decide (Status row = "Rejected"%string)); lia.
    + intros [|i] row row' Hrow Hrow'.
      * injection Hrow as <-. cbn [lookup list_lookup] in Hrow'.
        destruct (Hbound 0%nat row' Hrow') as [_ Hsteps].
        cbv zeta in Hsteps.
        rewrite (bool_decide_eq_false_2 (S stage_idx = 0%nat)) in Hsteps by done.
        cbn [Stage_Date].
        destruct (bool_decide (Status row' = "Rejected"%string)); lia.
      * cbn [lookup list_lookup] in Hrow, Hrow'. by eapply Hnext.
  - split.
    + intros [|i] row Hrow; [|done]. injection Hrow as <-.
      cbn [Days_Since_Application Stage_Date Status]. split; [done|].
      rewrite bool_decide_eq_true_2 by done. cbv zeta.
      subst o. destruct (bool_decide (stage_idx = 0%nat)); lia.
    + by intros [|i] row row' Hrow Hrow'.
Qed.

End Journey.

Section Applicant.
Context `{PyRandom}.
Import FunnelGenerator.

Lemma sources_of_cases (dept : string) :
  sources_of dept ∈ (source_effectiveness.*1 :: source_mapping.*2).
Proof.
  unfold sources_of. destruct (list_find _ source_mapping) as [[i [d l]]|] eqn:Hfind.
  - right. apply list_find_Some in Hfind as (Hi & _ & _).
    apply list_elem_of_lookup_2 in Hi. by apply (list_elem_of_fmap_2 snd) in Hi.
  - by left.
Qed.

Lemma sources_of_nonempty (dept : string) : (0 < length (sources_of dept))%nat.
Proof.
  pose proof (sources_of_cases dept) as Hin.
  repeat (apply elem_of_cons in Hin as [->|Hin]; [cbn; lia|]).
  by apply elem_of_nil in Hin.
Qed.

(** Every source an applicant can be given has an effectiveness. *)
Lemma sources_of_effectiveness (dept source : string) :
  source ∈ sources_of dept -> is_Some (conversion_prob source).
Proof.
  pose proof (sources_of_cases dept) as Hin. revert source. apply Forall_forall.
  repeat (apply elem_of_cons in Hin as [->|Hin]; [by_compute|]).
  by apply elem_of_nil in Hin.
Qed.

(** The records of an applicant are those of the loop over all the
    stages, from the application date on. *)
Lemma applicant_rows_progress (idx : Z) (dept : string) (g : prng) :
  exists source application_date gets_hired g0,
    source ∈ sources_of dept /\
    0 <= application_date <= 730 /\
    applicant_rows idx dept g
    = progress ("APP" +:+ pretty (1000 + idx)) source dept application_date
        gets_hired 0 stages application_date 1 g0.
Proof.
  unfold applicant_rows.
  pose proof (random_choice_range (length (sources_of dept)) g
                (sources_of_nonempty dept)) as Hchoice.
  destruct (random_choice _ g) as [choice g1]. cbn [fst] in Hchoice.
  pose proof (random_randint_range 0 date_range_days g1) as Hdate.
  destruct (random_randint 0 date_range_days g1) as [offset g2].
  cbn [fst] in Hdate. destruct (random_random g2) as [x g3].
  destruct (lookup_lt_is_Some_2 _ _ Hchoice) as [source Hsource].
  rewrite Hsource. cbn [default from_option id].
  eexists source, offset, _, g3.
  split; [by eapply list_elem_of_lookup_2|]. split; [|done].
  apply Hdate. by_compute.
Qed.

(** X21: the journey of every applicant the generator makes: between 2
    and 8 records that follow the stages in order from the application,
    numbered 1, 2, ...; every record but the last has status [Passed];
    the last one is [Rejected], or is [Hired] at the stage [Hired]; and
    [Hired] occurs nowhere else. *)
Theorem applicant_rows_shape (idx : Z) (dept : string) (g : prng) :
  let rows := (applicant_rows idx dept g).1 in
  (2 <= length rows <= 8)%nat /\
  forall i row, rows !! i = Some row ->
    stages !! i = Some (Stage row) /\
    Stage_Sequence row = Z.of_nat i + 1 /\
    Applicant_ID row = "APP" +:+ pretty (1000 + idx) /\
    Department row = dept /\
    (S i < length rows -> Status row = "Passed"%string)%nat /\
    (S i = length rows ->
     Status row = "Rejected"%string \/
     (Status row = "Hired"%string /\ Stage row = Hired)) /\
    (Status row = "Hired"%string -> S i = length rows /\ Stage row = Hired).
Proof.
  intros rows. subst rows.
  destruct (applicant_rows_progress idx dept g)
    as (source & application_date & gets_hired & g0 & _ & _ & ->).
  destruct (progress _ _ _ _ _ _ _ _ _ g0) as [rows g'] eqn:Hrun. cbn [fst].
  destruct (progress_shape _ _ _ _ _ _ _ _ _ _ _ _ Hrun) as (Hlen & Hne & Hrows).
  change (length stages) with 8%nat in *.
  assert (Hnotlast : forall i row,
    rows !! i = Some row -> (i < 7)%nat -> Stage row <> Hired).
  { intros i row Hrow Hi. destruct (Hrows i row Hrow) as (Hstage & _).
    do 7 (destruct i as [|i]; [by injection Hstage as <-|]). lia. }
  assert (Hlast : forall i row,
    rows !! i = Some row -> Stage row = Hired -> i = 7%nat).
  { intros i row Hrow Hs. destruct (Hrows i row Hrow) as (Hstage & _).
    rewrite Hs in Hstage.
    do 8 (destruct i as [|i]; [cbn in Hstage; first [done | discriminate Hstage]|]).
    done. }
  split.
  - split; [|done]. destruct rows as [|row0 rows]; [by destruct Hne|].
    destruct (Hrows 0%nat row0 eq_refl) as (Hstage & _ & _ & _ & _ & _ & _ & Hrej & Hpassed).
    injection Hstage as Hstage.
    destruct (decide (Status row0 = "Rejected"%string)) as [Hr|Hp].
    + by destruct (Hrej Hr) as (_ & ? & _).
    + destruct (Hpassed Hp) as [Hnext _]. cbn [length] in *. lia.
  - intros i row Hrow.
    destruct (Hrows i row Hrow)
      as (Hstage & Hseq & Hid & _ & Hdept & _ & Hstatus & Hrej & Hpassed).
    pose proof (lookup_lt_Some _ _ _ Hrow) as Hi.
    split; [done|]. split; [lia|]. split; [done|]. split; [done|].
    split; [|split].
    + intros Hmore. destruct Hstatus as [Hr|Hs]; [destruct (Hrej Hr); lia|].
      rewrite Hs. rewrite bool_decide_eq_true_2; [done|].
      intros [= Heq]. apply (Hnotlast i row); [done | lia | done].
    + intros Hend. destruct Hstatus as [Hr|Hs]; [by left|]. right.
      destruct (decide (Status row = "Rejected"%string)) as [Hr|Hp];
        [rewrite Hs in Hr; by case_bool_decide|].
      destruct (Hpassed Hp) as [Hnext _].
      assert (i = 7%nat) as -> by lia.
      cbn in Hstage. injection Hstage as Hstage.
      rewrite Hs, <- Hstage. by rewrite bool_decide_eq_false_2 by (by intros []).
    + intros Hh. destruct Hstatus as [Hr|Hs]; [congruence|].
      rewrite Hh in Hs.
      assert (Hstg : Stage row = Hired).
      { case_bool_decide as Hl; [done|]. by injection Hl. }
      split; [|done]. pose proof (Hlast i row Hrow Hstg). lia.
Qed.

(** X22: the days of a journey: the application date lies in the two
    years from [start_date]; the first record is dated on the
    application (0 days); every later record that is not a rejection
    comes 3 to 10 days after the record before it, and a rejection has
    the days of the record before it; so the days never decrease, the
    i-th record lies between 3 (i - 1) and 10 i days, and a hire takes
    between 21 and 70 days. *)
Theorem applicant_rows_days (idx : Z) (dept : string) (g : prng) :
  let rows := (applicant_rows idx dept g).1 in
  forall i row, rows !! i = Some row ->
    0 <= Application_Date row <= 730 /\
    Days_Since_Application row = Stage_Date row - Application_Date row /\
    (i = 0%nat -> Days_Since_Application row = 0) /\
    (forall row', rows !! S i = Some row' ->
       if bool_decide (Status row' = "Rejected"%string)
       then Days_Since_Application row' = Days_Since_Application row
       else Days_Since_Application row + 3 <= Days_Since_Application row'
              <= Days_Since_Application row + 10) /\
    3 * (Z.of_nat i - 1) <= Days_Since_Application row <= 10 * Z.of_nat i /\
    (Status row = "Hired"%string ->
     21 <= Days_Since_Application row <= 70).
Proof.
  intros rows. subst rows.
  destruct (applicant_rows_progress idx dept g)
    as (source & application_date & gets_hired & g0 & _ & Hdate & ->).
  destruct (progress _ _ _ _ _ _ _ _ _ g0) as [rows g'] eqn:Hrun. cbn [fst].
  destruct (progress_shape _ _ _ _ _ _ _ _ _ _ _ _ Hrun) as (_ & _ & Hrows).
  destruct (progress_days _ _ _ _ _ _ _ _ _ _ _ _ Hrun) as (Hbound & Hnext).
  intros i row Hrow.
  destruct (Hrows i row Hrow) as (Hstage & _ & _ & _ & _ & Happ & Hstatus & Hrej & _).
  destruct (Hbound i row Hrow) as [Hdiff Hsteps]. cbv zeta in Hsteps.
  rewrite (bool_decide_eq_true_2 (0%nat = 0%nat)) in Hsteps by done.
  rewrite Happ. split; [done|]. split; [done|]. rewrite Hdiff.
  split; [|split; [|split]].
  - intros ->. destruct (bool_decide (Status row = "Rejected"%string)); cbn in Hsteps; lia.
  - intros row' Hrow'.
    destruct (Hbound (S i) row' Hrow') as [Hdiff' _]. rewrite Hdiff'.
    pose proof (Hnext i row row' Hrow Hrow') as Hstep.
    destruct (bool_decide (Status row' = "Rejected"%string)); lia.
  - destruct (bool_decide (Status row = "Rejected"%string)); lia.
  - intros Hh. rewrite bool_decide_eq_false_2 in Hsteps by (by rewrite Hh).
    destruct Hstatus as [Hr|Hs]; [congruence|]. rewrite Hh in Hs.
    assert (Hstg : Stage row = Hired).
    { case_bool_decide as Hl; [done|]. by injection Hl. }
    rewrite Hstg in Hstage.
    do 8 (destruct i as [|i]; [try (by injection Hstage); lia|]). done.
Qed.

(** X23: the source of an applicant: all the records of an applicant
    carry one source; it is one of the three sources of the department
    when the department is Sales, Research & Development or Human
    Resources, and one of the six sources otherwise; and it has an entry
    in [source_effectiveness], so that the lookup of the conversion
    probability cannot fail. *)
Theorem applicant_rows_source (idx : Z) (dept : string) (g : prng) :
  let rows := (applicant_rows idx dept g).1 in
  exists source,
    source ∈ sources_of dept /\
    is_Some (conversion_prob source) /\
    (forall row, row ∈ rows -> Source row = source) /\
    (forall sources, (dept, sources) ∈ source_mapping -> source ∈ sources) /\
    (dept ∉ source_mapping.*1 -> source ∈ source_effectiveness.*1).
Proof.
  intros rows. subst rows.
  destruct (applicant_rows_progress idx dept g)
    as (source & application_date & gets_hired & g0 & Hsource & _ & ->).
  destruct (progress _ _ _ _ _ _ _ _ _ g0) as [rows g'] eqn:Hrun. cbn [fst].
  destruct (progress_shape _ _ _ _ _ _ _ _ _ _ _ _ Hrun) as (_ & _ & Hrows).
  exists source. split; [done|].
  split; [by eapply sources_of_effectiveness|]. split; [|split].
  - intros row [i Hrow]%list_elem_of_lookup_1.
    by destruct (Hrows i row Hrow) as (_ & _ & _ & ? & _).
  - intros sources Hin. revert Hsource. unfold sources_of.
    repeat (apply elem_of_cons in Hin as [[= -> ->]|Hin]; [done|]).
    by apply elem_of_nil in Hin.
  - intros Hdept. revert Hsource. unfold sources_of.
    destruct (list_find _ source_mapping) as [[i [d l]]|] eqn:Hfind; [|done].
    apply list_find_Some in Hfind as (Hi & Hd & _). cbn in Hd. subst d.
    apply list_elem_of_lookup_2 in Hi.
    by apply (list_elem_of_fmap_2 fst) in Hi.
Qed.

End Applicant.

Lemma applicant_rows_shape_witness :
  (2 <= length (@FunnelGenerator.applicant_rows lcg_py_random 0%Z "Sales" 42%Z).1 <= 8)%nat.
Proof.
  exact (proj1 (@applicant_rows_shape lcg_py_random 0%Z "Sales"%string 42%Z)).
Defined.

Lemma applicant_rows_days_witness :
  exists row,
    (@FunnelGenerator.applicant_rows lcg_py_random 0%Z "Sales" 42%Z).1 !! 0%nat
    = Some row /\
    FunnelGenerator.Days_Since_Application row = 0.
Proof.
  destruct ((@FunnelGenerator.applicant_rows lcg_py_random 0%Z "Sales" 42%Z).1
              !! 0%nat) as [row|] eqn:Hrow; [|by vm_compute in Hrow].
  exists row. split; [done|].
  by apply (@applicant_rows_days lcg_py_random 0%Z "Sales"%string 42%Z 0%nat row Hrow).
Defined.

Lemma applicant_rows_source_witness :
  exists source,
    source ∈ ["LinkedIn"; "Naukri"; "Company Website"]%string /\
    forall row,
      row ∈ (@FunnelGenerator.applicant_rows lcg_py_random 0%Z "Sales" 42%Z).1 ->
      FunnelGenerator.Source row = source.
Proof.
  destruct (@applicant_rows_source lcg_py_random 0%Z "Sales"%string 42%Z)
    as (source & _ & _ & Hrows & Hdept & _).
  exists source. split; [|done]. apply Hdept. by left.
Defined.

(** ** Model evaluation and selection *)

Section Evaluation.
Import Pandas MLModel.

Lemma bool_sum_all (m : list bool) :
  bool_sum m = Z.of_nat (length m) <-> Forall (fun b => b = true) m.
Proof.
  unfold bool_sum. induction m as [|b m IH]; [done|].
  pose proof (length_filter (fun b => b = true) m) as Hle.
  destruct b.
  - rewrite filter_cons_True by done. cbn [length]. rewrite Forall_cons.
    split; [intros Heq; split; [done|]; apply IH; lia | intros [_ Hm%IH]; lia].
  - rewrite filter_cons_False by done. cbn [length]. rewrite Forall_cons.
    split; [lia | by intros [? _]].
Qed.

Lemma bool_sum_none (m : list bool) :
  bool_sum m = 0 <-> Forall (fun b => b = false) m.
Proof.
  unfold bool_sum. induction m as [|b m IH]; [done|]. destruct b.
  - rewrite filter_cons_True by done. cbn [length]. rewrite Forall_cons.
    split; [lia | by intros [? _]].
  - rewrite filter_cons_False by done. rewrite Forall_cons. rewrite IH. tauto.
Qed.

Lemma Qc_of_Z_div_one (a b : Z) :
  b <> 0 -> (Qc_of_Z a / Qc_of_Z b)%Qc = 1%Qc <-> a = b.
Proof.
  intros Hb. pose proof (Qc_of_Z_nonzero b Hb) as Hb'. split.
  - intros Heq. apply Z2Qc_inj.
    rewrite <- (Qcmult_div_r (Qc_of_Z a) (Qc_of_Z b) Hb'), Heq. ring.
  - intros ->. by field.
Qed.

Lemma Qc_of_Z_div_zero (a b : Z) :
  b <> 0 -> (Qc_of_Z a / Qc_of_Z b)%Qc = 0%Qc <-> a = 0.
Proof.
  intros Hb. pose proof (Qc_of_Z_nonzero b Hb) as Hb'. split.
  - intros Heq. apply Z2Qc_inj.
    rewrite <- (Qcmult_div_r (Qc_of_Z a) (Qc_of_Z b) Hb'), Heq, Z2Qc_inj_0. ring.
  - intros ->. apply Qcdiv_0_l.
Qed.

(** X24: the accuracy of [evaluate]: for as many predictions as labels,
    and at least one, it is the fraction of the positions on which they
    agree, a number between 0 and 1, equal to 1 exactly when every
    prediction is right and to 0 exactly when none is; on an empty test
    set it is NaN. *)
Theorem accuracy_range (y_pred y_test : list Z) :
  length y_pred = length y_test ->
  (y_test = [] -> accuracy y_pred y_test = Ok NaN) /\
  (y_test <> [] ->
   exists q,
     accuracy y_pred y_test = Ok (Fin q) /\
     (0 <= q)%Qc /\ (q <= 1)%Qc /\
     (q = 1%Qc <-> y_pred = y_test) /\
     (q = 0%Qc <-> Forall2 (fun p t => p <> t) y_pred y_test)).
Proof.
  intros Hlen. unfold accuracy. rewrite bool_decide_eq_false_2 by (by intros ?).
  set (m := zip_with (fun p t => bool_decide (p = t)) y_pred y_test).
  assert (Hm : length m = length y_test).
  { subst m. rewrite length_zip_with. lia. }
  split.
  - intros ->. destruct m; [|done]. by rewrite bool_mean_nil.
  - intros Hne.
    assert (Hpos : (0 < length m)%nat).
    { rewrite Hm. destruct y_test; [done | cbn; lia]. }
    rewrite bool_mean_fin by done. eexists. split; [done|].
    pose proof (bool_sum_bounds m) as Hb.
    destruct (Qc_of_Z_div_unit (bool_sum m) (Z.of_nat (length m))) as [H0 H1];
      [lia..|].
    split; [done|]. split; [done|]. split.
    + rewrite Qc_of_Z_div_one by lia. rewrite bool_sum_all. subst m.
      clear Hm Hpos Hb H0 H1 Hne. revert y_test Hlen.
      induction y_pred as [|p ps IH]; intros [|t ts] Hlen; try done.
      cbn [zip_with]. rewrite Forall_cons, bool_decide_eq_true.
      injection Hlen as Hlen. rewrite (IH ts Hlen).
      split; [by intros [-> ->] | by intros [= -> ->]].
    + rewrite Qc_of_Z_div_zero by lia. rewrite bool_sum_none. subst m.
      clear Hm Hpos Hb H0 H1 Hne. revert y_test Hlen.
      induction y_pred as [|p ps IH]; intros [|t ts] Hlen; try done.
      cbn [zip_with]. rewrite Forall_cons, bool_decide_eq_false, Forall2_cons.
      injection Hlen as Hlen. by rewrite (IH ts Hlen).
Qed.

(** X25: the choice of the best model in [main]: when both ROC-AUC
    scores are numbers, the score printed for the best model is the
    score of the model that is named and is at least both scores, and
    the random forest is named only when it is strictly better, a tie
    going to gradient boosting; when the score of the random forest is
    NaN, gradient boosting is named while NaN is printed. *)
Theorem best_model_choice (rf_auc gb_auc : pyfloat) :
  ((exists a b, rf_auc = Fin a /\ gb_auc = Fin b) ->
   best_model_auc rf_auc gb_auc
   = (if decide (best_model_name rf_auc gb_auc = "Random Forest"%string)
      then rf_auc else gb_auc) /\
   fle rf_auc (best_model_auc rf_auc gb_auc) = true /\
   fle gb_auc (best_model_auc rf_auc gb_auc) = true /\
   (best_model_name rf_auc gb_auc = "Random Forest"%string <->
    flt gb_auc rf_auc = true)) /\
  (rf_auc = NaN ->
   best_model_name rf_auc gb_auc = "Gradient Boosting"%string /\
   best_model_auc rf_auc gb_auc = NaN).
Proof.
  split.
  - intros (a & b & -> & ->). unfold best_model_auc, best_model_name, py_max.
    cbn [flt].
    destruct (bool_decide (b < a)%Qc) eqn:Hba, (bool_decide (a < b)%Qc) eqn:Hab;
      rewrite ?decide_True by done; rewrite ?decide_False by done;
      rewrite !fle_fin;
      try apply bool_decide_eq_true in Hba; try apply bool_decide_eq_true in Hab;
      try apply bool_decide_eq_false in Hba; try apply bool_decide_eq_false in Hab.
    + exfalso. apply (Qclt_not_le _ _ Hba). by apply Qclt_le_weak.
    + split; [done|]. split; [apply Qcle_refl|].
      split; [by apply Qclt_le_weak | done].
    + split; [done|]. split; [by apply Qclt_le_weak|].
      split; [apply Qcle_refl | done].
    + assert (a = b) as ->.
      { apply Qcle_antisym; by apply Qcnot_lt_le. }
      split; [done|]. split; [apply Qcle_refl|]. split; [apply Qcle_refl | done].
  - intros ->. unfold best_model_name, best_model_auc, py_max.
    by destruct gb_auc as [b|[]|].
Qed.

End Evaluation.

Lemma accuracy_range_witness :
  exists q,
    MLModel.accuracy [1; 0; 1; 1] [1; 0; 0; 1] = Ok (Fin q) /\
    (0 <= q)%Qc /\ (q <= 1)%Qc /\ q <> 1%Qc.
Proof.
  destruct (accuracy_range [1; 0; 1; 1] [1; 0; 0; 1] eq_refl) as [_ Hq].
  destruct Hq as (q & Hrun & H0 & H1 & Hone & _); [done|].
  exists q. split; [done|]. split; [done|]. split; [done|].
  intros Heq. by apply Hone in Heq.
Defined.

Lemma best_model_choice_witness :
  MLModel.best_model_auc (Fin (Q2Qc (91 # 100))) (Fin (Q2Qc (88 # 100)))
  = Fin (Q2Qc (91 # 100)) /\
  MLModel.best_model_name NaN (Fin (Q2Qc (88 # 100))) = "Gradient Boosting"%string.
Proof.
  split.
  - destruct (proj1 (best_model_choice (Fin (Q2Qc (91 # 100)))
                       (Fin (Q2Qc (88 # 100))))) as (-> & _);
      [by eexists _, _|]. by_compute.
  - by apply (proj2 (best_model_choice NaN (Fin (Q2Qc (88 # 100))))).
Defined.
